(** * Banquet-hall booking backend (server.py): a shallow embedding

    The service is a FastAPI application over a MongoDB database.  The
    embedding follows the layers of [server.py]:

    - Python values and BSON documents (ordered field lists);
    - [datetime] with [isoformat] / [fromisoformat];
    - the pydantic models of the file, with [model_dump] and validation;
    - the collection operations of the driver that the handlers call
      ([find_one], [find(...).to_list(n)], [insert_one], [update_one],
      [delete_one]);
    - the token service ([create_access_token], [decode_token]) over the
      PyJWT interface, and the guard [get_current_admin];
    - the route handlers, as state-passing functions over the database;
    - the upload encoder ([base64.b64encode], [str.split]).

    The login route and the seeding at startup are left out: nothing below
    is stated about them. *)

From Stdlib Require Import List String Ascii ZArith NArith Bool Lia.
From Stdlib Require Strings.Byte.
Import ListNotations.

Set Implicit Arguments.
Local Open Scope string_scope.

(** ** Results of a handler

    A handler either returns, or raises [HTTPException(status_code, detail)],
    or dies with an exception nobody catches (the framework answers 500). *)

Inductive error :=
| HTTPException (status_code : Z) (detail : string)
| Unhandled (exc : string).

Inductive result (A : Type) :=
| Ok (a : A)
| Raise (e : error).
Arguments Ok {A} a.
Arguments Raise {A} e.

Definition bind {A B} (r : result A) (k : A -> result B) : result B :=
  match r with
  | Ok a => k a
  | Raise e => Raise e
  end.

Declare Scope result_scope.
Delimit Scope result_scope with result.
Notation "x <- c ;; k" := (bind c (fun x => k))
  (at level 61, c at next level, right associativity) : result_scope.

Fixpoint mapM {A B} (f : A -> result B) (l : list A) : result (list B) :=
  match l with
  | [] => Ok []
  | x :: xs =>
      match f x with
      | Ok y => match mapM f xs with
                | Ok ys => Ok (y :: ys)
                | Raise e => Raise e
                end
      | Raise e => Raise e
      end
  end.

(** ** datetime

    Only the textual form of a [datetime] is ever taken in the handlers, so a
    value is the record of its calendar fields.  [tzinfo] is the UTC offset in
    seconds, when the value is aware. *)

Record datetime := {
  year : N; month : N; day : N;
  hour : N; minute : N; second : N; microsecond : N;
  tzinfo : option Z
}.

Definition option_eqb {A} (eqb : A -> A -> bool) (a b : option A) : bool :=
  match a, b with
  | None, None => true
  | Some x, Some y => eqb x y
  | _, _ => false
  end.

Definition datetime_eqb (a b : datetime) : bool :=
  N.eqb (year a) (year b) && N.eqb (month a) (month b) && N.eqb (day a) (day b)
  && N.eqb (hour a) (hour b) && N.eqb (minute a) (minute b)
  && N.eqb (second a) (second b) && N.eqb (microsecond a) (microsecond b)
  && option_eqb Z.eqb (tzinfo a) (tzinfo b).

Definition is_leap (y : N) : bool :=
  (N.eqb (y mod 4) 0 && negb (N.eqb (y mod 100) 0)) || N.eqb (y mod 400) 0.

Definition days_in_month (y m : N) : N :=
  match m with
  | 2 => if is_leap y then 29 else 28
  | 4 | 6 | 9 | 11 => 30
  | _ => 31
  end%N.

(** The constructor's range checks ([ValueError] otherwise). *)
Definition valid_datetime (d : datetime) : bool :=
  (1 <=? year d)%N && (year d <=? 9999)%N
  && (1 <=? month d)%N && (month d <=? 12)%N
  && (1 <=? day d)%N && (day d <=? days_in_month (year d) (month d))%N
  && (hour d <? 24)%N && (minute d <? 60)%N && (second d <? 60)%N
  && (microsecond d <? 1000000)%N
  && match tzinfo d with
     | None => true
     | Some off => (-86400 <? off)%Z && (off <? 86400)%Z
     end.

(** *** Decimal fields *)

Definition digit_char (n : N) : ascii := ascii_of_N (48 + n mod 10).

(** ["%0<w>d" % n], for [n] below [10^w]. *)
Fixpoint pad (w : nat) (n : N) : string :=
  match w with
  | O => ""
  | S w' => pad w' (n / 10) ++ String (digit_char n) ""
  end.

Definition digit_val (c : ascii) : option N :=
  let n := N_of_ascii c in
  if (48 <=? n)%N && (n <=? 57)%N then Some (n - 48)%N else None.

(** Reads exactly [w] decimal digits; returns the number and the rest. *)
Fixpoint read_digits (w : nat) (acc : N) (s : string) : option (N * string) :=
  match w with
  | O => Some (acc, s)
  | S w' =>
      match s with
      | String c rest =>
          match digit_val c with
          | Some v => read_digits w' (10 * acc + v) rest
          | None => None
          end
      | EmptyString => None
      end
  end.

Definition expect (c : ascii) (s : string) : option string :=
  match s with
  | String c' rest => if Ascii.eqb c c' then Some rest else None
  | EmptyString => None
  end.

(** *** isoformat *)

Definition format_offset (tz : option Z) : string :=
  match tz with
  | None => ""
  | Some off =>
      let sign := if (off <? 0)%Z then "-" else "+" in
      let a := Z.to_N (Z.abs off) in
      let hh := (a / 3600)%N in
      let mm := ((a mod 3600) / 60)%N in
      let ss := (a mod 60)%N in
      sign ++ pad 2 hh ++ ":" ++ pad 2 mm
      ++ (if N.eqb ss 0 then "" else ":" ++ pad 2 ss)
  end.

Definition isoformat (d : datetime) : string :=
  pad 4 (year d) ++ "-" ++ pad 2 (month d) ++ "-" ++ pad 2 (day d) ++ "T"
  ++ pad 2 (hour d) ++ ":" ++ pad 2 (minute d) ++ ":" ++ pad 2 (second d)
  ++ (if N.eqb (microsecond d) 0 then "" else "." ++ pad 6 (microsecond d))
  ++ format_offset (tzinfo d).

(** *** fromisoformat

    The grammar is the one [isoformat] writes: [YYYY-MM-DD], one separator
    character, [HH:MM:SS], an optional fraction of three or six digits and an
    optional offset [+HH:MM] or [+HH:MM:SS].  (Python also reads shortened
    time parts; the service stores none.)  [None] stands for [ValueError]. *)

Definition parse_offset (s : string) : option (option Z) :=
  match s with
  | EmptyString => Some None
  | String c rest =>
      let sign :=
        if Ascii.eqb c "+" then Some 1%Z
        else if Ascii.eqb c "-" then Some (-1)%Z else None in
      match sign with
      | None => None
      | Some sg =>
          match read_digits 2 0 rest with
          | None => None
          | Some (hh, r1) =>
              match expect ":" r1 with
              | None => None
              | Some r2 =>
                  match read_digits 2 0 r2 with
                  | None => None
                  | Some (mm, r3) =>
                      match r3 with
                      | EmptyString =>
                          Some (Some (sg * Z.of_N (hh * 3600 + mm * 60))%Z)
                      | _ =>
                          match expect ":" r3 with
                          | None => None
                          | Some r4 =>
                              match read_digits 2 0 r4 with
                              | Some (ss, EmptyString) =>
                                  Some (Some (sg * Z.of_N (hh * 3600 + mm * 60 + ss))%Z)
                              | _ => None
                              end
                          end
                      end
                  end
              end
          end
      end
  end.

Definition parse_fraction (s : string) : option (N * string) :=
  match s with
  | String "."%char rest =>
      match read_digits 6 0 rest with
      | Some r => Some r
      | None =>
          match read_digits 3 0 rest with
          | Some (ms, r) => Some (ms * 1000, r)%N
          | None => None
          end
      end
  | _ => Some (0%N, s)
  end.

Definition fromisoformat (s : string) : option datetime :=
  match read_digits 4 0 s with
  | None => None
  | Some (y, s1) =>
  match expect "-" s1 with
  | None => None
  | Some s2 =>
  match read_digits 2 0 s2 with
  | None => None
  | Some (mo, s3) =>
  match expect "-" s3 with
  | None => None
  | Some s4 =>
  match read_digits 2 0 s4 with
  | None => None
  | Some (dd, s5) =>
  match s5 with
  | EmptyString => None
  | String _ s6 =>
  match read_digits 2 0 s6 with
  | None => None
  | Some (hh, s7) =>
  match expect ":" s7 with
  | None => None
  | Some s8 =>
  match read_digits 2 0 s8 with
  | None => None
  | Some (mi, s9) =>
  match expect ":" s9 with
  | None => None
  | Some s10 =>
  match read_digits 2 0 s10 with
  | None => None
  | Some (ss, s11) =>
  match parse_fraction s11 with
  | None => None
  | Some (us, s12) =>
  match parse_offset s12 with
  | None => None
  | Some tz =>
      let d := {| year := y; month := mo; day := dd; hour := hh; minute := mi;
                  second := ss; microsecond := us; tzinfo := tz |} in
      if valid_datetime d then Some d else None
  end end end end end end end end end end end end end.

(** ** Values and documents

    A BSON document is an ordered list of fields.  [VOid] is an [ObjectId],
    the store's own key, kept in the field [_id]. *)

#[warnings="-register-all"]
Inductive value :=
| VNull
| VBool (b : bool)
| VInt (z : Z)
| VStr (s : string)
| VDate (d : datetime)
| VOid (n : N)
| VList (l : list value)
| VDoc (fields : list (string * value)).

Definition doc := list (string * value).

Fixpoint value_eqb (a b : value) : bool :=
  match a, b with
  | VNull, VNull => true
  | VBool x, VBool y => Bool.eqb x y
  | VInt x, VInt y => Z.eqb x y
  | VStr x, VStr y => String.eqb x y
  | VDate x, VDate y => datetime_eqb x y
  | VOid x, VOid y => N.eqb x y
  | VList xs, VList ys =>
      (fix go (xs ys : list value) : bool :=
         match xs, ys with
         | [], [] => true
         | x :: xs', y :: ys' => value_eqb x y && go xs' ys'
         | _, _ => false
         end) xs ys
  | VDoc xs, VDoc ys =>
      (fix go (xs ys : list (string * value)) : bool :=
         match xs, ys with
         | [], [] => true
         | (k, x) :: xs', (k', y) :: ys' =>
             String.eqb k k' && value_eqb x y && go xs' ys'
         | _, _ => false
         end) xs ys
  | _, _ => false
  end.

(** [d.get(k)] *)
Fixpoint lookup {V : Type} (k : string) (d : list (string * V)) : option V :=
  match d with
  | [] => None
  | (k', v) :: rest => if String.eqb k k' then Some v else lookup k rest
  end.

Definition keys {V : Type} (d : list (string * V)) : list string := map fst d.

Definition has_key {V : Type} (k : string) (d : list (string * V)) : bool :=
  existsb (String.eqb k) (keys d).

(** [d[k] = v]: an existing key keeps its place, a new one goes last. *)
Fixpoint set_field {V : Type} (k : string) (v : V) (d : list (string * V))
  : list (string * V) :=
  match d with
  | [] => [(k, v)]
  | (k', v') :: rest =>
      if String.eqb k k' then (k', v) :: rest else (k', v') :: set_field k v rest
  end.

(** [d.update(u)], which is also what [$set] does to a stored document. *)
Definition update_fields {V : Type} (u d : list (string * V))
  : list (string * V) :=
  fold_left (fun acc kv => set_field (fst kv) (snd kv) acc) u d.

(** An exclusion projection such as [{"_id": 0, "password_hash": 0}]. *)
Definition project_out (excluded : list string) (d : doc) : doc :=
  filter (fun kv => negb (existsb (String.eqb (fst kv)) excluded)) d.

(** ** The document store

    A query document of the handlers is a list of equality conditions.  A
    condition [{k: v}] holds of a document when its field [k] equals [v],
    when the field is an array with an element equal to [v], or when [v] is
    null and the field is missing.  (Query operators are not interpreted: no
    handler writes one.) *)

Definition query := list (string * value).

Definition field_matches (v : value) (field : option value) : bool :=
  match field with
  | None => value_eqb v VNull
  | Some (VList l) => value_eqb (VList l) v || existsb (fun x => value_eqb x v) l
  | Some x => value_eqb x v
  end.

Definition matches (q : query) (d : doc) : bool :=
  forallb (fun c => field_matches (snd c) (lookup (fst c) d)) q.

Definition collection := list doc.

(** [coll.find_one(q, projection)] *)
Definition find_one (q : query) (excluded : list string) (c : collection)
  : option doc :=
  match filter (matches q) c with
  | [] => None
  | d :: _ => Some (project_out excluded d)
  end.

(** [coll.find(q, projection).to_list(n)] *)
Definition find_to_list (q : query) (excluded : list string) (n : nat)
  (c : collection) : list doc :=
  map (project_out excluded) (firstn n (filter (matches q) c)).

(** [coll.insert_one(d)]: the driver adds [_id] when the document has none. *)
Definition with_oid (oid : N) (d : doc) : doc :=
  if has_key "_id" d then d else ("_id", VOid oid) :: d.

Definition insert_one (oid : N) (d : doc) (c : collection) : collection :=
  (c ++ [with_oid oid d])%list.

(** [coll.update_one(q, {"$set": u})]: the first match is updated in place.
    The result also tells whether a document matched. *)
Fixpoint update_first (q : query) (u : doc) (c : collection)
  : collection * bool :=
  match c with
  | [] => ([], false)
  | d :: rest =>
      if matches q d then (update_fields u d :: rest, true)
      else let (rest', hit) := update_first q u rest in (d :: rest', hit)
  end.

Definition update_one (q : query) (u : doc) (c : collection) : collection :=
  fst (update_first q u c).

(** [coll.update_one(q, {"$set": u}, upsert=True)]: without a match, the
    document made of the query's conditions and then of [u] is inserted. *)
Definition update_one_upsert (oid : N) (q : query) (u : doc) (c : collection)
  : collection :=
  let (c', hit) := update_first q u c in
  if hit then c' else (c ++ [with_oid oid (update_fields u q)])%list.

(** [coll.delete_one(q)]: the first match goes. *)
Fixpoint delete_one (q : query) (c : collection) : collection :=
  match c with
  | [] => []
  | d :: rest => if matches q d then rest else d :: delete_one q rest
  end.

Record database := {
  admins : collection;
  halls : collection;
  services : collection;
  packages : collection;
  shubh_dates : collection;
  bookings : collection;
  bills : collection;
  settings : collection;
  next_oid : N   (* the next ObjectId the driver hands out *)
}.

Definition set_admins (c : collection) (db : database) : database :=
  {| admins := c; halls := halls db; services := services db;
     packages := packages db; shubh_dates := shubh_dates db;
     bookings := bookings db; bills := bills db; settings := settings db;
     next_oid := next_oid db |}.
Definition set_halls (c : collection) (db : database) : database :=
  {| admins := admins db; halls := c; services := services db;
     packages := packages db; shubh_dates := shubh_dates db;
     bookings := bookings db; bills := bills db; settings := settings db;
     next_oid := next_oid db |}.
Definition set_services (c : collection) (db : database) : database :=
  {| admins := admins db; halls := halls db; services := c;
     packages := packages db; shubh_dates := shubh_dates db;
     bookings := bookings db; bills := bills db; settings := settings db;
     next_oid := next_oid db |}.
Definition set_packages (c : collection) (db : database) : database :=
  {| admins := admins db; halls := halls db; services := services db;
     packages := c; shubh_dates := shubh_dates db;
     bookings := bookings db; bills := bills db; settings := settings db;
     next_oid := next_oid db |}.
Definition set_shubh_dates (c : collection) (db : database) : database :=
  {| admins := admins db; halls := halls db; services := services db;
     packages := packages db; shubh_dates := c;
     bookings := bookings db; bills := bills db; settings := settings db;
     next_oid := next_oid db |}.
Definition set_bookings (c : collection) (db : database) : database :=
  {| admins := admins db; halls := halls db; services := services db;
     packages := packages db; shubh_dates := shubh_dates db;
     bookings := c; bills := bills db; settings := settings db;
     next_oid := next_oid db |}.
Definition set_bills (c : collection) (db : database) : database :=
  {| admins := admins db; halls := halls db; services := services db;
     packages := packages db; shubh_dates := shubh_dates db;
     bookings := bookings db; bills := c; settings := settings db;
     next_oid := next_oid db |}.
Definition set_settings (c : collection) (db : database) : database :=
  {| admins := admins db; halls := halls db; services := services db;
     packages := packages db; shubh_dates := shubh_dates db;
     bookings := bookings db; bills := bills db; settings := c;
     next_oid := next_oid db |}.
Definition bump_oid (db : database) : database :=
  {| admins := admins db; halls := halls db; services := services db;
     packages := packages db; shubh_dates := shubh_dates db;
     bookings := bookings db; bills := bills db; settings := settings db;
     next_oid := N.succ (next_oid db) |}.

(** ** The pydantic models

    One module per class of [server.py]: the record of its fields,
    [model_dump] (the fields in declaration order) and [validate], which
    builds an instance from a document as [response_model] does
    ([extra="ignore"]: undeclared fields are dropped; a missing field takes
    its default).  A field is accepted in the type the service stores it in
    and is a validation error, [None] here, otherwise; the conversions
    pydantic would try between types (a numeric string for an [int], say)
    are not modelled, and no document the service writes needs one.
    [validate] takes the values the default factories would return: [uuid]
    for [uuid.uuid4()] and [now] for [datetime.now(timezone.utc)]. *)

Definition obind {A B} (o : option A) (k : A -> option B) : option B :=
  match o with
  | Some a => k a
  | None => None
  end.

Declare Scope validate_scope.
Delimit Scope validate_scope with validate.
Notation "x <~ c ;; k" := (obind c (fun x => k))
  (at level 61, c at next level, right associativity) : validate_scope.

Definition vopt_str (o : option string) : value :=
  match o with Some s => VStr s | None => VNull end.
Definition vopt_int (o : option Z) : value :=
  match o with Some z => VInt z | None => VNull end.
Definition vopt_doc (o : option doc) : value :=
  match o with Some d => VDoc d | None => VNull end.
Definition vdocs (l : list doc) : value := VList (map VDoc l).

(** [f: str] *)
Definition get_str (k : string) (d : doc) : option string :=
  match lookup k d with
  | Some (VStr s) => Some s
  | _ => None
  end.
(** [f: str = default] *)
Definition get_str_default (k : string) (default : string) (d : doc)
  : option string :=
  match lookup k d with
  | None => Some default
  | Some (VStr s) => Some s
  | Some _ => None
  end.
(** [f: Optional[str] = None] *)
Definition get_opt_str (k : string) (d : doc) : option (option string) :=
  match lookup k d with
  | None | Some VNull => Some None
  | Some (VStr s) => Some (Some s)
  | Some _ => None
  end.
(** [f: int] *)
Definition get_int (k : string) (d : doc) : option Z :=
  match lookup k d with
  | Some (VInt z) => Some z
  | _ => None
  end.
(** [f: int = default] *)
Definition get_int_default (k : string) (default : Z) (d : doc) : option Z :=
  match lookup k d with
  | None => Some default
  | Some (VInt z) => Some z
  | Some _ => None
  end.
(** [f: Optional[int] = None] *)
Definition get_opt_int (k : string) (d : doc) : option (option Z) :=
  match lookup k d with
  | None | Some VNull => Some None
  | Some (VInt z) => Some (Some z)
  | Some _ => None
  end.
(** [f: bool = default] *)
Definition get_bool_default (k : string) (default : bool) (d : doc)
  : option bool :=
  match lookup k d with
  | None => Some default
  | Some (VBool b) => Some b
  | Some _ => None
  end.
(** [f: datetime = Field(default_factory=...)] *)
Definition get_datetime_default (k : string) (default : datetime) (d : doc)
  : option datetime :=
  match lookup k d with
  | None => Some default
  | Some (VDate t) => Some t
  | Some _ => None
  end.

Fixpoint all_docs (l : list value) : option (list doc) :=
  match l with
  | [] => Some []
  | VDoc d :: rest =>
      match all_docs rest with
      | Some ds => Some (d :: ds)
      | None => None
      end
  | _ :: _ => None
  end.
(** [f: List[dict] = []] *)
Definition get_docs (k : string) (d : doc) : option (list doc) :=
  match lookup k d with
  | None => Some []
  | Some (VList l) => all_docs l
  | Some _ => None
  end.
(** [f: Optional[dict] = {}] *)
Definition get_opt_doc (k : string) (d : doc) : option (option doc) :=
  match lookup k d with
  | None => Some (Some [])
  | Some VNull => Some None
  | Some (VDoc x) => Some (Some x)
  | Some _ => None
  end.

Local Open Scope validate_scope.

Module Admin.
Record t := {
  id : string;
  username : string;
  password_hash : string;
  hall_name : string;
  created_at : datetime
}.
Definition model_dump (a : t) : doc :=
  [ ("id", VStr (id a)); ("username", VStr (username a));
    ("password_hash", VStr (password_hash a));
    ("hall_name", VStr (hall_name a)); ("created_at", VDate (created_at a)) ].
End Admin.

Module AdminLogin.
Record t := { username : string; password : string }.
End AdminLogin.

Module AdminResponse.
Record t := { id : string; username : string; hall_name : string }.
Definition model_dump (a : t) : doc :=
  [ ("id", VStr (id a)); ("username", VStr (username a));
    ("hall_name", VStr (hall_name a)) ].
Definition validate (d : doc) : option t :=
  i <~ get_str "id" d ;;
  u <~ get_str "username" d ;;
  h <~ get_str "hall_name" d ;;
  Some {| id := i; username := u; hall_name := h |}.
End AdminResponse.

Module ChangePassword.
Record t := { old_password : string; new_password : string }.
End ChangePassword.

Module Hall.
Record t := {
  id : string;
  name : string;
  name_mr : string;
  capacity : Z;
  approx_rent : Z;
  location : string;
  image_url : string;
  logo : option string;
  description : option string;
  description_mr : option string
}.
Definition model_dump (h : t) : doc :=
  [ ("id", VStr (id h)); ("name", VStr (name h));
    ("name_mr", VStr (name_mr h)); ("capacity", VInt (capacity h));
    ("approx_rent", VInt (approx_rent h)); ("location", VStr (location h));
    ("image_url", VStr (image_url h)); ("logo", vopt_str (logo h));
    ("description", vopt_str (description h));
    ("description_mr", vopt_str (description_mr h)) ].
Definition validate (uuid : string) (d : doc) : option t :=
  i <~ get_str_default "id" uuid d ;;
  n <~ get_str "name" d ;;
  nm <~ get_str "name_mr" d ;;
  c <~ get_int "capacity" d ;;
  r <~ get_int "approx_rent" d ;;
  l <~ get_str "location" d ;;
  im <~ get_str "image_url" d ;;
  lg <~ get_opt_str "logo" d ;;
  de <~ get_opt_str "description" d ;;
  dm <~ get_opt_str "description_mr" d ;;
  Some {| id := i; name := n; name_mr := nm; capacity := c;
          approx_rent := r; location := l; image_url := im; logo := lg;
          description := de; description_mr := dm |}.
End Hall.

Module Service.
Record t := {
  id : string;
  hall_id : string;
  name : string;
  name_mr : string;
  price : option Z;
  description : option string;
  description_mr : option string;
  image_url : option string
}.
Definition model_dump (s : t) : doc :=
  [ ("id", VStr (id s)); ("hall_id", VStr (hall_id s));
    ("name", VStr (name s)); ("name_mr", VStr (name_mr s));
    ("price", vopt_int (price s));
    ("description", vopt_str (description s));
    ("description_mr", vopt_str (description_mr s));
    ("image_url", vopt_str (image_url s)) ].
Definition validate (uuid : string) (d : doc) : option t :=
  i <~ get_str_default "id" uuid d ;;
  h <~ get_str "hall_id" d ;;
  n <~ get_str "name" d ;;
  nm <~ get_str "name_mr" d ;;
  p <~ get_opt_int "price" d ;;
  de <~ get_opt_str "description" d ;;
  dm <~ get_opt_str "description_mr" d ;;
  im <~ get_opt_str "image_url" d ;;
  Some {| id := i; hall_id := h; name := n; name_mr := nm; price := p;
          description := de; description_mr := dm; image_url := im |}.
End Service.

Module Package.
Record t := {
  id : string;
  hall_id : string;
  package_type : string;
  name : string;
  name_mr : string;
  items : list doc;
  rent : option Z;
  custom_charges : list doc;
  catalogue_url : option string;
  catalogue_image : option string;
  description : option string;
  description_mr : option string;
  custom_fields : option doc
}.
Definition model_dump (p : t) : doc :=
  [ ("id", VStr (id p)); ("hall_id", VStr (hall_id p));
    ("package_type", VStr (package_type p)); ("name", VStr (name p));
    ("name_mr", VStr (name_mr p)); ("items", vdocs (items p));
    ("rent", vopt_int (rent p));
    ("custom_charges", vdocs (custom_charges p));
    ("catalogue_url", vopt_str (catalogue_url p));
    ("catalogue_image", vopt_str (catalogue_image p));
    ("description", vopt_str (description p));
    ("description_mr", vopt_str (description_mr p));
    ("custom_fields", vopt_doc (custom_fields p)) ].
Definition validate (uuid : string) (d : doc) : option t :=
  i <~ get_str_default "id" uuid d ;;
  h <~ get_str "hall_id" d ;;
  pt <~ get_str "package_type" d ;;
  n <~ get_str "name" d ;;
  nm <~ get_str "name_mr" d ;;
  it <~ get_docs "items" d ;;
  r <~ get_opt_int "rent" d ;;
  cc <~ get_docs "custom_charges" d ;;
  cu <~ get_opt_str "catalogue_url" d ;;
  ci <~ get_opt_str "catalogue_image" d ;;
  de <~ get_opt_str "description" d ;;
  dm <~ get_opt_str "description_mr" d ;;
  cf <~ get_opt_doc "custom_fields" d ;;
  Some {| id := i; hall_id := h; package_type := pt; name := n;
          name_mr := nm; items := it; rent := r; custom_charges := cc;
          catalogue_url := cu; catalogue_image := ci; description := de;
          description_mr := dm; custom_fields := cf |}.
End Package.

Module ShubhDate.
Record t := {
  id : string;
  date : string;
  occasion : string;
  occasion_mr : string;
  hall_id : string
}.
Definition model_dump (s : t) : doc :=
  [ ("id", VStr (id s)); ("date", VStr (date s));
    ("occasion", VStr (occasion s)); ("occasion_mr", VStr (occasion_mr s));
    ("hall_id", VStr (hall_id s)) ].
Definition validate (uuid : string) (d : doc) : option t :=
  i <~ get_str_default "id" uuid d ;;
  da <~ get_str "date" d ;;
  o <~ get_str "occasion" d ;;
  om <~ get_str "occasion_mr" d ;;
  h <~ get_str "hall_id" d ;;
  Some {| id := i; date := da; occasion := o; occasion_mr := om;
          hall_id := h |}.
End ShubhDate.

Module Booking.
Record t := {
  id : string;
  hall_id : string;
  date : string;
  customer_name : string;
  customer_city : string;
  customer_phone : string;
  event_type : string;
  num_guests : Z;
  booking_taken_by : option string;
  booking_date : datetime;
  status : string
}.
Definition model_dump (b : t) : doc :=
  [ ("id", VStr (id b)); ("hall_id", VStr (hall_id b));
    ("date", VStr (date b)); ("customer_name", VStr (customer_name b));
    ("customer_city", VStr (customer_city b));
    ("customer_phone", VStr (customer_phone b));
    ("event_type", VStr (event_type b)); ("num_guests", VInt (num_guests b));
    ("booking_taken_by", vopt_str (booking_taken_by b));
    ("booking_date", VDate (booking_date b)); ("status", VStr (status b)) ].
Definition validate (uuid : string) (now : datetime) (d : doc) : option t :=
  i <~ get_str_default "id" uuid d ;;
  h <~ get_str "hall_id" d ;;
  da <~ get_str "date" d ;;
  cn <~ get_str "customer_name" d ;;
  cc <~ get_str "customer_city" d ;;
  cp <~ get_str "customer_phone" d ;;
  et <~ get_str "event_type" d ;;
  ng <~ get_int "num_guests" d ;;
  tb <~ get_opt_str "booking_taken_by" d ;;
  bd <~ get_datetime_default "booking_date" now d ;;
  st <~ get_str_default "status" "booked" d ;;
  Some {| id := i; hall_id := h; date := da; customer_name := cn;
          customer_city := cc; customer_phone := cp; event_type := et;
          num_guests := ng; booking_taken_by := tb; booking_date := bd;
          status := st |}.
End Booking.

Module Bill.
Record t := {
  id : string;
  booking_id : option string;
  hall_id : string;
  hall_name : string;
  customer_name : string;
  customer_city : string;
  booking_date : string;
  event_date : string;
  num_guests : Z;
  event_type : string;
  services : list doc;
  thali_items : list doc;
  hall_rent : Z;
  custom_charges : list doc;
  discount : Z;
  pre_booking_amount : Z;
  total_amount : Z;
  balance_due : Z;
  created_at : datetime
}.
Definition model_dump (b : t) : doc :=
  [ ("id", VStr (id b)); ("booking_id", vopt_str (booking_id b));
    ("hall_id", VStr (hall_id b)); ("hall_name", VStr (hall_name b));
    ("customer_name", VStr (customer_name b));
    ("customer_city", VStr (customer_city b));
    ("booking_date", VStr (booking_date b));
    ("event_date", VStr (event_date b)); ("num_guests", VInt (num_guests b));
    ("event_type", VStr (event_type b)); ("services", vdocs (services b));
    ("thali_items", vdocs (thali_items b)); ("hall_rent", VInt (hall_rent b));
    ("custom_charges", vdocs (custom_charges b));
    ("discount", VInt (discount b));
    ("pre_booking_amount", VInt (pre_booking_amount b));
    ("total_amount", VInt (total_amount b));
    ("balance_due", VInt (balance_due b));
    ("created_at", VDate (created_at b)) ].
Definition validate (uuid : string) (now : datetime) (d : doc) : option t :=
  i <~ get_str_default "id" uuid d ;;
  bi <~ get_opt_str "booking_id" d ;;
  h <~ get_str "hall_id" d ;;
  hn <~ get_str "hall_name" d ;;
  cn <~ get_str "customer_name" d ;;
  cc <~ get_str "customer_city" d ;;
  bd <~ get_str "booking_date" d ;;
  ed <~ get_str "event_date" d ;;
  ng <~ get_int "num_guests" d ;;
  et <~ get_str "event_type" d ;;
  sv <~ get_docs "services" d ;;
  ti <~ get_docs "thali_items" d ;;
  hr <~ get_int "hall_rent" d ;;
  ch <~ get_docs "custom_charges" d ;;
  di <~ get_int_default "discount" 0 d ;;
  pb <~ get_int_default "pre_booking_amount" 0 d ;;
  ta <~ get_int "total_amount" d ;;
  ba <~ get_int "balance_due" d ;;
  ca <~ get_datetime_default "created_at" now d ;;
  Some {| id := i; booking_id := bi; hall_id := h; hall_name := hn;
          customer_name := cn; customer_city := cc; booking_date := bd;
          event_date := ed; num_guests := ng; event_type := et;
          services := sv; thali_items := ti; hall_rent := hr;
          custom_charges := ch; discount := di; pre_booking_amount := pb;
          total_amount := ta; balance_due := ba; created_at := ca |}.
End Bill.

Module Settings.
Record t := {
  id : string;
  signup_enabled : bool;
  language : string;
  theme : string
}.
(** [Settings()] *)
Definition default : t :=
  {| id := "settings"; signup_enabled := false; language := "en";
     theme := "light" |}.
Definition model_dump (s : t) : doc :=
  [ ("id", VStr (id s)); ("signup_enabled", VBool (signup_enabled s));
    ("language", VStr (language s)); ("theme", VStr (theme s)) ].
Definition validate (d : doc) : option t :=
  i <~ get_str_default "id" "settings" d ;;
  se <~ get_bool_default "signup_enabled" false d ;;
  l <~ get_str_default "language" "en" d ;;
  th <~ get_str_default "theme" "light" d ;;
  Some {| id := i; signup_enabled := se; language := l; theme := th |}.
End Settings.

Local Close Scope validate_scope.

(** What [response_model=M] does to a handler's return value. *)
Definition response_validation {M} (validate : doc -> option M) (d : doc)
  : result M :=
  match validate d with
  | Some m => Ok m
  | None => Raise (Unhandled "ResponseValidationError")
  end.

(** [response_model=List[M]]; [validate i] is the validation of the [i]-th
    element (the default factories draw a value per element). *)
Fixpoint response_validation_list {M} (validate : nat -> doc -> option M)
  (i : nat) (l : list doc) : result (list M) :=
  match l with
  | [] => Ok []
  | d :: rest =>
      match validate i d with
      | None => Raise (Unhandled "ResponseValidationError")
      | Some m =>
          match response_validation_list validate (S i) rest with
          | Ok ms => Ok (m :: ms)
          | Raise e => Raise e
          end
      end
  end.

(** ** Token service: the PyJWT interface

    Time is counted in microseconds since the epoch, the resolution of
    [datetime.now(timezone.utc)]; the clock [jwt.decode] reads, a float
    number of seconds, is the same count.  A claim handed to [jwt.encode]
    may be a [datetime] ([CTime]); on the wire a claim is a JSON value.  A
    bearer string is seen through its parse: either it is not a compact JWS
    at all, or it has a header algorithm, a payload and a signature.  The
    library is PyJWT 2.x. *)

Inductive claim :=
| CNull
| CBool (b : bool)
| CInt (z : Z)
| CStr (s : string)
| CTime (t : Z).

Inductive json :=
| JNull
| JBool (b : bool)
| JInt (z : Z)
| JStr (s : string).

Definition claims := list (string * claim).
Definition payload := list (string * json).

Record jws := {
  jws_alg : string;
  jws_payload : payload;
  jws_signature : string
}.

Inductive token :=
| NotAJWS (raw : string)
| JWS (j : jws).

Inductive jwt_exception :=
| ExpiredSignatureError
| InvalidTokenError.   (* any other subclass of InvalidTokenError *)

Definition ALGORITHM : string := "HS256".

(** [timedelta(hours=n)] *)
Definition hours (n : Z) : Z := n * 3600 * 1000000.

(** [timegm(t.utctimetuple())]: whole seconds, the microseconds dropped. *)
Definition timegm (t : Z) : Z := t / 1000000.

Definition is_time_claim (k : string) : bool :=
  existsb (String.eqb k) ["exp"; "iat"; "nbf"].

(** [jwt.encode] turns a [datetime] under [exp], [iat] or [nbf] into its
    whole-second timestamp; a [datetime] elsewhere is not JSON serializable. *)
Definition encode_claim (kv : string * claim) : option (string * json) :=
  match snd kv with
  | CNull => Some (fst kv, JNull)
  | CBool b => Some (fst kv, JBool b)
  | CInt z => Some (fst kv, JInt z)
  | CStr s => Some (fst kv, JStr s)
  | CTime t =>
      if is_time_claim (fst kv) then Some (fst kv, JInt (timegm t)) else None
  end.

Fixpoint encode_claims (l : claims) : option payload :=
  match l with
  | [] => Some []
  | kv :: rest =>
      match encode_claim kv, encode_claims rest with
      | Some c, Some cs => Some (c :: cs)
      | _, _ => None
      end
  end.

(** [bool(x)] of a JSON value *)
Definition truthy (j : json) : bool :=
  match j with
  | JNull => false
  | JBool b => b
  | JInt z => negb (Z.eqb z 0)
  | JStr s => negb (String.eqb s "")
  end.

(** The registered-claim checks of [jwt.decode] with its default options and
    no audience, at the time [now], in the library's order.  A time claim
    that is not an integer is rejected. *)
Definition validate_iat (p : payload) (now : Z) : option jwt_exception :=
  match lookup "iat" p with
  | None => None
  | Some (JInt iat) =>
      if (now <? iat * 1000000)%Z then Some InvalidTokenError else None
  | Some _ => Some InvalidTokenError
  end.

Definition validate_nbf (p : payload) (now : Z) : option jwt_exception :=
  match lookup "nbf" p with
  | None => None
  | Some (JInt nbf) =>
      if (now <? nbf * 1000000)%Z then Some InvalidTokenError else None
  | Some _ => Some InvalidTokenError
  end.

(** [if exp <= now: raise ExpiredSignatureError] *)
Definition validate_exp (p : payload) (now : Z) : option jwt_exception :=
  match lookup "exp" p with
  | None => None
  | Some (JInt exp) =>
      if (exp * 1000000 <=? now)%Z then Some ExpiredSignatureError else None
  | Some _ => Some InvalidTokenError
  end.

Definition validate_aud (p : payload) : option jwt_exception :=
  match lookup "aud" p with
  | None => None
  | Some a => if truthy a then Some InvalidTokenError else None
  end.

Definition validate_claims (p : payload) (now : Z) : option jwt_exception :=
  match validate_iat p now with
  | Some e => Some e
  | None =>
      match validate_nbf p now with
      | Some e => Some e
      | None =>
          match validate_exp p now with
          | Some e => Some e
          | None => validate_aud p
          end
      end
  end.

Definition json_value (j : json) : value :=
  match j with
  | JNull => VNull
  | JBool b => VBool b
  | JInt z => VInt z
  | JStr s => VStr s
  end.

(** [if x:] on what [find_one] returns *)
Definition found (o : option doc) : bool :=
  match o with
  | Some (_ :: _) => true
  | _ => false
  end.

(** [{"hall_id": hall_id} if hall_id else {}], with further conditions *)
Definition hall_query (hall_id : option string) (rest : query) : query :=
  match hall_id with
  | Some h => if String.eqb h "" then rest else ("hall_id", VStr h) :: rest
  | None => rest
  end.

Definition message (m : string) : doc := [("message", VStr m)].

(** ** Upload encoder: [base64.b64encode] and [str.split] *)

Definition b64_alphabet : string :=
  "ABCDEFGHIJKLMNOPQRSTUVWXYZabcdefghijklmnopqrstuvwxyz0123456789+/".

Definition b64_char (n : N) : ascii :=
  match String.get (N.to_nat n) b64_alphabet with
  | Some c => c
  | None => "="%char
  end.

Fixpoint b64encode (l : list Byte.byte) : string :=
  match l with
  | [] => ""
  | [a] =>
      let x := Byte.to_N a in
      String (b64_char (x / 4))
        (String (b64_char ((x mod 4) * 16)) "==")
  | [a; b] =>
      let x := Byte.to_N a in
      let y := Byte.to_N b in
      String (b64_char (x / 4))
        (String (b64_char ((x mod 4) * 16 + y / 16))
           (String (b64_char ((y mod 16) * 4)) "="))
  | a :: b :: c :: rest =>
      let x := Byte.to_N a in
      let y := Byte.to_N b in
      let z := Byte.to_N c in
      String (b64_char (x / 4))
        (String (b64_char ((x mod 4) * 16 + y / 16))
           (String (b64_char ((y mod 16) * 4 + z / 64))
              (String (b64_char (z mod 64)) (b64encode rest))))
  end.

(** [s.split(sep)] for a one-character separator: never empty. *)
Fixpoint split (sep : ascii) (s : string) : list string :=
  match s with
  | EmptyString => [""]
  | String c rest =>
      if Ascii.eqb c sep then "" :: split sep rest
      else match split sep rest with
           | piece :: pieces => String c piece :: pieces
           | [] => [String c ""]
           end
  end.

(** [l[-1]] of a non-empty list of strings *)
Definition last_piece (l : list string) : string := last l "".

(** The route [POST /upload-image]; [filename] is [file.filename], which the
    framework types as optional.  Every exception of the body is turned into
    a 500 by the handler's [except]. *)
Definition upload_image (contents : list Byte.byte) (filename : option string)
  : result doc :=
  match filename with
  | None =>
      Raise (HTTPException 500
        "Error uploading image: 'NoneType' object has no attribute 'split'")
  | Some name =>
      let base64_image := b64encode contents in
      let file_extension := last_piece (split "." name) in
      let image_data :=
        "data:image/" ++ file_extension ++ ";base64," ++ base64_image in
      Ok [("image_data", VStr image_data)]
  end.

(** ** The application

    What the process takes from its environment and from its libraries:
    the signing secret, HMAC-SHA256 over a header algorithm and a payload,
    and the bcrypt context ([pwd_hash salt password] is [pwd_context.hash]
    drawing [salt]; [pwd_verify] is [pwd_context.verify], [None] when it
    raises). *)

Section Server.

Variable SECRET_KEY : string.
Variable hs256 : string -> string * payload -> string.
Variable pwd_hash : string -> string -> string.
Variable pwd_verify : value -> value -> option bool.

(** [jwt.encode(payload, key, algorithm=...)] *)
Definition jwt_encode (p : claims) (key : string) (algorithm : string)
  : result token :=
  match encode_claims p with
  | None => Raise (Unhandled "TypeError")
  | Some body =>
      Ok (JWS {| jws_alg := algorithm; jws_payload := body;
                 jws_signature := hs256 key (algorithm, body) |})
  end.

(** [jwt.decode(token, key, algorithms=[...])] at the time [now] *)
Definition jwt_decode (t : token) (key : string) (algorithms : list string)
  (now : Z) : jwt_exception + payload :=
  match t with
  | NotAJWS _ => inl InvalidTokenError
  | JWS j =>
      if negb (existsb (String.eqb (jws_alg j)) algorithms)
      then inl InvalidTokenError
      else if negb (String.eqb (jws_signature j)
                      (hs256 key (jws_alg j, jws_payload j)))
      then inl InvalidTokenError
      else match validate_claims (jws_payload j) now with
           | Some e => inl e
           | None => inr (jws_payload j)
           end
  end.

Definition create_access_token (data : claims) (now : Z) : result token :=
  let to_encode := data in
  let expire := (now + hours 24)%Z in
  let to_encode := update_fields [("exp", CTime expire)] to_encode in
  jwt_encode to_encode SECRET_KEY ALGORITHM.

Definition decode_token (t : token) (now : Z) : result payload :=
  match jwt_decode t SECRET_KEY [ALGORITHM] now with
  | inr p => Ok p
  | inl ExpiredSignatureError => Raise (HTTPException 401 "Token expired")
  | inl InvalidTokenError => Raise (HTTPException 401 "Invalid token")
  end.

Definition handler (A : Type) : Type := database -> result A * database.

(** The dependency [get_current_admin]; it only reads. *)
Definition get_current_admin (credentials : token) (now : Z) (db : database)
  : result doc :=
  match decode_token credentials now with
  | Raise e => Raise e
  | Ok p =>
      let admin_id :=
        match lookup "sub" p with
        | Some j => json_value j
        | None => VNull
        end in
      let admin := find_one [("id", admin_id)] ["_id"] (admins db) in
      if found admin
      then match admin with Some a => Ok a | None => Ok [] end
      else Raise (HTTPException 401 "Admin not found")
  end.

(** *** Admins *)

Definition change_password (change_pwd : ChangePassword.t) (admin : doc)
  (salt : string) : handler doc := fun db =>
  match lookup "password_hash" admin with
  | None => (Raise (Unhandled "KeyError"), db)
  | Some stored =>
      match pwd_verify (VStr (ChangePassword.old_password change_pwd)) stored with
      | None => (Raise (Unhandled "TypeError"), db)
      | Some false => (Raise (HTTPException 400 "Invalid old password"), db)
      | Some true =>
          let new_hash := pwd_hash salt (ChangePassword.new_password change_pwd) in
          match lookup "id" admin with
          | None => (Raise (Unhandled "KeyError"), db)
          | Some i =>
              (Ok (message "Password changed successfully"),
               set_admins
                 (update_one [("id", i)] [("password_hash", VStr new_hash)]
                    (admins db)) db)
          end
      end
  end.

Definition get_admins (admin : doc) (db : database) : list doc :=
  find_to_list [] ["_id"; "password_hash"] 100 (admins db).

(** [GET /admins] with [response_model=List[AdminResponse]] *)
Definition get_admins_response (admin : doc) (db : database)
  : result (list AdminResponse.t) :=
  response_validation_list (fun _ => AdminResponse.validate) 0
    (get_admins admin db).

(** [uuid] and [now] are what the default factories of [Admin] return, and
    [salt] what the hashing draws. *)
Definition create_admin (admin_data : doc) (admin : doc)
  (uuid : string) (now : datetime) (salt : string) : handler doc := fun db =>
  match lookup "username" admin_data with
  | None => (Raise (Unhandled "KeyError"), db)
  | Some username =>
      let existing := find_one [("username", username)] [] (admins db) in
      if found existing
      then (Raise (HTTPException 400 "Username already exists"), db)
      else
        match lookup "password" admin_data with
        | None => (Raise (Unhandled "KeyError"), db)
        | Some (VStr password) =>
            match lookup "hall_name" admin_data with
            | None => (Raise (Unhandled "KeyError"), db)
            | Some hall_name =>
                match username, hall_name with
                | VStr u, VStr h =>
                    let new_admin :=
                      {| Admin.id := uuid; Admin.username := u;
                         Admin.password_hash := pwd_hash salt password;
                         Admin.hall_name := h; Admin.created_at := now |} in
                    (Ok [("message", VStr "Admin created successfully");
                         ("id", VStr (Admin.id new_admin))],
                     bump_oid
                       (set_admins
                          (insert_one (next_oid db)
                             (Admin.model_dump new_admin) (admins db)) db))
                | _, _ => (Raise (Unhandled "ValidationError"), db)
                end
            end
        | Some _ => (Raise (Unhandled "TypeError"), db)
        end
  end.

Definition delete_admin (admin_id : string) (admin : doc) : handler doc :=
  fun db =>
  match lookup "id" admin with
  | None => (Raise (Unhandled "KeyError"), db)
  | Some own =>
      if value_eqb (VStr admin_id) own
      then (Raise (HTTPException 400 "Cannot delete your own account"), db)
      else
        (Ok (message "Admin deleted successfully"),
         set_admins (delete_one [("id", VStr admin_id)] (admins db)) db)
  end.

(** *** Halls *)

Definition get_halls (db : database) : list doc :=
  find_to_list [] ["_id"] 100 (halls db).

Definition get_halls_response (uuid4 : nat -> string) (db : database)
  : result (list Hall.t) :=
  response_validation_list (fun i => Hall.validate (uuid4 i)) 0 (get_halls db).

Definition get_hall (hall_id : string) (db : database) : result doc :=
  let hall := find_one [("id", VStr hall_id)] ["_id"] (halls db) in
  if found hall
  then match hall with Some h => Ok h | None => Ok [] end
  else Raise (HTTPException 404 "Hall not found").

Definition update_hall (hall_id : string) (hall : Hall.t) (admin : doc)
  : handler doc := fun db =>
  (Ok (message "Hall updated successfully"),
   set_halls
     (update_one [("id", VStr hall_id)] (Hall.model_dump hall) (halls db)) db).

(** *** Services *)

Definition get_services (hall_id : option string) (db : database)
  : list doc :=
  let q := hall_query hall_id [] in
  find_to_list q ["_id"] 1000 (services db).

Definition get_services_response (uuid4 : nat -> string)
  (hall_id : option string) (db : database) : result (list Service.t) :=
  response_validation_list (fun i => Service.validate (uuid4 i)) 0
    (get_services hall_id db).

Definition create_service (service : Service.t) (admin : doc)
  : handler Service.t := fun db =>
  (Ok service,
   bump_oid
     (set_services
        (insert_one (next_oid db) (Service.model_dump service) (services db))
        db)).

Definition update_service (service_id : string) (service : Service.t)
  (admin : doc) : handler doc := fun db =>
  (Ok (message "Service updated successfully"),
   set_services
     (update_one [("id", VStr service_id)] (Service.model_dump service)
        (services db)) db).

Definition delete_service (service_id : string) (admin : doc)
  : handler doc := fun db =>
  (Ok (message "Service deleted successfully"),
   set_services (delete_one [("id", VStr service_id)] (services db)) db).

(** *** Packages *)

Definition get_packages (hall_id : option string) (db : database)
  : list doc :=
  let q := hall_query hall_id [] in
  find_to_list q ["_id"] 1000 (packages db).

Definition get_packages_response (uuid4 : nat -> string)
  (hall_id : option string) (db : database) : result (list Package.t) :=
  response_validation_list (fun i => Package.validate (uuid4 i)) 0
    (get_packages hall_id db).

Definition create_package (package : Package.t) (admin : doc)
  : handler Package.t := fun db =>
  (Ok package,
   bump_oid
     (set_packages
        (insert_one (next_oid db) (Package.model_dump package) (packages db))
        db)).

Definition update_package (package_id : string) (package : Package.t)
  (admin : doc) : handler doc := fun db =>
  (Ok (message "Package updated successfully"),
   set_packages
     (update_one [("id", VStr package_id)] (Package.model_dump package)
        (packages db)) db).

Definition delete_package (package_id : string) (admin : doc)
  : handler doc := fun db =>
  (Ok (message "Package deleted successfully"),
   set_packages (delete_one [("id", VStr package_id)] (packages db)) db).

(** *** Shubh dates *)

Definition get_shubh_dates (hall_id : option string) (db : database)
  : list doc :=
  let q := hall_query hall_id [] in
  find_to_list q ["_id"] 1000 (shubh_dates db).

Definition get_shubh_dates_response (uuid4 : nat -> string)
  (hall_id : option string) (db : database) : result (list ShubhDate.t) :=
  response_validation_list (fun i => ShubhDate.validate (uuid4 i)) 0
    (get_shubh_dates hall_id db).

Definition create_shubh_date (shubh_date : ShubhDate.t) (admin : doc)
  : handler ShubhDate.t := fun db =>
  (Ok shubh_date,
   bump_oid
     (set_shubh_dates
        (insert_one (next_oid db) (ShubhDate.model_dump shubh_date)
           (shubh_dates db)) db)).

Definition delete_shubh_date (date_id : string) (admin : doc)
  : handler doc := fun db =>
  (Ok (message "Shubh date deleted successfully"),
   set_shubh_dates (delete_one [("id", VStr date_id)] (shubh_dates db)) db).

(** *** Bookings *)

(** The loop body of the listings:
    [if isinstance(d[k], str): d[k] = datetime.fromisoformat(d[k])] *)
Definition parse_timestamp (k : string) (d : doc) : result doc :=
  match lookup k d with
  | None => Raise (Unhandled "KeyError")
  | Some (VStr s) =>
      match fromisoformat s with
      | Some t => Ok (set_field k (VDate t) d)
      | None => Raise (Unhandled "ValueError")
      end
  | Some _ => Ok d
  end.

Definition get_bookings (hall_id : option string) (admin : doc)
  (db : database) : result (list doc) :=
  let q := hall_query hall_id [] in
  let found_bookings := find_to_list q ["_id"] 1000 (bookings db) in
  mapM (parse_timestamp "booking_date") found_bookings.

Definition get_bookings_response (uuid4 : nat -> string) (now : datetime)
  (hall_id : option string) (admin : doc) (db : database)
  : result (list Booking.t) :=
  bind (get_bookings hall_id admin db)
    (response_validation_list (fun i => Booking.validate (uuid4 i) now) 0).

(** [GET /public/bookings]: no guard, no response model. *)
Definition get_public_bookings (hall_id : option string) (db : database)
  : list doc :=
  let q := hall_query hall_id [("status", VStr "booked")] in
  find_to_list q ["_id"; "customer_phone"] 1000 (bookings db).

(** [doc = booking.model_dump();
     doc['booking_date'] = doc['booking_date'].isoformat()] *)
Definition booking_document (booking : Booking.t) : doc :=
  let d := Booking.model_dump booking in
  set_field "booking_date" (VStr (isoformat (Booking.booking_date booking))) d.

Definition create_booking (booking : Booking.t) (admin : doc)
  : handler Booking.t := fun db =>
  (Ok booking,
   bump_oid
     (set_bookings
        (insert_one (next_oid db) (booking_document booking) (bookings db))
        db)).

Definition update_booking (booking_id : string) (booking : Booking.t)
  (admin : doc) : handler doc := fun db =>
  (Ok (message "Booking updated successfully"),
   set_bookings
     (update_one [("id", VStr booking_id)] (booking_document booking)
        (bookings db)) db).

Definition delete_booking (booking_id : string) (admin : doc)
  : handler doc := fun db =>
  (Ok (message "Booking deleted successfully"),
   set_bookings (delete_one [("id", VStr booking_id)] (bookings db)) db).

(** *** Bills *)

Definition get_bills (hall_id : option string) (admin : doc) (db : database)
  : result (list doc) :=
  let q := hall_query hall_id [] in
  let found_bills := find_to_list q ["_id"] 1000 (bills db) in
  mapM (parse_timestamp "created_at") found_bills.

Definition get_bills_response (uuid4 : nat -> string) (now : datetime)
  (hall_id : option string) (admin : doc) (db : database)
  : result (list Bill.t) :=
  bind (get_bills hall_id admin db)
    (response_validation_list (fun i => Bill.validate (uuid4 i) now) 0).

Definition bill_document (bill : Bill.t) : doc :=
  let d := Bill.model_dump bill in
  set_field "created_at" (VStr (isoformat (Bill.created_at bill))) d.

Definition create_bill (bill : Bill.t) (admin : doc) : handler Bill.t :=
  fun db =>
  (Ok bill,
   bump_oid
     (set_bills (insert_one (next_oid db) (bill_document bill) (bills db)) db)).

Definition update_bill (bill_id : string) (bill : Bill.t) (admin : doc)
  : handler doc := fun db =>
  (Ok (message "Bill updated successfully"),
   set_bills
     (update_one [("id", VStr bill_id)] (bill_document bill) (bills db)) db).

Definition delete_bill (bill_id : string) (admin : doc) : handler doc :=
  fun db =>
  (Ok (message "Bill deleted successfully"),
   set_bills (delete_one [("id", VStr bill_id)] (bills db)) db).

(** *** Settings *)

(** [GET /settings] with [response_model=Settings] *)
Definition get_settings : handler Settings.t := fun db =>
  let stored := find_one [("id", VStr "settings")] ["_id"] (settings db) in
  if negb (found stored)
  then
    let default_settings := Settings.default in
    (Ok default_settings,
     bump_oid
       (set_settings
          (insert_one (next_oid db) (Settings.model_dump default_settings)
             (settings db)) db))
  else
    (response_validation Settings.validate
       (match stored with Some s => s | None => [] end), db).

(** The store draws an [ObjectId] when the upsert inserts; the counter is
    moved on in either case, which only skips a value. *)
Definition update_settings (new_settings : Settings.t) (admin : doc)
  : handler doc := fun db =>
  (Ok (message "Settings updated successfully"),
   bump_oid
     (set_settings
        (update_one_upsert (next_oid db) [("id", VStr "settings")]
           (Settings.model_dump new_settings) (settings db)) db)).

(** ** Requests

    A request to a state-changing route, with what the route draws from its
    environment.  A guarded route first resolves its bearer token; a request
    without credentials is refused by [HTTPBearer]. *)

Inductive operation :=
| ChangePasswordOp (change_pwd : ChangePassword.t) (salt : string)
| CreateAdmin (admin_data : doc) (uuid : string) (created_at : datetime)
    (salt : string)
| DeleteAdmin (admin_id : string)
| UpdateHall (hall_id : string) (hall : Hall.t)
| CreateService (service : Service.t)
| UpdateService (service_id : string) (service : Service.t)
| DeleteService (service_id : string)
| CreatePackage (package : Package.t)
| UpdatePackage (package_id : string) (package : Package.t)
| DeletePackage (package_id : string)
| CreateShubhDate (shubh_date : ShubhDate.t)
| DeleteShubhDate (date_id : string)
| CreateBooking (booking : Booking.t)
| UpdateBooking (booking_id : string) (booking : Booking.t)
| DeleteBooking (booking_id : string)
| CreateBill (bill : Bill.t)
| UpdateBill (bill_id : string) (bill : Bill.t)
| DeleteBill (bill_id : string)
| GetSettings
| UpdateSettings (new_settings : Settings.t).

Record request := {
  req_operation : operation;
  req_credentials : option token;
  req_time : Z
}.

Definition state_after {A} (r : result A * database) : database := snd r.

(** The state a guarded handler leaves, once [admin] is resolved. *)
Definition run_guarded (o : operation) (admin : doc) (db : database)
  : database :=
  match o with
  | ChangePasswordOp c salt => state_after (change_password c admin salt db)
  | CreateAdmin data uuid now salt =>
      state_after (create_admin data admin uuid now salt db)
  | DeleteAdmin i => state_after (delete_admin i admin db)
  | UpdateHall i h => state_after (update_hall i h admin db)
  | CreateService s => state_after (create_service s admin db)
  | UpdateService i s => state_after (update_service i s admin db)
  | DeleteService i => state_after (delete_service i admin db)
  | CreatePackage p => state_after (create_package p admin db)
  | UpdatePackage i p => state_after (update_package i p admin db)
  | DeletePackage i => state_after (delete_package i admin db)
  | CreateShubhDate s => state_after (create_shubh_date s admin db)
  | DeleteShubhDate i => state_after (delete_shubh_date i admin db)
  | CreateBooking b => state_after (create_booking b admin db)
  | UpdateBooking i b => state_after (update_booking i b admin db)
  | DeleteBooking i => state_after (delete_booking i admin db)
  | CreateBill b => state_after (create_bill b admin db)
  | UpdateBill i b => state_after (update_bill i b admin db)
  | DeleteBill i => state_after (delete_bill i admin db)
  | GetSettings => state_after (get_settings db)
  | UpdateSettings s => state_after (update_settings s admin db)
  end.

Definition step (db : database) (r : request) : database :=
  match req_operation r with
  | GetSettings => state_after (get_settings db)
  | o =>
      match req_credentials r with
      | None => db
      | Some t =>
          match get_current_admin t (req_time r) db with
          | Ok admin => run_guarded o admin db
          | Raise _ => db
          end
      end
  end.

(** The state after a sequence of requests. *)
Definition run (db : database) (rs : list request) : database :=
  fold_left step rs db.

End Server.

Definition empty_database : database :=
  {| admins := []; halls := []; services := []; packages := [];
     shubh_dates := []; bookings := []; bills := []; settings := [];
     next_oid := 0 |}.

(** * Notions used by the statements *)

(** ** Upload encoder *)

(** [c in s] *)
Fixpoint occurs (c : ascii) (s : string) : bool :=
  match s with
  | EmptyString => false
  | String c' rest => Ascii.eqb c' c || occurs c rest
  end.

(** ** Token service *)

(** The claims a token may be issued for: no registered claim besides [exp]
    (which issuing overwrites), and no [datetime] value.  The only caller,
    the login route, passes [sub] and [username] strings. *)
Definition plain_claim (kv : string * claim) : bool :=
  String.eqb (fst kv) "exp"
  || (negb (existsb (String.eqb (fst kv)) ["iat"; "nbf"; "aud"])
      && match snd kv with CTime _ => false | _ => true end).

Definition plain_claims (data : claims) : bool := forallb plain_claim data.

(** The JSON form of a claim that is not a [datetime]. *)
Definition claim_json (c : claim) : json :=
  match c with
  | CNull => JNull
  | CBool b => JBool b
  | CInt z => JInt z
  | CStr s => JStr s
  | CTime t => JInt (timegm t)
  end.

(** Stand-ins for the environment, used where a statement is evaluated. *)
Definition demo_secret : string := "your-secret-key-change-in-production".
Definition json_text (j : json) : string :=
  match j with
  | JNull => "null"
  | JBool b => if b then "true" else "false"
  | JInt z => (if (z <? 0)%Z then "-" else "") ++ pad 20 (Z.to_N (Z.abs z))
  | JStr s => s
  end.
Definition demo_hs256 (key : string) (input : string * payload) : string :=
  fold_left (fun acc kv => acc ++ "/" ++ fst kv ++ "=" ++ json_text (snd kv))
    (snd input) (key ++ "/" ++ fst input).
Definition login_claims : claims :=
  [("sub", CStr "7d9f3c4e"); ("username", CStr "om_admin")].

(** ** Stored collections

    The documents the service itself writes: [_id] first, then the dump of a
    model instance. *)

Definition stored_admin (oa : N * Admin.t) : doc :=
  ("_id", VOid (fst oa)) :: Admin.model_dump (snd oa).

Definition stored_booking (ob : N * Booking.t) : doc :=
  ("_id", VOid (fst ob)) :: booking_document (snd ob).

Definition stored_bill (ob : N * Bill.t) : doc :=
  ("_id", VOid (fst ob)) :: bill_document (snd ob).

Definition admin_response (a : Admin.t) : AdminResponse.t :=
  {| AdminResponse.id := Admin.id a;
     AdminResponse.username := Admin.username a;
     AdminResponse.hall_name := Admin.hall_name a |}.

(** ** Public booking listing *)

(** What the public listing shows of a booking: every field but
    [customer_phone], the timestamp in its stored text. *)
Definition public_view (b : Booking.t) : doc :=
  [ ("id", VStr (Booking.id b)); ("hall_id", VStr (Booking.hall_id b));
    ("date", VStr (Booking.date b));
    ("customer_name", VStr (Booking.customer_name b));
    ("customer_city", VStr (Booking.customer_city b));
    ("event_type", VStr (Booking.event_type b));
    ("num_guests", VInt (Booking.num_guests b));
    ("booking_taken_by", vopt_str (Booking.booking_taken_by b));
    ("booking_date", VStr (isoformat (Booking.booking_date b)));
    ("status", VStr (Booking.status b)) ].

(** The listing as the sentence has it: every booked booking, of the given
    hall when one is given. *)
Definition booked_of_hall (hall_id : option string) (b : Booking.t) : bool :=
  String.eqb (Booking.status b) "booked"
  && match hall_id with
     | Some h => String.eqb (Booking.hall_id b) h
     | None => true
     end.

(** The selection the handler makes: an empty [hall_id] selects every hall. *)
Definition public_selected (hall_id : option string) (b : Booking.t) : bool :=
  String.eqb (Booking.status b) "booked"
  && match hall_id with
     | Some h => String.eqb h "" || String.eqb (Booking.hall_id b) h
     | None => true
     end.

Definition utc (y mo d h mi s us : N) : datetime :=
  {| year := y; month := mo; day := d; hour := h; minute := mi; second := s;
     microsecond := us; tzinfo := Some 0%Z |}.

Definition demo_booking (hall : string) (state : string) : Booking.t :=
  {| Booking.id := "b-1"; Booking.hall_id := hall; Booking.date := "2025-02-14";
     Booking.customer_name := "Asha"; Booking.customer_city := "Pune";
     Booking.customer_phone := "9800000000"; Booking.event_type := "wedding";
     Booking.num_guests := 350; Booking.booking_taken_by := None;
     Booking.booking_date := utc 2025 1 5 10 30 0 250000;
     Booking.status := state |}.

(** A database whose counter of [ObjectId]s stands at [n]. *)
Definition counting_from (n : N) (db : database) : database :=
  {| admins := admins db; halls := halls db; services := services db;
     packages := packages db; shubh_dates := shubh_dates db;
     bookings := bookings db; bills := bills db; settings := settings db;
     next_oid := n |}.

Definition with_bookings (c : collection) : database :=
  counting_from (N.of_nat (List.length c)) (set_bookings c empty_database).

Definition demo_admin (i u : string) : Admin.t :=
  {| Admin.id := i; Admin.username := u;
     Admin.password_hash := "$2b$12$" ++ u; Admin.hall_name := "Om Lawns";
     Admin.created_at := utc 2025 1 1 9 0 0 0 |}.

Definition with_admins (c : collection) : database :=
  counting_from (N.of_nat (List.length c)) (set_admins c empty_database).

(** ** Listings by hall *)

(** The selection [hall_query] makes on a hall id. *)
Definition hall_selected (hall_id : option string) (h : string) : bool :=
  match hall_id with
  | Some x => String.eqb x "" || String.eqb h x
  | None => true
  end.

(** [update_one({"id": i}, ...)] seen on the stored records: the first
    record with the id [i] is replaced, its [_id] kept. *)
Fixpoint update_stored {A : Type} (key : A -> string) (i : string) (a : A)
  (l : list (N * A)) : list (N * A) :=
  match l with
  | [] => []
  | (o, a0) :: rest =>
      if String.eqb (key a0) i then (o, a) :: rest
      else (o, a0) :: update_stored key i a rest
  end.

Definition with_bills (c : collection) : database :=
  counting_from (N.of_nat (List.length c)) (set_bills c empty_database).

Definition demo_bill : Bill.t :=
  {| Bill.id := "bill-1"; Bill.booking_id := Some "b-1";
     Bill.hall_id := "hall-1"; Bill.hall_name := "Om Lawns";
     Bill.customer_name := "Asha"; Bill.customer_city := "Pune";
     Bill.booking_date := "2025-01-05"; Bill.event_date := "2025-02-14";
     Bill.num_guests := 350; Bill.event_type := "wedding";
     Bill.services := [[("name", VStr "Decoration"); ("price", VInt 15000)]];
     Bill.thali_items := []; Bill.hall_rent := 50000;
     Bill.custom_charges := []; Bill.discount := 0;
     Bill.pre_booking_amount := 10000; Bill.total_amount := 65000;
     Bill.balance_due := 55000;
     Bill.created_at := utc 2025 2 15 8 0 0 0 |}.

(** [delete_one({"id": i})] seen on the stored records. *)
Fixpoint delete_stored {A : Type} (key : A -> string) (i : string)
  (l : list (N * A)) : list (N * A) :=
  match l with
  | [] => []
  | (o, a0) :: rest =>
      if String.eqb (key a0) i then rest
      else (o, a0) :: delete_stored key i rest
  end.

Definition usernames (stored : list (N * Admin.t)) : list string :=
  map (fun oa => Admin.username (snd oa)) stored.

Definition admin_ids (stored : list (N * Admin.t)) : list string :=
  map (fun oa => Admin.id (snd oa)) stored.

Definition demo_pwd_hash (salt password : string) : string :=
  "$2b$12$" ++ salt ++ password.

Definition demo_admin_data (u : string) : doc :=
  [("username", VStr u); ("password", VStr "s3cret");
   ("hall_name", VStr "Shiv Lawns")].

Definition stored_hall (oh : N * Hall.t) : doc :=
  ("_id", VOid (fst oh)) :: Hall.model_dump (snd oh).

Definition demo_hall (i : string) : Hall.t :=
  {| Hall.id := i; Hall.name := "Om Lawns Banquet Hall";
     Hall.name_mr := "Om Lawns"; Hall.capacity := 500;
     Hall.approx_rent := 50000; Hall.location := "https://maps.google.com";
     Hall.image_url := "https://images.pexels.com/photos/33914530.jpeg";
     Hall.logo := None;
     Hall.description := Some "Elegant banquet hall for weddings and events";
     Hall.description_mr := None |}.

Definition with_halls (c : collection) : database :=
  counting_from (N.of_nat (List.length c)) (set_halls c empty_database).

(** A store of [n] halls. *)
Definition many_halls (n : nat) : database :=
  with_halls
    (map (fun k => stored_hall (N.of_nat k, demo_hall "hall")) (seq 0 n)).

(** ** Identity of stored documents

    A stored document is followed through the operations by its [_id]; its
    [id] field is the entity id the routes address. *)

Definition oid_of (d : doc) : option value := lookup "_id" d.
Definition id_of (d : doc) : option value := lookup "id" d.

(** Every document the service writes has an [ObjectId] already handed out
    and a string [id]; no two documents of a collection share an [_id]. *)
Definition well_formed_doc (bound : N) (d : doc) : Prop :=
  (exists n, oid_of d = Some (VOid n) /\ (n < bound)%N)
  /\ (exists s, id_of d = Some (VStr s)).

Definition well_formed_collection (bound : N) (c : collection) : Prop :=
  Forall (well_formed_doc bound) c /\ NoDup (map oid_of c).

Definition collections (db : database) : list collection :=
  [admins db; halls db; services db; packages db; shubh_dates db;
   bookings db; bills db; settings db].

Definition well_formed (db : database) : Prop :=
  Forall (well_formed_collection (next_oid db)) (collections db).

(** Every document of [c'] is a document of [c] with the same [_id] and the
    same [id], or was inserted with an [ObjectId] from [bound] on. *)
Definition carried (bound : N) (c c' : collection) : Prop :=
  forall d', In d' c' ->
    (exists d, In d c /\ oid_of d = oid_of d' /\ id_of d = id_of d')
    \/ (exists n, oid_of d' = Some (VOid n) /\ (bound <= n)%N).

(** A stored document keeps its [id] from [c] to [c']. *)
Definition ids_kept (c c' : collection) : Prop :=
  forall d d', In d c -> In d' c' -> oid_of d = oid_of d' -> id_of d' = id_of d.

(** The requests whose body, if it is an update, carries the id it is
    addressed to. *)
Definition keeps_id (o : operation) : bool :=
  match o with
  | UpdateHall i h => String.eqb (Hall.id h) i
  | UpdateService i s => String.eqb (Service.id s) i
  | UpdatePackage i p => String.eqb (Package.id p) i
  | UpdateBooking i b => String.eqb (Booking.id b) i
  | UpdateBill i b => String.eqb (Bill.id b) i
  | UpdateSettings s => String.eqb (Settings.id s) "settings"
  | _ => true
  end.

(** The collections by name, to speak of all of them at once. *)
Inductive collection_name :=
| Admins | Halls | Services | Packages | ShubhDates | Bookings | Bills
| SettingsColl.

Definition get_collection (n : collection_name) (db : database) : collection :=
  match n with
  | Admins => admins db
  | Halls => halls db
  | Services => services db
  | Packages => packages db
  | ShubhDates => shubh_dates db
  | Bookings => bookings db
  | Bills => bills db
  | SettingsColl => settings db
  end.

Definition set_collection (n : collection_name) (c : collection)
  (db : database) : database :=
  match n with
  | Admins => set_admins c db
  | Halls => set_halls c db
  | Services => set_services c db
  | Packages => set_packages c db
  | ShubhDates => set_shubh_dates c db
  | Bookings => set_bookings c db
  | Bills => set_bills c db
  | SettingsColl => set_settings c db
  end.

(** What one request may do to the database: the counter of [ObjectId]s does
    not go back, the database stays well formed, and every collection is
    carried over. *)
Definition step_ok (db db' : database) : Prop :=
  (next_oid db <= next_oid db')%N
  /\ well_formed db'
  /\ forall n, carried (next_oid db) (get_collection n db)
                 (get_collection n db').

Definition stored_service (os : N * Service.t) : doc :=
  ("_id", VOid (fst os)) :: Service.model_dump (snd os).

Definition demo_service (i : string) (n : string) : Service.t :=
  {| Service.id := i; Service.hall_id := "hall-1"; Service.name := n;
     Service.name_mr := n; Service.price := Some 5000%Z;
     Service.description := None; Service.description_mr := None;
     Service.image_url := None |}.

Definition demo_pwd_verify (plain hashed : value) : option bool :=
  match plain, hashed with
  | VStr p, VStr h => Some (String.eqb h ("$2b$12$" ++ p))
  | _, _ => None
  end.

(** A database with one admin and one service, two [ObjectId]s handed out. *)
Definition demo_database : database :=
  {| admins := [stored_admin (0%N, demo_admin "7d9f3c4e" "om_admin")];
     halls := []; services := [stored_service (1%N, demo_service "s-1" "Decor")];
     packages := []; shubh_dates := []; bookings := []; bills := [];
     settings := []; next_oid := 2 |}.

(** The bearer token of the demo admin, issued at [t]. *)
Definition demo_token (t : Z) : option token :=
  match create_access_token demo_secret demo_hs256 login_claims t with
  | Ok tok => Some tok
  | Raise _ => None
  end.

Definition demo_request (o : operation) : request :=
  {| req_operation := o; req_credentials := demo_token 1700000000000000;
     req_time := 1700000001000000 |}.

Definition demo_run : database -> list request -> database :=
  run demo_secret demo_hs256 demo_pwd_hash demo_pwd_verify.

(** ** Settings *)

(** The settings collection is empty or is the one document with the id
    "settings". *)
Definition settings_singleton (c : collection) : Prop :=
  c = [] \/ exists d, c = [d] /\ id_of d = Some (VStr "settings").

Definition renamed_settings : Settings.t :=
  {| Settings.id := "main"; Settings.signup_enabled := true;
     Settings.language := "mr"; Settings.theme := "dark" |}.

(** * The rest of the application

    The login route, the single-hall route with its response model, and the
    seeding at startup, over the definitions above. *)

Section Accounts.

Variable SECRET_KEY : string.
Variable hs256 : string -> string * payload -> string.
Variable pwd_hash : string -> string -> string.
Variable pwd_verify : value -> value -> option bool.

(** A stored value as a claim of the token payload.  An [ObjectId] or a
    [datetime] under [sub] or [username] is not JSON serializable and
    [jwt.encode] raises.  An array or an embedded document would be carried
    into the token; the payload type has no such value, the model ends the
    request there, and no admin document the service writes holds one. *)
Definition value_claim (v : value) : option claim :=
  match v with
  | VNull => Some CNull
  | VBool b => Some (CBool b)
  | VInt z => Some (CInt z)
  | VStr s => Some (CStr s)
  | VDate _ | VOid _ | VList _ | VDoc _ => None
  end.

Record login_response := {
  response_token : token;
  response_admin : doc
}.

(** [POST /auth/login], at the time [now] *)
Definition login (admin_login : AdminLogin.t) (now : Z) (db : database)
  : result login_response :=
  let admin :=
    find_one [("username", VStr (AdminLogin.username admin_login))] ["_id"]
      (admins db) in
  match admin with
  | Some ((_ :: _) as a) =>
      match lookup "password_hash" a with
      | None => Raise (Unhandled "KeyError")
      | Some hashed =>
          match pwd_verify (VStr (AdminLogin.password admin_login)) hashed with
          | None => Raise (Unhandled "TypeError")
          | Some false => Raise (HTTPException 401 "Invalid credentials")
          | Some true =>
              match lookup "id" a, lookup "username" a with
              | Some i, Some u =>
                  match value_claim i, value_claim u with
                  | Some sub, Some name =>
                      match create_access_token SECRET_KEY hs256
                              [("sub", sub); ("username", name)] now with
                      | Raise e => Raise e
                      | Ok t =>
                          match lookup "hall_name" a with
                          | None => Raise (Unhandled "KeyError")
                          | Some h =>
                              Ok {| response_token := t;
                                    response_admin :=
                                      [("id", i); ("username", u);
                                       ("hall_name", h)] |}
                          end
                      end
                  | _, _ => Raise (Unhandled "TypeError")
                  end
              | _, _ => Raise (Unhandled "KeyError")
              end
          end
      end
  | _ => Raise (HTTPException 401 "Invalid credentials")
  end.

(** [GET /halls/{hall_id}] with [response_model=Hall] *)
Definition get_hall_response (uuid : string) (hall_id : string)
  (db : database) : result Hall.t :=
  bind (get_hall hall_id db) (response_validation (Hall.validate uuid)).

(** What the seeding draws: ids, creation times and salts of the two default
    admins, ids of the two default halls. *)
Record seed_draws := {
  admin1_uuid : string; admin1_now : datetime; admin1_salt : string;
  admin2_uuid : string; admin2_now : datetime; admin2_salt : string;
  hall1_uuid : string; hall2_uuid : string
}.

Definition default_halls (e : seed_draws) : list Hall.t :=
  [ {| Hall.id := hall1_uuid e;
       Hall.name := "Om Lawns Banquet Hall";
       Hall.name_mr := "ॐ लॉन्स बॅन्क्वेट हॉल";
       Hall.capacity := 500;
       Hall.approx_rent := 50000;
       Hall.location := "https://maps.google.com";
       Hall.image_url :=
         "https://images.pexels.com/photos/33914530/pexels-photo-33914530.jpeg";
       Hall.logo := None;
       Hall.description := Some "Elegant banquet hall for weddings and events";
       Hall.description_mr :=
         Some "विवाह आणि कार्यक्रमांसाठी सुंदर बॅन्क्वेट हॉल" |};
    {| Hall.id := hall2_uuid e;
       Hall.name := "Shiv Lawns Banquet Hall";
       Hall.name_mr := "शिव लॉन्स बॅन्क्वेट हॉल";
       Hall.capacity := 800;
       Hall.approx_rent := 75000;
       Hall.location := "https://maps.google.com";
       Hall.image_url :=
         "https://images.pexels.com/photos/4717558/pexels-photo-4717558.jpeg";
       Hall.logo := None;
       Hall.description := Some "Grand banquet hall with lawn facility";
       Hall.description_mr := Some "लॉन सुविधेसह भव्य बॅन्क्वेट हॉल" |} ].

(** [for hall in halls_data: await db.halls.insert_one(hall.model_dump())] *)
Definition insert_halls (hs : list Hall.t) (db : database) : database :=
  fold_left
    (fun acc h =>
       bump_oid
         (set_halls (insert_one (next_oid acc) (Hall.model_dump h) (halls acc))
            acc))
    hs db.

(** [startup_event]; the log lines are left out.  Both existence checks are
    made before the first insertion. *)
Definition startup_event (e : seed_draws) (db : database) : database :=
  let admin1_exists :=
    find_one [("username", VStr "om_admin")] [] (admins db) in
  let admin2_exists :=
    find_one [("username", VStr "shiv_admin")] [] (admins db) in
  let db1 :=
    if negb (found admin1_exists) then
      let admin1 :=
        {| Admin.id := admin1_uuid e; Admin.username := "om_admin";
           Admin.password_hash := pwd_hash (admin1_salt e) "om123";
           Admin.hall_name := "Om Lawns Banquet Hall";
           Admin.created_at := admin1_now e |} in
      bump_oid
        (set_admins
           (insert_one (next_oid db) (Admin.model_dump admin1) (admins db)) db)
    else db in
  let db2 :=
    if negb (found admin2_exists) then
      let admin2 :=
        {| Admin.id := admin2_uuid e; Admin.username := "shiv_admin";
           Admin.password_hash := pwd_hash (admin2_salt e) "shiv123";
           Admin.hall_name := "Shiv Lawns Banquet Hall";
           Admin.created_at := admin2_now e |} in
      bump_oid
        (set_admins
           (insert_one (next_oid db1) (Admin.model_dump admin2) (admins db1))
           db1)
    else db1 in
  let halls_count := List.length (filter (matches []) (halls db2)) in
  if Nat.eqb halls_count 0 then insert_halls (default_halls e) db2 else db2.

End Accounts.

(** * Notions used by the further statements *)

(** The first stored record whose key is [i]. *)
Fixpoint find_stored {A : Type} (key : A -> string) (i : string)
  (l : list (N * A)) : option (N * A) :=
  match l with
  | [] => None
  | oa :: rest =>
      if String.eqb (key (snd oa)) i then Some oa else find_stored key i rest
  end.

Definition with_password_hash (h : string) (a : Admin.t) : Admin.t :=
  {| Admin.id := Admin.id a; Admin.username := Admin.username a;
     Admin.password_hash := h; Admin.hall_name := Admin.hall_name a;
     Admin.created_at := Admin.created_at a |}.

(** [update_one({"id": i}, {"$set": {"password_hash": h}})] seen on the
    stored Admin records. *)
Fixpoint change_stored_hash (i h : string) (l : list (N * Admin.t))
  : list (N * Admin.t) :=
  match l with
  | [] => []
  | (o, a) :: rest =>
      if String.eqb (Admin.id a) i then (o, with_password_hash h a) :: rest
      else (o, a) :: change_stored_hash i h rest
  end.

Definition stored_package (op : N * Package.t) : doc :=
  ("_id", VOid (fst op)) :: Package.model_dump (snd op).

Definition stored_shubh_date (os : N * ShubhDate.t) : doc :=
  ("_id", VOid (fst os)) :: ShubhDate.model_dump (snd os).

(** What the login route answers for a stored admin. *)
Definition login_admin_view (a : Admin.t) : doc :=
  [ ("id", VStr (Admin.id a)); ("username", VStr (Admin.username a));
    ("hall_name", VStr (Admin.hall_name a)) ].

(** The claims the login route issues a token for. *)
Definition admin_claims (a : Admin.t) : claims :=
  [("sub", CStr (Admin.id a)); ("username", CStr (Admin.username a))].

(** No document of the collection has the id [i]. *)
Definition absent (i : string) (c : collection) : Prop :=
  Forall (fun d => matches [("id", VStr i)] d = false) c.

(** Every document of the collection has a string under [id]. *)
Definition string_ids (c : collection) : Prop :=
  Forall (fun d => exists s, id_of d = Some (VStr s)) c.

(** The collection a guarded request writes to. *)
Definition target (o : operation) : collection_name :=
  match o with
  | ChangePasswordOp _ _ | CreateAdmin _ _ _ _ | DeleteAdmin _ => Admins
  | UpdateHall _ _ => Halls
  | CreateService _ | UpdateService _ _ | DeleteService _ => Services
  | CreatePackage _ | UpdatePackage _ _ | DeletePackage _ => Packages
  | CreateShubhDate _ | DeleteShubhDate _ => ShubhDates
  | CreateBooking _ | UpdateBooking _ _ | DeleteBooking _ => Bookings
  | CreateBill _ | UpdateBill _ _ | DeleteBill _ => Bills
  | GetSettings | UpdateSettings _ => SettingsColl
  end.

Definition is_get_settings (o : operation) : bool :=
  match o with GetSettings => true | _ => false end.

Definition demo_draws : seed_draws :=
  {| admin1_uuid := "a-om"; admin1_now := utc 2025 1 1 0 0 0 0;
     admin1_salt := "";
     admin2_uuid := "a-shiv"; admin2_now := utc 2025 1 1 0 0 0 1;
     admin2_salt := "";
     hall1_uuid := "h-om"; hall2_uuid := "h-shiv" |}.

Definition demo_package (i hall : string) : Package.t :=
  {| Package.id := i; Package.hall_id := hall; Package.package_type := "thali";
     Package.name := "Silver"; Package.name_mr := "Silver";
     Package.items := [[("name", VStr "Paneer"); ("qty", VInt 2)]];
     Package.rent := None; Package.custom_charges := [];
     Package.catalogue_url := None; Package.catalogue_image := None;
     Package.description := Some "Vegetarian thali"; Package.description_mr := None;
     Package.custom_fields := Some [] |}.

Definition demo_shubh_date (i hall : string) : ShubhDate.t :=
  {| ShubhDate.id := i; ShubhDate.date := "2025-11-22";
     ShubhDate.occasion := "Vivah Muhurat"; ShubhDate.occasion_mr := "Vivah";
     ShubhDate.hall_id := hall |}.

(** The payload and the bearer token of the demo admin, issued at
    1700000000 s. *)
Definition demo_payload : payload :=
  [("sub", JStr "7d9f3c4e"); ("username", JStr "om_admin");
   ("exp", JInt 1700086400)].

Definition demo_bearer : token :=
  JWS {| jws_alg := "HS256"; jws_payload := demo_payload;
         jws_signature := demo_hs256 demo_secret ("HS256", demo_payload) |}.

(** The two default admins of the seeding. *)
Definition seeded_admin1 (pwd_hash : string -> string -> string)
  (e : seed_draws) : Admin.t :=
  {| Admin.id := admin1_uuid e; Admin.username := "om_admin";
     Admin.password_hash := pwd_hash (admin1_salt e) "om123";
     Admin.hall_name := "Om Lawns Banquet Hall";
     Admin.created_at := admin1_now e |}.

Definition seeded_admin2 (pwd_hash : string -> string -> string)
  (e : seed_draws) : Admin.t :=
  {| Admin.id := admin2_uuid e; Admin.username := "shiv_admin";
     Admin.password_hash := pwd_hash (admin2_salt e) "shiv123";
     Admin.hall_name := "Shiv Lawns Banquet Hall";
     Admin.created_at := admin2_now e |}.

(** Some document of the collection has the username [u]. *)
Definition has_username (u : string) (c : collection) : bool :=
  existsb (matches [("username", VStr u)]) c.

(** The id a guarded deletion of a hall's record is addressed to. *)
Definition deleted_id (o : operation) : option string :=
  match o with
  | DeleteService i | DeletePackage i | DeleteShubhDate i | DeleteBooking i
  | DeleteBill i => Some i
  | _ => None
  end.

(** The document [d] has the four fields of the settings [s]. *)
Definition holds_settings (s : Settings.t) (d : doc) : Prop :=
  lookup "id" d = Some (VStr (Settings.id s))
  /\ lookup "signup_enabled" d = Some (VBool (Settings.signup_enabled s))
  /\ lookup "language" d = Some (VStr (Settings.language s))
  /\ lookup "theme" d = Some (VStr (Settings.theme s)).

(** The field [k] of [d] is there and is not a text. *)
Definition parsed_timestamp (k : string) (d : doc) : Prop :=
  exists v, lookup k d = Some v /\ forall s, v <> VStr s.

(** The document [d] makes a listing that reads the timestamp [k] die with
    [e]: the field is missing, or is a text that is no ISO timestamp. *)
Definition bad_timestamp (k : string) (e : error) (d : doc) : Prop :=
  (lookup k d = None /\ e = Unhandled "KeyError")
  \/ (exists s, lookup k d = Some (VStr s) /\ fromisoformat s = None
                /\ e = Unhandled "ValueError").

(** * Properties *)

Local Open Scope string_scope.

(** [lia] with the equations of division by a constant *)
Ltac Zify.zify_post_hook ::= Z.to_euclidean_division_equations.

(** ** The library functions on small inputs *)

Example b64encode_rfc4648 :
  b64encode [] = ""
  /\ b64encode [Byte.x66] = "Zg=="
  /\ b64encode [Byte.x66; Byte.x6f] = "Zm8="
  /\ b64encode [Byte.x66; Byte.x6f; Byte.x6f] = "Zm9v"
  /\ b64encode [Byte.x66; Byte.x6f; Byte.x6f; Byte.x62] = "Zm9vYg=="
  /\ b64encode [Byte.x66; Byte.x6f; Byte.x6f; Byte.x62; Byte.x61] = "Zm9vYmE="
  /\ b64encode [Byte.x66; Byte.x6f; Byte.x6f; Byte.x62; Byte.x61; Byte.x72]
     = "Zm9vYmFy"
  /\ b64encode [Byte.xfb; Byte.xff] = "+/8=".
Proof. repeat split; reflexivity. Qed.

Example split_pieces :
  split "." "a.b.c" = ["a"; "b"; "c"]
  /\ split "." "archive" = ["archive"]
  /\ split "." ".hidden." = [""; "hidden"; ""]
  /\ split "." "" = [""].
Proof. repeat split; reflexivity. Qed.

Example isoformat_texts :
  isoformat (utc 2025 1 5 10 30 0 250000) = "2025-01-05T10:30:00.250000+00:00"
  /\ isoformat (utc 2025 1 1 9 0 0 0) = "2025-01-01T09:00:00+00:00"
  /\ isoformat {| year := 987; month := 12; day := 31; hour := 23;
                  minute := 59; second := 59; microsecond := 5;
                  tzinfo := Some (-19800)%Z |}
     = "0987-12-31T23:59:59.000005-05:30"
  /\ isoformat {| year := 2024; month := 2; day := 29; hour := 0; minute := 0;
                  second := 0; microsecond := 0; tzinfo := None |}
     = "2024-02-29T00:00:00".
Proof. repeat split; reflexivity. Qed.

Example fromisoformat_texts :
  fromisoformat "2025-01-05T10:30:00.250000+00:00"
  = Some (utc 2025 1 5 10 30 0 250000)
  /\ fromisoformat "2025-01-05 10:30:00.250" = 
     Some {| year := 2025; month := 1; day := 5; hour := 10; minute := 30;
             second := 0; microsecond := 250000; tzinfo := None |}
  /\ fromisoformat "2023-02-29T00:00:00" = None
  /\ fromisoformat "yesterday" = None.
Proof. repeat split; reflexivity. Qed.

Example store_operations :
  let a := [("_id", VOid 0); ("id", VStr "x"); ("n", VInt 1)] in
  let b := [("_id", VOid 1); ("id", VStr "y"); ("n", VInt 2)] in
  find_one [("id", VStr "y")] ["_id"] [a; b]
  = Some [("id", VStr "y"); ("n", VInt 2)]
  /\ find_one [("id", VStr "z")] ["_id"] [a; b] = None
  /\ update_one [("id", VStr "x")] [("n", VInt 7); ("m", VNull)] [a; b]
     = [[("_id", VOid 0); ("id", VStr "x"); ("n", VInt 7); ("m", VNull)]; b]
  /\ update_one [("id", VStr "z")] [("n", VInt 7)] [a; b] = [a; b]
  /\ update_one_upsert 2 [("id", VStr "z")] [("n", VInt 7)] [a]
     = [a; [("_id", VOid 2); ("id", VStr "z"); ("n", VInt 7)]]
  /\ delete_one [("id", VStr "x")] [a; b; a] = [b; a]
  /\ find_to_list [] ["_id"; "n"] 1 [a; b] = [[("id", VStr "x")]].
Proof. repeat split; reflexivity. Qed.

(** ** Upload encoder *)

Lemma split_not_nil : forall sep s, split sep s <> [].
Proof.
  intros sep s; destruct s as [|c rest]; simpl; [discriminate|].
  destruct (Ascii.eqb c sep); [discriminate|].
  destruct (split sep rest); discriminate.
Qed.

Lemma split_without_separator : forall sep s,
  occurs sep s = false -> split sep s = [s].
Proof.
  intros sep s; induction s as [|c rest IH]; simpl; intros H; [reflexivity|].
  apply orb_false_iff in H; destruct H as [Hc Hrest].
  rewrite Hc, (IH Hrest); reflexivity.
Qed.

Lemma last_cons_not_nil : forall (x : string) l d,
  l <> [] -> last (x :: l) d = last l d.
Proof. intros x [|y l] d H; [contradiction|reflexivity]. Qed.

Lemma split_two_pieces : forall sep pre ext,
  exists piece other pieces,
    split sep (pre ++ String sep ext) = piece :: other :: pieces.
Proof.
  intros sep pre ext; induction pre as [|c p IH]; simpl.
  - rewrite Ascii.eqb_refl.
    destruct (split sep ext) as [|x xs] eqn:E; [now apply split_not_nil in E|].
    now exists "", x, xs.
  - destruct IH as (piece & other & pieces & E); rewrite E.
    destruct (Ascii.eqb c sep); eauto.
Qed.

Lemma last_piece_after_separator : forall sep pre ext,
  last_piece (split sep (pre ++ String sep ext)) = last_piece (split sep ext).
Proof.
  intros sep pre ext; unfold last_piece; induction pre as [|c p IH]; simpl.
  - rewrite Ascii.eqb_refl. apply last_cons_not_nil, split_not_nil.
  - destruct (split_two_pieces sep p ext) as (piece & other & pieces & E).
    rewrite E in *.
    destruct (Ascii.eqb c sep); rewrite <- IH; reflexivity.
Qed.

(** C10.  For every payload and filename the upload encoder returns
    ["data:image/"], then the part of the filename after its last ['.'], then
    [";base64,"], then the base64 text of the bytes; a filename without
    ['.'] gives the whole filename as the extension part. *)
Theorem upload_image_data_uri : forall contents name,
  (forall pre ext,
      name = pre ++ String "." ext -> occurs "." ext = false ->
      upload_image contents (Some name)
      = Ok [("image_data",
             VStr ("data:image/" ++ ext ++ ";base64," ++ b64encode contents))])
  /\ (occurs "." name = false ->
      upload_image contents (Some name)
      = Ok [("image_data",
             VStr ("data:image/" ++ name ++ ";base64," ++ b64encode contents))]).
Proof.
  intros contents name; split.
  - intros pre ext -> Hext; unfold upload_image.
    rewrite last_piece_after_separator, (split_without_separator _ _ Hext).
    reflexivity.
  - intros Hname; unfold upload_image.
    rewrite (split_without_separator _ _ Hname); reflexivity.
Qed.

Lemma upload_image_data_uri_witness :
  upload_image [Byte.x68; Byte.x69] (Some "hall.v2.png")
  = Ok [("image_data", VStr "data:image/png;base64,aGk=")]
  /\ upload_image [Byte.x68; Byte.x69] (Some "README")
     = Ok [("image_data", VStr "data:image/README;base64,aGk=")].
Proof.
  split.
  - apply (proj1 (upload_image_data_uri [Byte.x68; Byte.x69] "hall.v2.png")
             "hall.v2" "png"); reflexivity.
  - apply (proj2 (upload_image_data_uri [Byte.x68; Byte.x69] "README"));
      reflexivity.
Defined.

(** ** Token service *)

Section TokenProperties.

Variable SECRET_KEY : string.
Variable hs256 : string -> string * payload -> string.

Lemma plain_claims_encode : forall data,
  plain_claims data = true ->
  exists p,
    encode_claims data = Some p
    /\ lookup "iat" p = None /\ lookup "nbf" p = None /\ lookup "aud" p = None
    /\ forall k, lookup k p = option_map claim_json (lookup k data).
Proof.
  induction data as [|[k v] rest IH]; simpl; intros H.
  - exists []; repeat split; reflexivity.
  - apply andb_true_iff in H; destruct H as [Hkv Hrest].
    destruct (IH Hrest) as (p & Ep & Hiat & Hnbf & Haud & Hall).
    unfold plain_claim in Hkv; cbn [fst snd] in Hkv.
    assert (Henc : encode_claim (k, v) = Some (k, claim_json v)).
    { unfold encode_claim; cbn [fst snd]. destruct v; try reflexivity.
      destruct (String.eqb k "exp") eqn:Ek.
      - apply String.eqb_eq in Ek; subst k; reflexivity.
      - rewrite andb_false_r in Hkv; discriminate. }
    rewrite Henc, Ep. exists ((k, claim_json v) :: p).
    assert (Hk : forall r, In r ["iat"; "nbf"; "aud"] -> String.eqb r k = false).
    { intros r Hr. destruct (String.eqb r k) eqn:Erk; [|reflexivity].
      apply String.eqb_eq in Erk; subst k.
      simpl in Hr; destruct Hr as [<-|[<-|[<-|[]]]]; cbn in Hkv; discriminate. }
    repeat split; cbn [lookup].
    + rewrite (Hk "iat"); [exact Hiat|simpl; auto].
    + rewrite (Hk "nbf"); [exact Hnbf|simpl; auto].
    + rewrite (Hk "aud"); [exact Haud|simpl; auto].
    + intros r; destruct (String.eqb r k); [reflexivity|apply Hall].
Qed.

Lemma set_exp_encode : forall data e,
  plain_claims data = true ->
  exists p,
    encode_claims (set_field "exp" (CTime e) data) = Some p
    /\ lookup "exp" p = Some (JInt (timegm e))
    /\ lookup "iat" p = None /\ lookup "nbf" p = None /\ lookup "aud" p = None
    /\ forall k, String.eqb k "exp" = false ->
                 lookup k p = option_map claim_json (lookup k data).
Proof.
  induction data as [|[k v] rest IH]; intros e H.
  - exists [("exp", JInt (timegm e))]; repeat split; try reflexivity.
    intros k Hk; cbn [lookup]; rewrite Hk; reflexivity.
  - cbn [plain_claims forallb] in H.
    apply andb_true_iff in H; destruct H as [Hkv Hrest].
    cbn [set_field]. destruct (String.eqb "exp" k) eqn:Ek.
    + apply String.eqb_eq in Ek; subst k.
      destruct (plain_claims_encode rest Hrest)
        as (p & Ep & Hiat & Hnbf & Haud & Hall).
      cbn [encode_claims]. rewrite Ep.
      exists (("exp", JInt (timegm e)) :: p); repeat split; auto.
      intros k Hk; cbn [lookup]; rewrite Hk; apply Hall.
    + destruct (IH e Hrest) as (p & Ep & Hexp & Hiat & Hnbf & Haud & Hall).
      assert (Hplain : plain_claims [(k, v)] = true)
        by (cbn [plain_claims forallb]; rewrite Hkv; reflexivity).
      destruct (plain_claims_encode [(k, v)] Hplain)
        as (q & Eq & Qiat & Qnbf & Qaud & Qall).
      cbn [encode_claims] in Eq |- *.
      destruct (encode_claim (k, v)) as [c|] eqn:Ec; [|discriminate].
      injection Eq as <-. rewrite Ep.
      exists (c :: p).
      assert (Hc : c = (k, claim_json v)).
      { unfold encode_claim in Ec; cbn [fst snd] in Ec;
          destruct v; cbn [claim_json]; try congruence.
        destruct (is_time_claim k); congruence. }
      subst c. cbn [lookup] in *. rewrite Ek.
      destruct (String.eqb "iat" k); [discriminate|].
      destruct (String.eqb "nbf" k); [discriminate|].
      destruct (String.eqb "aud" k); [discriminate|].
      repeat split; auto.
      intros r Hr; destruct (String.eqb r k); [reflexivity|apply Hall; exact Hr].
Qed.

Lemma timegm_plus_day : forall T, timegm (T + hours 24) = (timegm T + 86400)%Z.
Proof.
  intros T; unfold timegm, hours.
  replace (T + 24 * 3600 * 1000000)%Z with (T + 86400 * 1000000)%Z by lia.
  apply Z.div_add; lia.
Qed.

(** C1, as the code has it.  A token issued at the time [T] carries as [exp]
    the whole second of [T] plus 24 hours.  Checking it succeeds at every time
    before that second and returns the embedded payload (the issued claims and
    [exp]) as it is; from that second on, hence at every time from [T] + 24h
    on, it fails with "Token expired"; a bearer string that is no token, an
    algorithm other than HS256 or a signature that does not verify fail with
    "Invalid token". *)
Theorem token_validation : forall data T,
  plain_claims data = true ->
  exists j,
    create_access_token SECRET_KEY hs256 data T = Ok (JWS j)
    /\ lookup "exp" (jws_payload j) = Some (JInt (timegm T + 86400))
    /\ (forall k, String.eqb k "exp" = false ->
          lookup k (jws_payload j) = option_map claim_json (lookup k data))
    /\ (forall t, (t < (timegm T + 86400) * 1000000)%Z ->
          decode_token SECRET_KEY hs256 (JWS j) t = Ok (jws_payload j))
    /\ (forall t, ((timegm T + 86400) * 1000000 <= t)%Z ->
          decode_token SECRET_KEY hs256 (JWS j) t
          = Raise (HTTPException 401 "Token expired"))
    /\ (forall t, (T + hours 24 <= t)%Z ->
          decode_token SECRET_KEY hs256 (JWS j) t
          = Raise (HTTPException 401 "Token expired"))
    /\ (forall raw t,
          decode_token SECRET_KEY hs256 (NotAJWS raw) t
          = Raise (HTTPException 401 "Invalid token"))
    /\ (forall j' t,
          jws_alg j' <> "HS256"
          \/ jws_signature j' <> hs256 SECRET_KEY (jws_alg j', jws_payload j') ->
          decode_token SECRET_KEY hs256 (JWS j') t
          = Raise (HTTPException 401 "Invalid token")).
Proof.
  intros data T Hplain.
  destruct (set_exp_encode data (T + hours 24) Hplain)
    as (p & Ep & Hexp & Hiat & Hnbf & Haud & Hall).
  rewrite timegm_plus_day in Hexp.
  exists {| jws_alg := ALGORITHM; jws_payload := p;
            jws_signature := hs256 SECRET_KEY (ALGORITHM, p) |}.
  assert (Hdec : forall t,
    decode_token SECRET_KEY hs256
      (JWS {| jws_alg := ALGORITHM; jws_payload := p;
              jws_signature := hs256 SECRET_KEY (ALGORITHM, p) |}) t
    = if ((timegm T + 86400) * 1000000 <=? t)%Z
      then Raise (HTTPException 401 "Token expired") else Ok p).
  { intros t; unfold decode_token, jwt_decode; simpl.
    rewrite String.eqb_refl; simpl.
    unfold validate_claims, validate_iat, validate_nbf, validate_exp, validate_aud.
    rewrite Hiat, Hnbf, Hexp, Haud.
    destruct ((timegm T + 86400) * 1000000 <=? t)%Z; reflexivity. }
  cbn [jws_payload].
  split; [|split; [|split; [|split; [|split; [|split; [|split]]]]]].
  - unfold create_access_token, jwt_encode, update_fields; simpl.
    rewrite Ep; reflexivity.
  - exact Hexp.
  - exact Hall.
  - intros t Ht; rewrite Hdec.
    destruct (Z.leb_spec ((timegm T + 86400) * 1000000) t); [lia|reflexivity].
  - intros t Ht; rewrite Hdec.
    destruct (Z.leb_spec ((timegm T + 86400) * 1000000) t); [reflexivity|lia].
  - intros t Ht; rewrite Hdec.
    destruct (Z.leb_spec ((timegm T + 86400) * 1000000) t); [reflexivity|].
    exfalso. unfold timegm, hours in *.
    pose proof (Z.mul_div_le T 1000000 ltac:(lia)). lia.
  - reflexivity.
  - intros j' t [Halg|Hsig]; unfold decode_token, jwt_decode; simpl.
    + destruct (String.eqb (jws_alg j') ALGORITHM) eqn:E; simpl; [|reflexivity].
      apply String.eqb_eq in E; contradiction.
    + destruct (String.eqb (jws_alg j') ALGORITHM); simpl; [|reflexivity].
      destruct (String.eqb (jws_signature j')
                  (hs256 SECRET_KEY (jws_alg j', jws_payload j'))) eqn:E; simpl;
        [|reflexivity].
      apply String.eqb_eq in E; contradiction.
Qed.

End TokenProperties.

Lemma token_validation_witness :
  exists j,
    create_access_token demo_secret demo_hs256 login_claims 1700000000500000
    = Ok (JWS j)
    /\ decode_token demo_secret demo_hs256 (JWS j) 1700000000500000
       = Ok (jws_payload j)
    /\ decode_token demo_secret demo_hs256 (JWS j) 1700086400500000
       = Raise (HTTPException 401 "Token expired").
Proof.
  destruct (token_validation demo_secret demo_hs256 login_claims
              1700000000500000 eq_refl)
    as (j & Hissue & _ & _ & Hok & _ & Hlate & _).
  exists j; split; [exact Hissue|split].
  - apply Hok; unfold timegm; simpl; lia.
  - apply Hlate; unfold hours; lia.
Defined.

(** C1, as the sentence has it, fails: a token issued half a second after a
    whole second is refused as expired 0.3 s before its 24 hours are over. *)
Lemma token_validation_counterexample :
  exists j,
    create_access_token demo_secret demo_hs256 login_claims 1700000000500000
    = Ok (JWS j)
    /\ (1700000000500000 <= 1700086400200000
        < 1700000000500000 + hours 24)%Z
    /\ decode_token demo_secret demo_hs256 (JWS j) 1700086400200000
       = Raise (HTTPException 401 "Token expired").
Proof.
  eexists; split; [reflexivity|split; [unfold hours; lia|reflexivity]].
Qed.

(** ** Listings *)

Lemma filter_map_commute : forall (A B : Type) (f : A -> B) (p : B -> bool) l,
  filter p (map f l) = map f (filter (fun x => p (f x)) l).
Proof.
  intros A B f p l; induction l as [|x xs IH]; simpl; [reflexivity|].
  rewrite IH; destruct (p (f x)); reflexivity.
Qed.

Lemma filter_all : forall (A : Type) (p : A -> bool) l,
  (forall x, p x = true) -> filter p l = l.
Proof.
  intros A p l H; induction l as [|x xs IH]; simpl; [reflexivity|].
  rewrite H, IH; reflexivity.
Qed.

Lemma project_out_excluded : forall k excluded d,
  In k excluded -> has_key k (project_out excluded d) = false.
Proof.
  intros k excluded d Hin; unfold has_key, keys, project_out.
  induction d as [|[k' v] rest IH]; simpl; [reflexivity|].
  destruct (existsb (String.eqb k') excluded) eqn:E; simpl; [exact IH|].
  rewrite IH, orb_false_r.
  destruct (String.eqb k k') eqn:Ek; [|reflexivity].
  apply String.eqb_eq in Ek; subst k'.
  assert (existsb (String.eqb k) excluded = true)
    by (apply existsb_exists; exists k; split; [exact Hin|apply String.eqb_refl]).
  congruence.
Qed.

Lemma find_to_list_excluded : forall k q excluded n c,
  In k excluded ->
  Forall (fun d => has_key k d = false) (find_to_list q excluded n c).
Proof.
  intros k q excluded n c Hin; unfold find_to_list.
  apply Forall_map, Forall_forall; intros d _.
  apply project_out_excluded; exact Hin.
Qed.

Lemma find_to_list_length : forall q excluded n c,
  List.length (find_to_list q excluded n c)
  = Nat.min n (List.length (filter (matches q) c)).
Proof.
  intros; unfold find_to_list; rewrite length_map; apply length_firstn.
Qed.

Lemma response_validation_list_map :
  forall (A M : Type) (validate : nat -> doc -> option M)
         (f : A -> doc) (g : A -> M) l i,
    (forall x j, validate j (f x) = Some (g x)) ->
    response_validation_list validate i (map f l) = Ok (map g l).
Proof.
  intros A M validate f g l; induction l as [|x xs IH]; intros i H; simpl;
    [reflexivity|].
  rewrite H, (IH (S i) H); reflexivity.
Qed.

Lemma response_validation_list_Forall :
  forall (M : Type) (validate : nat -> doc -> option M) (P : M -> Prop) l i ms,
    (forall j d m, validate j d = Some m -> P m) ->
    response_validation_list validate i l = Ok ms -> Forall P ms.
Proof.
  intros M validate P l; induction l as [|d rest IH]; intros i ms HP; simpl.
  - intros H; injection H as <-; constructor.
  - destruct (validate i d) as [m|] eqn:Ev; [|discriminate].
    destruct (response_validation_list validate (S i) rest) as [ms'|] eqn:Er;
      [|discriminate].
    intros H; injection H as <-; constructor; eauto.
Qed.

Lemma response_validation_list_length :
  forall (M : Type) (validate : nat -> doc -> option M) l i ms,
    response_validation_list validate i l = Ok ms ->
    List.length ms = List.length l.
Proof.
  intros M validate l; induction l as [|d rest IH]; intros i ms; simpl.
  - intros H; injection H as <-; reflexivity.
  - destruct (validate i d); [|discriminate].
    destruct (response_validation_list validate (S i) rest) eqn:Er;
      [|discriminate].
    intros H; injection H as <-; simpl; f_equal; eauto.
Qed.

(** C2.  Whatever the admins collection holds, no document the admin listing
    finds has a [password_hash] field and every record of the response shows
    exactly [id], [username] and [hall_name]; on a collection of stored Admin
    records the listing answers with the first 100 of them, so reduced. *)
Theorem admin_listing_hides_password_hash : forall admin db,
  Forall (fun d => has_key "password_hash" d = false) (get_admins admin db)
  /\ (forall rs,
        get_admins_response admin db = Ok rs ->
        Forall (fun r => keys (AdminResponse.model_dump r)
                         = ["id"; "username"; "hall_name"]) rs)
  /\ (forall stored,
        admins db = map stored_admin stored ->
        get_admins_response admin db
        = Ok (map admin_response (firstn 100 (map snd stored)))).
Proof.
  intros admin db; split; [|split].
  - apply find_to_list_excluded; simpl; auto.
  - intros rs H.
    unfold get_admins_response in H.
    eapply response_validation_list_Forall; [|exact H].
    intros _ d m _; reflexivity.
  - intros stored Hdb; unfold get_admins_response, get_admins, find_to_list.
    rewrite Hdb, filter_all by reflexivity.
    rewrite !firstn_map, !map_map.
    apply response_validation_list_map; intros [o a] j; reflexivity.
Qed.

Lemma admin_listing_hides_password_hash_witness :
  get_admins_response []
    (with_admins (map stored_admin [(0%N, demo_admin "a-1" "om_admin");
                                    (1%N, demo_admin "a-2" "shiv_admin")]))
  = Ok [ {| AdminResponse.id := "a-1"; AdminResponse.username := "om_admin";
            AdminResponse.hall_name := "Om Lawns" |};
         {| AdminResponse.id := "a-2"; AdminResponse.username := "shiv_admin";
            AdminResponse.hall_name := "Om Lawns" |} ].
Proof.
  apply (proj2 (proj2 (admin_listing_hides_password_hash []
           (with_admins (map stored_admin [(0%N, demo_admin "a-1" "om_admin");
                                           (1%N, demo_admin "a-2" "shiv_admin")]))))
           [(0%N, demo_admin "a-1" "om_admin");
            (1%N, demo_admin "a-2" "shiv_admin")]).
  reflexivity.
Defined.

Lemma public_query_selects : forall hall_id ob,
  matches (hall_query hall_id [("status", VStr "booked")]) (stored_booking ob)
  = public_selected hall_id (snd ob).
Proof.
  intros hall_id [o b]; unfold public_selected, hall_query.
  destruct hall_id as [h|]; [destruct (String.eqb h "")|]; cbn;
    rewrite ?andb_true_r; try reflexivity.
  apply andb_comm.
Qed.

Lemma public_projection : forall ob,
  project_out ["_id"; "customer_phone"] (stored_booking ob)
  = public_view (snd ob).
Proof. intros [o b]; reflexivity. Qed.

Lemma get_public_bookings_stored : forall hall_id stored db,
  bookings db = map stored_booking stored ->
  get_public_bookings hall_id db
  = map public_view
      (firstn 1000 (filter (public_selected hall_id) (map snd stored))).
Proof.
  intros hall_id stored db Hdb.
  unfold get_public_bookings, find_to_list; rewrite Hdb.
  rewrite (filter_map_commute stored_booking).
  rewrite (filter_map_commute snd).
  rewrite !firstn_map, !map_map.
  rewrite (filter_ext _ _ (public_query_selects hall_id)).
  apply map_ext; intros ob; apply public_projection.
Qed.

(** C3, as the code has it.  On a collection of stored Booking records the
    public listing returns, in stored order, the first 1000 of the bookings
    whose status is "booked" (and whose hall is the given one, when a
    non-empty [hall_id] is given), each without [customer_phone]. *)
Theorem public_booking_listing : forall hall_id stored db,
  bookings db = map stored_booking stored ->
  get_public_bookings hall_id db
  = map public_view
      (firstn 1000 (filter (public_selected hall_id) (map snd stored)))
  /\ Forall (fun d => has_key "customer_phone" d = false)
       (get_public_bookings hall_id db).
Proof.
  intros hall_id stored db Hdb; split.
  - apply get_public_bookings_stored; exact Hdb.
  - apply find_to_list_excluded; simpl; auto.
Qed.

Lemma public_booking_listing_witness :
  get_public_bookings (Some "hall-1")
    (with_bookings (map stored_booking
       [(0%N, demo_booking "hall-1" "booked");
        (1%N, demo_booking "hall-2" "booked");
        (2%N, demo_booking "hall-1" "cancelled")]))
  = [public_view (demo_booking "hall-1" "booked")].
Proof.
  apply (proj1 (public_booking_listing (Some "hall-1")
           [(0%N, demo_booking "hall-1" "booked");
            (1%N, demo_booking "hall-2" "booked");
            (2%N, demo_booking "hall-1" "cancelled")]
           (with_bookings (map stored_booking
              [(0%N, demo_booking "hall-1" "booked");
               (1%N, demo_booking "hall-2" "booked");
               (2%N, demo_booking "hall-1" "cancelled")]))
           eq_refl)).
Defined.

(** C3, as the sentence has it, fails twice: an empty [hall_id] is given and
    yet bookings of every hall come back, and of 1001 booked bookings only
    1000 come back. *)
Lemma public_booking_listing_counterexample :
  get_public_bookings (Some "")
    (with_bookings (map stored_booking [(0%N, demo_booking "hall-1" "booked")]))
  <> map public_view
       (filter (booked_of_hall (Some ""))
          (map snd [(0%N, demo_booking "hall-1" "booked")]))
  /\ List.length
       (get_public_bookings None
          (with_bookings
             (map stored_booking
                (map (fun n => (N.of_nat n, demo_booking "hall-1" "booked"))
                   (seq 0 1001)))))
     <> List.length
          (map public_view
             (filter (booked_of_hall None)
                (map snd
                   (map (fun n => (N.of_nat n, demo_booking "hall-1" "booked"))
                      (seq 0 1001))))).
Proof.
  split.
  - vm_compute; discriminate.
  - vm_compute; intros H.
    apply (f_equal (fun n => Nat.leb n 1000)) in H; vm_compute in H.
    discriminate.
Qed.

(** ** Timestamps: the text round trip *)

Lemma append_assoc : forall a b c : string, (a ++ b) ++ c = a ++ (b ++ c).
Proof.
  induction a as [|x a IH]; intros b c; simpl; [reflexivity|].
  rewrite IH; reflexivity.
Qed.

Lemma append_empty_r : forall a : string, a ++ "" = a.
Proof. induction a as [|x a IH]; simpl; [reflexivity|rewrite IH; reflexivity]. Qed.

Lemma digit_val_digit_char : forall n, digit_val (digit_char n) = Some (n mod 10)%N.
Proof.
  intros n; unfold digit_val, digit_char.
  rewrite (N_ascii_embedding (48 + n mod 10)) by lia.
  destruct (N.leb_spec 48 (48 + n mod 10)); [|exfalso; lia].
  destruct (N.leb_spec (48 + n mod 10) 57); [|exfalso; lia].
  cbn [andb]; f_equal; lia.
Qed.

Lemma read_digits_succ : forall w acc s,
  read_digits (S w) acc s
  = match read_digits w acc s with
    | Some (a, String c r) =>
        match digit_val c with
        | Some v => Some (10 * a + v, r)%N
        | None => None
        end
    | _ => None
    end.
Proof.
  induction w as [|w IH]; intros acc s.
  - destruct s; reflexivity.
  - destruct s as [|c rest]; [reflexivity|].
    cbn [read_digits]. destruct (digit_val c) as [v|]; [|reflexivity].
    apply IH.
Qed.

Lemma read_digits_pad : forall w n acc rest,
  (n < 10 ^ N.of_nat w)%N ->
  read_digits w acc (pad w n ++ rest)
  = Some (acc * 10 ^ N.of_nat w + n, rest)%N.
Proof.
  induction w as [|w IH]; intros n acc rest Hn.
  - simpl in *. f_equal; f_equal; lia.
  - rewrite read_digits_succ.
    change (pad (S w) n) with (pad w (n / 10) ++ String (digit_char n) "").
    rewrite append_assoc; simpl append.
    rewrite Nat2N.inj_succ, N.pow_succ_r' in *.
    rewrite IH by lia.
    rewrite digit_val_digit_char. f_equal; f_equal. lia.
Qed.

Lemma read2 : forall n rest, (n < 100)%N ->
  read_digits 2 0 (pad 2 n ++ rest) = Some (n, rest).
Proof. intros n rest H; rewrite read_digits_pad by exact H; reflexivity. Qed.

Lemma read4 : forall n rest, (n < 10000)%N ->
  read_digits 4 0 (pad 4 n ++ rest) = Some (n, rest).
Proof. intros n rest H; rewrite read_digits_pad by exact H; reflexivity. Qed.

Lemma read6 : forall n rest, (n < 1000000)%N ->
  read_digits 6 0 (pad 6 n ++ rest) = Some (n, rest).
Proof. intros n rest H; rewrite read_digits_pad by exact H; reflexivity. Qed.

Lemma parse_offset_format_offset : forall tz,
  match tz with
  | None => True
  | Some off => (-86400 < off < 86400)%Z
  end ->
  parse_offset (format_offset tz) = Some tz.
Proof.
  intros [off|] H; [|reflexivity].
  unfold format_offset.
  set (a := Z.to_N (Z.abs off)).
  assert (Ha : (a < 86400)%N) by (unfold a; lia).
  assert (Hsign : forall sg,
    (sg * Z.of_N a = off)%Z ->
    match read_digits 2 0 (pad 2 (a / 3600) ++ ":" ++ pad 2 (a mod 3600 / 60)
             ++ (if (a mod 60 =? 0)%N then "" else ":" ++ pad 2 (a mod 60))) with
    | None => None
    | Some (hh, r1) =>
        match expect ":" r1 with
        | None => None
        | Some r2 =>
            match read_digits 2 0 r2 with
            | None => None
            | Some (mm, r3) =>
                match r3 with
                | EmptyString =>
                    Some (Some (sg * Z.of_N (hh * 3600 + mm * 60))%Z)
                | _ =>
                    match expect ":" r3 with
                    | None => None
                    | Some r4 =>
                        match read_digits 2 0 r4 with
                        | Some (ss, EmptyString) =>
                            Some (Some (sg * Z.of_N (hh * 3600 + mm * 60 + ss))%Z)
                        | _ => None
                        end
                    end
                end
            end
        end
    end = Some (Some off)).
  { intros sg Hsg.
    rewrite read2 by lia. cbn [append expect]. rewrite Ascii.eqb_refl.
    rewrite read2 by lia.
    destruct (N.eqb_spec (a mod 60) 0) as [E|E].
    - cbn [append]. do 2 f_equal. rewrite <- Hsg. f_equal. lia.
    - cbn [append expect]. rewrite Ascii.eqb_refl.
      rewrite <- (append_empty_r (pad 2 (a mod 60))), read2 by lia.
      do 2 f_equal. rewrite <- Hsg. f_equal. lia. }
  destruct (Z.ltb_spec off 0).
  - cbn [append parse_offset]. cbn [Ascii.eqb Bool.eqb].
    apply (Hsign (-1)%Z); unfold a; lia.
  - cbn [append parse_offset]. cbn [Ascii.eqb Bool.eqb].
    apply (Hsign 1%Z); unfold a; lia.
Qed.

Lemma parse_fraction_format : forall us tz s,
  (us < 1000000)%N ->
  s = format_offset tz ->
  parse_fraction
    ((if (us =? 0)%N then "" else String "."%char (pad 6 us)) ++ s)
  = Some (us, s).
Proof.
  intros us tz s Hus ->.
  destruct (N.eqb_spec us 0) as [->|Hne].
  - cbn [append]. destruct tz as [off|]; [|reflexivity].
    unfold format_offset; destruct (off <? 0)%Z; reflexivity.
  - cbn [append parse_fraction]. rewrite read6 by exact Hus. reflexivity.
Qed.

Lemma days_in_month_bound : forall y m, (days_in_month y m <= 31)%N.
Proof.
  intros y m; unfold days_in_month.
  repeat match goal with
         | |- context [match ?x with _ => _ end] => destruct x
         end; lia.
Qed.

Lemma valid_datetime_bounds : forall d,
  valid_datetime d = true ->
  (year d < 10000 /\ month d < 100 /\ day d < 100 /\ hour d < 100
   /\ minute d < 100 /\ second d < 100 /\ microsecond d < 1000000)%N
  /\ match tzinfo d with
     | None => True
     | Some off => (-86400 < off < 86400)%Z
     end.
Proof.
  intros d H; unfold valid_datetime in H.
  repeat (apply andb_true_iff in H; destruct H as [H ?]).
  pose proof (days_in_month_bound (year d) (month d)).
  repeat match goal with
         | E : (_ <=? _)%N = true |- _ => apply N.leb_le in E
         | E : (_ <? _)%N = true |- _ => apply N.ltb_lt in E
         end.
  split; [lia|].
  destruct (tzinfo d) as [off|]; [|exact I].
  match goal with
  | E : _ && _ = true |- _ => apply andb_true_iff in E; destruct E as [E1 E2]
  end.
  apply Z.ltb_lt in E1, E2; lia.
Qed.

(** Reading back the text of a timestamp gives the timestamp. *)
Lemma fromisoformat_isoformat : forall d,
  valid_datetime d = true -> fromisoformat (isoformat d) = Some d.
Proof.
  intros d Hvalid.
  destruct (valid_datetime_bounds d Hvalid)
    as ((Hy & Hmo & Hd & Hh & Hmi & Hs & Hus) & Htz).
  unfold fromisoformat, isoformat.
  rewrite read4 by exact Hy. cbn [append expect]. rewrite Ascii.eqb_refl.
  rewrite read2 by exact Hmo. cbn [append expect]. rewrite Ascii.eqb_refl.
  rewrite read2 by exact Hd. cbn [append].
  rewrite read2 by exact Hh. cbn [append expect]. rewrite Ascii.eqb_refl.
  rewrite read2 by exact Hmi. cbn [append expect]. rewrite Ascii.eqb_refl.
  rewrite read2 by exact Hs.
  rewrite (parse_fraction_format (tzinfo d) Hus eq_refl).
  rewrite (parse_offset_format_offset (tzinfo d) Htz).
  assert (Heta : {| year := year d; month := month d; day := day d;
                     hour := hour d; minute := minute d; second := second d;
                     microsecond := microsecond d; tzinfo := tzinfo d |} = d)
    by (destruct d; reflexivity).
  cbv zeta. rewrite Heta, Hvalid; reflexivity.
Qed.

Lemma mapM_map_In : forall (A B C : Type) (f : B -> result C) (g : A -> B)
                           (h : A -> C) l,
  (forall x, In x l -> f (g x) = Ok (h x)) ->
  mapM f (map g l) = Ok (map h l).
Proof.
  intros A B C f g h l; induction l as [|x xs IH]; intros H; simpl;
    [reflexivity|].
  rewrite (H x (or_introl eq_refl)), IH by (intros y Hy; apply H; now right).
  reflexivity.
Qed.

Lemma In_firstn : forall (A : Type) n (l : list A) x,
  In x (firstn n l) -> In x l.
Proof.
  intros A n; induction n as [|n IH]; intros [|y l] x H; simpl in *;
    try contradiction.
  destruct H as [H|H]; [now left|right; apply IH; exact H].
Qed.

Lemma In_firstn_filter : forall (A : Type) (p : A -> bool) n l x,
  In x (firstn n (filter p l)) -> In x l.
Proof.
  intros A p n l x H.
  apply In_firstn in H.
  apply filter_In in H; tauto.
Qed.

Lemma all_docs_vdocs : forall l, all_docs (map VDoc l) = Some l.
Proof.
  induction l as [|d rest IH]; simpl; [reflexivity|rewrite IH; reflexivity].
Qed.

Lemma hall_query_selects_booking : forall hall_id ob,
  matches (hall_query hall_id []) (stored_booking ob)
  = hall_selected hall_id (Booking.hall_id (snd ob)).
Proof.
  intros hall_id [o b]; unfold hall_selected, hall_query.
  destruct hall_id as [h|]; [destruct (String.eqb h "")|]; cbn;
    rewrite ?andb_true_r; reflexivity.
Qed.

Lemma hall_query_selects_bill : forall hall_id ob,
  matches (hall_query hall_id []) (stored_bill ob)
  = hall_selected hall_id (Bill.hall_id (snd ob)).
Proof.
  intros hall_id [o b]; unfold hall_selected, hall_query.
  destruct hall_id as [h|]; [destruct (String.eqb h "")|]; cbn;
    rewrite ?andb_true_r; reflexivity.
Qed.

Lemma parse_stored_booking : forall ob,
  valid_datetime (Booking.booking_date (snd ob)) = true ->
  parse_timestamp "booking_date" (project_out ["_id"] (stored_booking ob))
  = Ok (Booking.model_dump (snd ob)).
Proof.
  intros [o b] Hvalid; unfold parse_timestamp; cbn [snd] in *.
  change (lookup "booking_date" (project_out ["_id"] (stored_booking (o, b))))
    with (Some (VStr (isoformat (Booking.booking_date b)))).
  cbv beta iota. rewrite (fromisoformat_isoformat _ Hvalid); reflexivity.
Qed.

Lemma parse_stored_bill : forall ob,
  valid_datetime (Bill.created_at (snd ob)) = true ->
  parse_timestamp "created_at" (project_out ["_id"] (stored_bill ob))
  = Ok (Bill.model_dump (snd ob)).
Proof.
  intros [o b] Hvalid; unfold parse_timestamp; cbn [snd] in *.
  change (lookup "created_at" (project_out ["_id"] (stored_bill (o, b))))
    with (Some (VStr (isoformat (Bill.created_at b)))).
  cbv beta iota. rewrite (fromisoformat_isoformat _ Hvalid); reflexivity.
Qed.

Lemma validate_booking_dump : forall uuid now b,
  Booking.validate uuid now (Booking.model_dump b) = Some b.
Proof. intros uuid now [i h d cn cc cp et ng [tb|] bd st]; reflexivity. Qed.

Lemma validate_bill_dump : forall uuid now b,
  Bill.validate uuid now (Bill.model_dump b) = Some b.
Proof.
  intros uuid now b; destruct b as [i [bi|] h hn cn cc bd ed ng et sv ti hr ch di pb ta ba ca];
    unfold Bill.validate, Bill.model_dump;
    cbn -[all_docs]; unfold get_docs; cbn -[all_docs];
    unfold vdocs; rewrite !all_docs_vdocs; reflexivity.
Qed.

Lemma update_one_stored :
  forall (A : Type) (key : A -> string) (dump : A -> doc) (i : string) (a : A) l,
    (forall o a0, matches [("id", VStr i)] (("_id", VOid o) :: dump a0)
                  = String.eqb (key a0) i) ->
    (forall o a0, update_fields (dump a) (("_id", VOid o) :: dump a0)
                  = ("_id", VOid o) :: dump a) ->
    update_one [("id", VStr i)] (dump a)
      (map (fun oa => ("_id", VOid (fst oa)) :: dump (snd oa)) l)
    = map (fun oa => ("_id", VOid (fst oa)) :: dump (snd oa))
        (update_stored key i a l).
Proof.
  intros A key dump i a l Hm Hu; unfold update_one.
  induction l as [|[o a0] rest IH]; [reflexivity|].
  cbn [map update_first update_stored fst snd]. rewrite Hm.
  destruct (String.eqb (key a0) i).
  - cbn [fst map snd]. rewrite Hu; reflexivity.
  - destruct (update_first [("id", VStr i)] (dump a) _) as [c hit] eqn:E.
    cbn [fst] in *. cbn [map fst snd]. rewrite IH; reflexivity.
Qed.

Lemma select_stored : forall (A : Type) (sel : A -> bool) (l : list (N * A)) n,
  map snd (firstn n (filter (fun oa => sel (snd oa)) l))
  = firstn n (filter sel (map snd l)).
Proof.
  intros A sel l n; rewrite (filter_map_commute snd), firstn_map; reflexivity.
Qed.

Lemma get_bookings_stored : forall hall_id admin db stored,
  bookings db = map stored_booking stored ->
  Forall (fun ob => valid_datetime (Booking.booking_date (snd ob)) = true)
    stored ->
  get_bookings hall_id admin db
  = Ok (map Booking.model_dump
          (firstn 1000
             (filter (fun b => hall_selected hall_id (Booking.hall_id b))
                (map snd stored)))).
Proof.
  intros hall_id admin db stored Hdb Hvalid.
  unfold get_bookings, find_to_list; rewrite Hdb.
  rewrite (filter_map_commute stored_booking), firstn_map, map_map.
  rewrite (filter_ext _ _ (hall_query_selects_booking hall_id)).
  rewrite <- select_stored, map_map.
  apply mapM_map_In; intros ob Hin.
  apply parse_stored_booking.
  apply In_firstn_filter in Hin.
  rewrite Forall_forall in Hvalid; apply Hvalid; exact Hin.
Qed.

Lemma get_bills_stored : forall hall_id admin db stored,
  bills db = map stored_bill stored ->
  Forall (fun ob => valid_datetime (Bill.created_at (snd ob)) = true) stored ->
  get_bills hall_id admin db
  = Ok (map Bill.model_dump
          (firstn 1000
             (filter (fun b => hall_selected hall_id (Bill.hall_id b))
                (map snd stored)))).
Proof.
  intros hall_id admin db stored Hdb Hvalid.
  unfold get_bills, find_to_list; rewrite Hdb.
  rewrite (filter_map_commute stored_bill), firstn_map, map_map.
  rewrite (filter_ext _ _ (hall_query_selects_bill hall_id)).
  rewrite <- select_stored, map_map.
  apply mapM_map_In; intros ob Hin.
  apply parse_stored_bill.
  apply In_firstn_filter in Hin.
  rewrite Forall_forall in Hvalid; apply Hvalid; exact Hin.
Qed.

Lemma update_booking_stored : forall i b admin db stored,
  bookings db = map stored_booking stored ->
  bookings (state_after (update_booking i b admin db))
  = map stored_booking (update_stored Booking.id i b stored).
Proof.
  intros i b admin db stored Hdb; cbn; rewrite Hdb.
  apply (update_one_stored Booking.id booking_document).
  - intros o a0; cbn. apply andb_true_r.
  - intros o a0; reflexivity.
Qed.

Lemma update_bill_stored : forall i b admin db stored,
  bills db = map stored_bill stored ->
  bills (state_after (update_bill i b admin db))
  = map stored_bill (update_stored Bill.id i b stored).
Proof.
  intros i b admin db stored Hdb; cbn; rewrite Hdb.
  apply (update_one_stored Bill.id bill_document).
  - intros o a0; cbn. apply andb_true_r.
  - intros o a0; reflexivity.
Qed.

(** C4, as the code has it.  A Booking or Bill is written with its timestamp
    as text, on create and on update; the admin booking listing and the bill
    listing read that text back into the timestamp it was made from, so that
    the records come back as they were written; the public booking listing
    hands out the stored text as it is. *)
Theorem timestamps_text_in_store :
  forall (stored : list (N * Booking.t)) (stored_bills : list (N * Bill.t)) db,
    bookings db = map stored_booking stored ->
    bills db = map stored_bill stored_bills ->
    Forall (fun ob => valid_datetime (Booking.booking_date (snd ob)) = true)
      stored ->
    Forall (fun ob => valid_datetime (Bill.created_at (snd ob)) = true)
      stored_bills ->
    (forall ob, lookup "booking_date" (stored_booking ob)
                = Some (VStr (isoformat (Booking.booking_date (snd ob)))))
    /\ (forall ob, lookup "created_at" (stored_bill ob)
                   = Some (VStr (isoformat (Bill.created_at (snd ob)))))
    /\ (forall b admin,
          bookings (state_after (create_booking b admin db))
          = map stored_booking (stored ++ [(next_oid db, b)]))
    /\ (forall i b admin,
          bookings (state_after (update_booking i b admin db))
          = map stored_booking (update_stored Booking.id i b stored))
    /\ (forall b admin,
          bills (state_after (create_bill b admin db))
          = map stored_bill (stored_bills ++ [(next_oid db, b)]))
    /\ (forall i b admin,
          bills (state_after (update_bill i b admin db))
          = map stored_bill (update_stored Bill.id i b stored_bills))
    /\ (forall b, lookup "booking_date" (Booking.model_dump b)
                  = Some (VDate (Booking.booking_date b)))
    /\ (forall b, lookup "created_at" (Bill.model_dump b)
                  = Some (VDate (Bill.created_at b)))
    /\ (forall hall_id admin,
          get_bookings hall_id admin db
          = Ok (map Booking.model_dump
                  (firstn 1000
                     (filter (fun b => hall_selected hall_id (Booking.hall_id b))
                        (map snd stored)))))
    /\ (forall uuid4 now hall_id admin,
          get_bookings_response uuid4 now hall_id admin db
          = Ok (firstn 1000
                  (filter (fun b => hall_selected hall_id (Booking.hall_id b))
                     (map snd stored))))
    /\ (forall hall_id admin,
          get_bills hall_id admin db
          = Ok (map Bill.model_dump
                  (firstn 1000
                     (filter (fun b => hall_selected hall_id (Bill.hall_id b))
                        (map snd stored_bills)))))
    /\ (forall uuid4 now hall_id admin,
          get_bills_response uuid4 now hall_id admin db
          = Ok (firstn 1000
                  (filter (fun b => hall_selected hall_id (Bill.hall_id b))
                     (map snd stored_bills))))
    /\ (forall hall_id,
          Forall (fun d => exists b,
                    lookup "booking_date" d
                    = Some (VStr (isoformat (Booking.booking_date b))))
            (get_public_bookings hall_id db)).
Proof.
  intros stored stored_bills db Hdb Hbills Hvalid Hvalid_bills.
  split; [intros [o b]; reflexivity|].
  split; [intros [o b]; reflexivity|].
  split; [intros b admin; cbn; rewrite Hdb, map_app; reflexivity|].
  split; [intros i b admin; apply update_booking_stored; exact Hdb|].
  split; [intros b admin; cbn; rewrite Hbills, map_app; reflexivity|].
  split; [intros i b admin; apply update_bill_stored; exact Hbills|].
  split; [intros b; reflexivity|].
  split; [intros b; reflexivity|].
  split; [intros; apply get_bookings_stored; assumption|].
  split.
  { intros uuid4 now hall_id admin; unfold get_bookings_response.
    rewrite (get_bookings_stored hall_id admin db Hdb Hvalid); cbn [bind].
    rewrite <- (map_id (firstn 1000 _)) at 2.
    apply response_validation_list_map; intros b j; apply validate_booking_dump. }
  split; [intros; apply get_bills_stored; assumption|].
  split.
  { intros uuid4 now hall_id admin; unfold get_bills_response.
    rewrite (get_bills_stored hall_id admin db Hbills Hvalid_bills); cbn [bind].
    rewrite <- (map_id (firstn 1000 _)) at 2.
    apply response_validation_list_map; intros b j; apply validate_bill_dump. }
  intros hall_id.
  rewrite (get_public_bookings_stored hall_id stored db Hdb).
  apply Forall_map, Forall_forall; intros b _; exists b; reflexivity.
Qed.

Lemma timestamps_text_in_store_witness :
  get_bookings_response (fun _ => "") (utc 2025 3 1 0 0 0 0) None []
    (with_bookings (map stored_booking [(0%N, demo_booking "hall-1" "booked")]))
  = Ok [demo_booking "hall-1" "booked"]
  /\ get_bills_response (fun _ => "") (utc 2025 3 1 0 0 0 0) (Some "hall-1") []
       (with_bills (map stored_bill [(0%N, demo_bill)]))
     = Ok [demo_bill].
Proof.
  split.
  - apply (@timestamps_text_in_store
             [(0%N, demo_booking "hall-1" "booked")] []
             (with_bookings
                (map stored_booking [(0%N, demo_booking "hall-1" "booked")]))
             eq_refl eq_refl);
      repeat constructor.
  - apply (@timestamps_text_in_store
             [] [(0%N, demo_bill)]
             (with_bills (map stored_bill [(0%N, demo_bill)]))
             eq_refl eq_refl);
      repeat constructor.
Defined.

(** C4, as the sentence has it, fails: the public listing is a read that
    returns the booking, and its timestamp is still the stored text. *)
Lemma timestamps_text_in_store_counterexample :
  get_public_bookings None
    (state_after
       (create_booking (demo_booking "hall-1" "booked") [] empty_database))
  = [public_view (demo_booking "hall-1" "booked")]
  /\ lookup "booking_date" (public_view (demo_booking "hall-1" "booked"))
     = Some (VStr "2025-01-05T10:30:00.250000+00:00")
  /\ ~ Forall (fun d => exists t, lookup "booking_date" d = Some (VDate t))
        (get_public_bookings None
           (state_after
              (create_booking (demo_booking "hall-1" "booked") []
                 empty_database))).
Proof.
  split; [reflexivity|split; [reflexivity|]].
  intros H; inversion H as [|d l [t Ht] _]; subst.
  vm_compute in Ht; discriminate.
Qed.

(** ** Admins *)

Lemma project_out_nothing : forall d, project_out [] d = d.
Proof. intros d; apply filter_all; reflexivity. Qed.

Lemma username_query_selects : forall u oa,
  matches [("username", VStr u)] (stored_admin oa)
  = String.eqb (Admin.username (snd oa)) u.
Proof. intros u [o a]; cbn; apply andb_true_r. Qed.

Lemma id_query_selects : forall i oa,
  matches [("id", VStr i)] (stored_admin oa) = String.eqb (Admin.id (snd oa)) i.
Proof. intros i [o a]; cbn; apply andb_true_r. Qed.

Lemma filter_none : forall (A : Type) (p : A -> bool) l,
  (forall x, In x l -> p x = false) -> filter p l = [].
Proof.
  intros A p l; induction l as [|x xs IH]; intros H; simpl; [reflexivity|].
  rewrite (H x (or_introl eq_refl)); apply IH; intros y Hy; apply H; now right.
Qed.

Lemma found_username : forall u stored,
  found (find_one [("username", VStr u)] [] (map stored_admin stored)) = true
  <-> In u (usernames stored).
Proof.
  intros u stored; unfold find_one, usernames.
  rewrite (filter_map_commute stored_admin).
  rewrite (filter_ext _ _ (username_query_selects u)).
  induction stored as [|[o a] rest IH]; simpl; [split; [discriminate|tauto]|].
  destruct (String.eqb_spec (Admin.username a) u) as [E|E]; simpl.
  - split; [intros _; left; exact E|reflexivity].
  - rewrite IH; split; [now right|intros [H|H]; [contradiction|exact H]].
Qed.

Section AdminProperties.

Variable pwd_hash : string -> string -> string.

(** C7.  On a collection of stored Admin records, a creation request whose
    username is the username of a stored record fails with "Username already
    exists" and leaves the database as it was; with a new username (and a
    password and a hall name) the request appends one Admin carrying the
    drawn id and the hash of the password, and answers with that id. *)
Theorem create_admin_duplicate_username :
  forall admin_data admin uuid now salt db stored u,
    admins db = map stored_admin stored ->
    lookup "username" admin_data = Some (VStr u) ->
    (In u (usernames stored) ->
       create_admin pwd_hash admin_data admin uuid now salt db
       = (Raise (HTTPException 400 "Username already exists"), db))
    /\ (~ In u (usernames stored) ->
        forall p h,
          lookup "password" admin_data = Some (VStr p) ->
          lookup "hall_name" admin_data = Some (VStr h) ->
          create_admin pwd_hash admin_data admin uuid now salt db
          = (Ok [("message", VStr "Admin created successfully");
                 ("id", VStr uuid)],
             bump_oid
               (set_admins
                  (map stored_admin
                     (stored ++
                      [(next_oid db,
                        {| Admin.id := uuid; Admin.username := u;
                           Admin.password_hash := pwd_hash salt p;
                           Admin.hall_name := h;
                           Admin.created_at := now |})]))
                  db))).
Proof.
  intros admin_data admin uuid now salt db stored u Hdb Hu; split.
  - intros Hin; unfold create_admin; rewrite Hu, Hdb.
    apply found_username in Hin; rewrite Hin; reflexivity.
  - intros Hnew p h Hp Hh; unfold create_admin; rewrite Hu, Hdb, Hp, Hh.
    destruct (found (find_one [("username", VStr u)] [] (map stored_admin stored)))
      eqn:E; [apply found_username in E; contradiction|].
    unfold insert_one; rewrite map_app; reflexivity.
Qed.

End AdminProperties.

Lemma create_admin_duplicate_username_witness :
  create_admin demo_pwd_hash (demo_admin_data "om_admin") [] "new-id"
    (utc 2025 3 1 12 0 0 0) "salt"
    (with_admins (map stored_admin [(0%N, demo_admin "a-1" "om_admin")]))
  = (Raise (HTTPException 400 "Username already exists"),
     with_admins (map stored_admin [(0%N, demo_admin "a-1" "om_admin")]))
  /\ admins
       (snd (create_admin demo_pwd_hash (demo_admin_data "shiv_admin") []
               "new-id" (utc 2025 3 1 12 0 0 0) "salt"
               (with_admins
                  (map stored_admin [(0%N, demo_admin "a-1" "om_admin")]))))
     = map stored_admin
         [(0%N, demo_admin "a-1" "om_admin");
          (1%N, {| Admin.id := "new-id"; Admin.username := "shiv_admin";
                   Admin.password_hash := demo_pwd_hash "salt" "s3cret";
                   Admin.hall_name := "Shiv Lawns";
                   Admin.created_at := utc 2025 3 1 12 0 0 0 |})].
Proof.
  split.
  - apply (proj1 (@create_admin_duplicate_username demo_pwd_hash
             (demo_admin_data "om_admin") [] "new-id" (utc 2025 3 1 12 0 0 0)
             "salt"
             (with_admins (map stored_admin [(0%N, demo_admin "a-1" "om_admin")]))
             [(0%N, demo_admin "a-1" "om_admin")] "om_admin"
             eq_refl eq_refl)).
    simpl; auto.
  - rewrite (proj2 (@create_admin_duplicate_username demo_pwd_hash
             (demo_admin_data "shiv_admin") [] "new-id"
             (utc 2025 3 1 12 0 0 0) "salt"
             (with_admins (map stored_admin [(0%N, demo_admin "a-1" "om_admin")]))
             [(0%N, demo_admin "a-1" "om_admin")] "shiv_admin"
             eq_refl eq_refl)
           ltac:(simpl; intros [H|[]]; discriminate)
           "s3cret" "Shiv Lawns" eq_refl eq_refl).
    reflexivity.
Defined.

Lemma delete_one_stored_admin : forall i stored,
  delete_one [("id", VStr i)] (map stored_admin stored)
  = map stored_admin (delete_stored Admin.id i stored).
Proof.
  intros i stored; induction stored as [|[o a] rest IH]; [reflexivity|].
  cbn [map delete_one delete_stored]. rewrite id_query_selects; cbn [snd].
  destruct (String.eqb (Admin.id a) i); [reflexivity|].
  cbn [map]; rewrite IH; reflexivity.
Qed.

Lemma delete_stored_unique : forall i stored,
  NoDup (admin_ids stored) ->
  ~ In i (admin_ids (delete_stored Admin.id i stored)).
Proof.
  intros i stored; unfold admin_ids.
  induction stored as [|[o a] rest IH]; intros Hnd; simpl; [tauto|].
  inversion Hnd as [|x l Hnotin Hrest]; subst.
  destruct (String.eqb_spec (Admin.id a) i) as [E|E].
  - subst i; exact Hnotin.
  - simpl; intros [H|H]; [contradiction|exact (IH Hrest H)].
Qed.

Lemma find_by_id_absent : forall i excluded stored,
  ~ In i (admin_ids stored) ->
  find_one [("id", VStr i)] excluded (map stored_admin stored) = None.
Proof.
  intros i excluded stored Hnotin; unfold find_one.
  rewrite (filter_map_commute stored_admin).
  rewrite (filter_ext _ _ (id_query_selects i)).
  rewrite filter_none; [reflexivity|].
  intros [o a] Hin; cbn [snd].
  destruct (String.eqb_spec (Admin.id a) i) as [E|E]; [|reflexivity].
  exfalso; apply Hnotin; unfold admin_ids.
  apply in_map_iff; exists (o, a); split; [exact E|exact Hin].
Qed.

(** C8.  An admin who asks to delete the own id gets "Cannot delete your own
    account" and nothing is removed.  Any other id succeeds; on a collection
    of stored Admin records with distinct ids, no admin with that id is found
    afterwards, and a token of that admin is answered "Admin not found". *)
Theorem delete_admin_self_forbidden :
  forall admin_id admin own db stored,
    lookup "id" admin = Some (VStr own) ->
    (admin_id = own ->
       delete_admin admin_id admin db
       = (Raise (HTTPException 400 "Cannot delete your own account"), db))
    /\ (admin_id <> own ->
        admins db = map stored_admin stored ->
        NoDup (admin_ids stored) ->
        exists db',
          delete_admin admin_id admin db
          = (Ok (message "Admin deleted successfully"), db')
          /\ admins db'
             = map stored_admin (delete_stored Admin.id admin_id stored)
          /\ find_one [("id", VStr admin_id)] ["_id"] (admins db') = None
          /\ forall SECRET_KEY hs256 t now p,
               decode_token SECRET_KEY hs256 t now = Ok p ->
               lookup "sub" p = Some (JStr admin_id) ->
               get_current_admin SECRET_KEY hs256 t now db'
               = Raise (HTTPException 401 "Admin not found")).
Proof.
  intros admin_id admin own db stored Hown; split.
  - intros ->; unfold delete_admin; rewrite Hown; cbn [value_eqb].
    rewrite String.eqb_refl; reflexivity.
  - intros Hne Hdb Hnd; unfold delete_admin; rewrite Hown; cbn [value_eqb].
    destruct (String.eqb_spec admin_id own) as [E|_]; [contradiction|].
    eexists; split; [reflexivity|].
    cbn [admins set_admins]. rewrite Hdb, delete_one_stored_admin.
    pose proof (@delete_stored_unique admin_id stored Hnd) as Hgone.
    split; [reflexivity|split].
    + apply find_by_id_absent; exact Hgone.
    + intros key mac t now p Hp Hsub; unfold get_current_admin.
      rewrite Hp, Hsub; cbn [json_value admins set_admins].
      rewrite ?Hdb, ?delete_one_stored_admin, (@find_by_id_absent _ _ _ Hgone).
      reflexivity.
Qed.

Lemma delete_admin_self_forbidden_witness :
  delete_admin "a-1" (Admin.model_dump (demo_admin "a-1" "om_admin"))
    (with_admins (map stored_admin [(0%N, demo_admin "a-1" "om_admin");
                                    (1%N, demo_admin "a-2" "shiv_admin")]))
  = (Raise (HTTPException 400 "Cannot delete your own account"),
     with_admins (map stored_admin [(0%N, demo_admin "a-1" "om_admin");
                                    (1%N, demo_admin "a-2" "shiv_admin")]))
  /\ exists db',
       delete_admin "a-2" (Admin.model_dump (demo_admin "a-1" "om_admin"))
         (with_admins (map stored_admin [(0%N, demo_admin "a-1" "om_admin");
                                         (1%N, demo_admin "a-2" "shiv_admin")]))
       = (Ok (message "Admin deleted successfully"), db')
       /\ find_one [("id", VStr "a-2")] ["_id"] (admins db') = None.
Proof.
  split.
  - apply (proj1 (@delete_admin_self_forbidden "a-1"
             (Admin.model_dump (demo_admin "a-1" "om_admin")) "a-1"
             (with_admins (map stored_admin
                [(0%N, demo_admin "a-1" "om_admin");
                 (1%N, demo_admin "a-2" "shiv_admin")]))
             [] eq_refl) eq_refl).
  - destruct (proj2 (@delete_admin_self_forbidden "a-2"
             (Admin.model_dump (demo_admin "a-1" "om_admin")) "a-1"
             (with_admins (map stored_admin
                [(0%N, demo_admin "a-1" "om_admin");
                 (1%N, demo_admin "a-2" "shiv_admin")]))
             [(0%N, demo_admin "a-1" "om_admin");
              (1%N, demo_admin "a-2" "shiv_admin")] eq_refl)
           ltac:(discriminate) eq_refl
           ltac:(repeat constructor; simpl; intuition discriminate))
      as (db' & Hdel & _ & Hfind & _).
    exists db'; split; assumption.
Defined.

(** ** Caps of the listings *)

Lemma mapM_length : forall (A B : Type) (f : A -> result B) l l',
  mapM f l = Ok l' -> List.length l' = List.length l.
Proof.
  intros A B f l; induction l as [|x xs IH]; intros l'; simpl.
  - intros H; injection H as <-; reflexivity.
  - destruct (f x); [|discriminate].
    destruct (mapM f xs) eqn:E; [|discriminate].
    intros H; injection H as <-; simpl; f_equal; apply IH; reflexivity.
Qed.

Lemma find_all_length : forall excluded n c,
  List.length (find_to_list [] excluded n c) = Nat.min n (List.length c).
Proof.
  intros; rewrite find_to_list_length, filter_all; reflexivity.
Qed.

Lemma bind_validation_length :
  forall (M : Type) (validate : nat -> doc -> option M) r l ms,
    r = Ok l ->
    bind r (response_validation_list validate 0) = Ok ms ->
    List.length ms = List.length l.
Proof.
  intros M validate r l ms -> H; cbn [bind] in H.
  exact (response_validation_list_length _ _ _ H).
Qed.

(** C9, as the code has it.  Every listing returns the documents its query
    selects, all of them up to a fixed number and never more: 100 for the
    admin listing and for the hall listing, 1000 for the service, package,
    shubh-date, booking, public booking and bill listings; the response model
    keeps that number. *)
Theorem listing_caps : forall db hall_id admin,
  List.length (get_admins admin db) = Nat.min 100 (List.length (admins db))
  /\ List.length (get_halls db) = Nat.min 100 (List.length (halls db))
  /\ List.length (get_services hall_id db)
     = Nat.min 1000
         (List.length (filter (matches (hall_query hall_id [])) (services db)))
  /\ List.length (get_packages hall_id db)
     = Nat.min 1000
         (List.length (filter (matches (hall_query hall_id [])) (packages db)))
  /\ List.length (get_shubh_dates hall_id db)
     = Nat.min 1000
         (List.length
            (filter (matches (hall_query hall_id [])) (shubh_dates db)))
  /\ List.length (get_public_bookings hall_id db)
     = Nat.min 1000
         (List.length
            (filter (matches (hall_query hall_id [("status", VStr "booked")]))
               (bookings db)))
  /\ (forall l, get_bookings hall_id admin db = Ok l ->
        List.length l
        = Nat.min 1000
            (List.length
               (filter (matches (hall_query hall_id [])) (bookings db))))
  /\ (forall l, get_bills hall_id admin db = Ok l ->
        List.length l
        = Nat.min 1000
            (List.length (filter (matches (hall_query hall_id [])) (bills db))))
  /\ (forall rs, get_admins_response admin db = Ok rs ->
        List.length rs = Nat.min 100 (List.length (admins db)))
  /\ (forall uuid4 rs, get_halls_response uuid4 db = Ok rs ->
        List.length rs = Nat.min 100 (List.length (halls db)))
  /\ (forall uuid4 rs, get_services_response uuid4 hall_id db = Ok rs ->
        List.length rs
        = Nat.min 1000
            (List.length
               (filter (matches (hall_query hall_id [])) (services db))))
  /\ (forall uuid4 rs, get_packages_response uuid4 hall_id db = Ok rs ->
        List.length rs
        = Nat.min 1000
            (List.length
               (filter (matches (hall_query hall_id [])) (packages db))))
  /\ (forall uuid4 rs, get_shubh_dates_response uuid4 hall_id db = Ok rs ->
        List.length rs
        = Nat.min 1000
            (List.length
               (filter (matches (hall_query hall_id [])) (shubh_dates db))))
  /\ (forall uuid4 now rs,
        get_bookings_response uuid4 now hall_id admin db = Ok rs ->
        List.length rs
        = Nat.min 1000
            (List.length
               (filter (matches (hall_query hall_id [])) (bookings db))))
  /\ (forall uuid4 now rs,
        get_bills_response uuid4 now hall_id admin db = Ok rs ->
        List.length rs
        = Nat.min 1000
            (List.length (filter (matches (hall_query hall_id [])) (bills db)))).
Proof.
  intros db hall_id admin.
  assert (Hbookings : forall l, get_bookings hall_id admin db = Ok l ->
            List.length l
            = Nat.min 1000
                (List.length
                   (filter (matches (hall_query hall_id [])) (bookings db)))).
  { intros l H; unfold get_bookings in H.
    rewrite (mapM_length _ _ H); apply find_to_list_length. }
  assert (Hbills : forall l, get_bills hall_id admin db = Ok l ->
            List.length l
            = Nat.min 1000
                (List.length
                   (filter (matches (hall_query hall_id [])) (bills db)))).
  { intros l H; unfold get_bills in H.
    rewrite (mapM_length _ _ H); apply find_to_list_length. }
  split; [apply find_all_length|].
  split; [apply find_all_length|].
  split; [apply find_to_list_length|].
  split; [apply find_to_list_length|].
  split; [apply find_to_list_length|].
  split; [apply find_to_list_length|].
  split; [exact Hbookings|].
  split; [exact Hbills|].
  split.
  { intros rs H; unfold get_admins_response in H.
    rewrite (response_validation_list_length _ _ _ H); apply find_all_length. }
  split.
  { intros uuid4 rs H; unfold get_halls_response in H.
    rewrite (response_validation_list_length _ _ _ H); apply find_all_length. }
  split.
  { intros uuid4 rs H; unfold get_services_response in H.
    rewrite (response_validation_list_length _ _ _ H);
      apply find_to_list_length. }
  split.
  { intros uuid4 rs H; unfold get_packages_response in H.
    rewrite (response_validation_list_length _ _ _ H);
      apply find_to_list_length. }
  split.
  { intros uuid4 rs H; unfold get_shubh_dates_response in H.
    rewrite (response_validation_list_length _ _ _ H);
      apply find_to_list_length. }
  split.
  { intros uuid4 now rs H; unfold get_bookings_response in H.
    destruct (get_bookings hall_id admin db) as [l|e] eqn:E; [|discriminate].
    rewrite (bind_validation_length _ eq_refl H); apply Hbookings; reflexivity. }
  intros uuid4 now rs H; unfold get_bills_response in H.
  destruct (get_bills hall_id admin db) as [l|e] eqn:E; [|discriminate].
  rewrite (bind_validation_length _ eq_refl H); apply Hbills; reflexivity.
Qed.

Lemma listing_caps_witness :
  List.length [demo_hall "hall"; demo_hall "hall"; demo_hall "hall"]
  = Nat.min 100 (List.length (halls (many_halls 3))).
Proof.
  apply (proj1 (proj2 (proj2 (proj2 (proj2 (proj2 (proj2 (proj2 (proj2
           (proj2 (listing_caps (many_halls 3) None []))))))))))
           (fun _ => "")).
  reflexivity.
Defined.

(** C9, as the sentence has it, fails for the hall listing: of 101 stored
    halls it returns 100, not all of them up to 1000. *)
Lemma listing_caps_counterexample :
  List.length (halls (many_halls 101)) = 101
  /\ List.length (get_halls (many_halls 101)) = 100
  /\ List.length (get_halls (many_halls 101))
     <> Nat.min 1000 (List.length (halls (many_halls 101))).
Proof.
  split; [reflexivity|split; [reflexivity|]].
  intros H; apply (f_equal (fun n => Nat.leb n 100)) in H.
  vm_compute in H; discriminate.
Qed.

(** ** Ids of stored documents *)

Lemma lookup_set_field : forall (V : Type) k k' (v : V) d,
  lookup k (set_field k' v d)
  = if String.eqb k k' then Some v else lookup k d.
Proof.
  intros V k k' v d; induction d as [|[k0 v0] rest IH]; cbn [set_field lookup].
  - destruct (String.eqb k k'); reflexivity.
  - destruct (String.eqb_spec k' k0) as [E|E]; cbn [lookup].
    + subst k0. destruct (String.eqb k k'); reflexivity.
    + rewrite IH. destruct (String.eqb_spec k k0) as [E0|E0]; [|reflexivity].
      subst k0. destruct (String.eqb_spec k k') as [E1|_]; [|reflexivity].
      subst k'; contradiction.
Qed.

Lemma lookup_app : forall (V : Type) k (a b : list (string * V)),
  lookup k (a ++ b)%list
  = match lookup k a with Some v => Some v | None => lookup k b end.
Proof.
  intros V k a b; induction a as [|[k0 v0] rest IH]; cbn [app lookup];
    [reflexivity|].
  destruct (String.eqb k k0); [reflexivity|exact IH].
Qed.

(** After [d.update(u)] a key has the last value [u] gives it, or else the
    value it had. *)
Lemma lookup_update_fields : forall (V : Type) k (u d : list (string * V)),
  lookup k (update_fields u d)
  = match lookup k (rev u) with Some v => Some v | None => lookup k d end.
Proof.
  intros V k u; unfold update_fields.
  induction u as [|[k' v] rest IH]; intros d; cbn [fold_left rev fst snd];
    [reflexivity|].
  rewrite IH, lookup_app, lookup_set_field; cbn [lookup].
  destruct (lookup k (rev rest)); [reflexivity|].
  destruct (String.eqb k k'); reflexivity.
Qed.

Lemma in_update_first : forall q u c d',
  In d' (fst (update_first q u c)) ->
  In d' c \/ exists d, In d c /\ matches q d = true /\ d' = update_fields u d.
Proof.
  intros q u c; induction c as [|d rest IH]; intros d'; cbn [update_first].
  - intros [].
  - destruct (matches q d) eqn:Em.
    + cbn [fst]; intros [H|H].
      * right; exists d; split; [now left|split; [exact Em|now symmetry]].
      * left; now right.
    + destruct (update_first q u rest) as [rest' hit]; cbn [fst] in *.
      intros [H|H]; [left; now left|].
      destruct (IH d' H) as [Hin|(d0 & Hin & Hm & E)].
      * left; now right.
      * right; exists d0; split; [now right|split; assumption].
Qed.

Lemma map_update_first : forall (B : Type) (f : doc -> B) q u c,
  (forall d, In d c -> matches q d = true -> f (update_fields u d) = f d) ->
  map f (fst (update_first q u c)) = map f c.
Proof.
  intros B f q u c; induction c as [|d rest IH]; intros H; cbn [update_first];
    [reflexivity|].
  destruct (matches q d) eqn:Em.
  - cbn [fst map]; rewrite (H d (or_introl eq_refl) Em); reflexivity.
  - destruct (update_first q u rest) as [rest' hit]; cbn [fst map] in *.
    rewrite IH; [reflexivity|intros d0 Hin; apply H; now right].
Qed.

Lemma in_delete_one : forall q c d, In d (delete_one q c) -> In d c.
Proof.
  intros q c; induction c as [|d0 rest IH]; intros d; cbn [delete_one];
    [intros []|].
  destruct (matches q d0); [intros H; now right|].
  intros [H|H]; [now left|right; apply IH; exact H].
Qed.

Lemma delete_one_NoDup : forall (B : Type) (f : doc -> B) q c,
  NoDup (map f c) -> NoDup (map f (delete_one q c)).
Proof.
  intros B f q c; induction c as [|d rest IH]; cbn [delete_one map];
    intros H; [exact H|].
  inversion H as [|x l Hnotin Hrest]; subst.
  destruct (matches q d); [exact Hrest|].
  cbn [map]; constructor; [|apply IH; exact Hrest].
  intros Hin; apply Hnotin.
  apply in_map_iff in Hin; destruct Hin as (d0 & E & Hin).
  apply in_map_iff; exists d0; split; [exact E|].
  apply (in_delete_one _ _ _ Hin).
Qed.

Lemma NoDup_map_injective : forall (A B : Type) (f : A -> B) l x y,
  NoDup (map f l) -> In x l -> In y l -> f x = f y -> x = y.
Proof.
  intros A B f l; induction l as [|a rest IH]; intros x y Hnd Hx Hy E;
    [contradiction|].
  cbn [map] in Hnd; inversion Hnd as [|z l Hnotin Hrest]; subst.
  destruct Hx as [->|Hx], Hy as [->|Hy]; try reflexivity.
  - exfalso; apply Hnotin; rewrite E; apply in_map; exact Hy.
  - exfalso; apply Hnotin; rewrite <- E; apply in_map; exact Hx.
  - apply IH; assumption.
Qed.

(** *** The collection after an operation of the store *)

Lemma carried_refl : forall bound c, carried bound c c.
Proof. intros bound c d Hin; left; exists d; auto. Qed.

Lemma carried_trans : forall b b' c c' c'',
  (b <= b')%N -> carried b c c' -> carried b' c' c'' -> carried b c c''.
Proof.
  intros b b' c c' c'' Hle H1 H2 d'' Hin.
  destruct (H2 d'' Hin) as [(d' & Hin' & Eo & Ei)|(n & Eo & Hn)].
  - destruct (H1 d' Hin') as [(d & Hd & Eo' & Ei')|(n & Eo' & Hn)].
    + left; exists d; repeat split; congruence.
    + right; exists n; split; [congruence|exact Hn].
  - right; exists n; split; [exact Eo|lia].
Qed.

Lemma carried_insert : forall bound d c,
  has_key "_id" d = false -> carried bound c (insert_one bound d c).
Proof.
  intros bound d c Hkey d' Hin; unfold insert_one in Hin.
  apply in_app_or in Hin; destruct Hin as [Hin|[<-|[]]].
  - left; exists d'; auto.
  - right; exists bound; split; [|lia].
    unfold with_oid; rewrite Hkey; reflexivity.
Qed.

Lemma carried_update : forall bound q u c,
  lookup "_id" (rev u) = None ->
  (forall d, In d c -> matches q d = true ->
             id_of (update_fields u d) = id_of d) ->
  carried bound c (update_one q u c).
Proof.
  intros bound q u c Hu Hid d' Hin; unfold update_one in Hin.
  destruct (in_update_first _ _ _ _ Hin) as [Hd|(d & Hd & Hm & ->)].
  - left; exists d'; auto.
  - left; exists d; split; [exact Hd|split].
    + unfold oid_of; rewrite lookup_update_fields, Hu; reflexivity.
    + symmetry; apply Hid; assumption.
Qed.

Lemma carried_delete : forall bound q c, carried bound c (delete_one q c).
Proof.
  intros bound q c d' Hin; left; exists d'; split; [|auto].
  apply (in_delete_one _ _ _ Hin).
Qed.

Lemma carried_upsert : forall bound q u c,
  lookup "_id" (rev u) = None ->
  has_key "_id" (update_fields u q) = false ->
  (forall d, In d c -> matches q d = true ->
             id_of (update_fields u d) = id_of d) ->
  carried bound c (update_one_upsert bound q u c).
Proof.
  intros bound q u c Hu Hkey Hid; unfold update_one_upsert.
  pose proof (carried_update bound q u c Hu Hid) as Hupd.
  unfold update_one in Hupd.
  destruct (update_first q u c) as [c' hit]; cbn [fst] in Hupd.
  destruct hit; [exact Hupd|].
  apply (carried_insert bound (update_fields u q) c Hkey).
Qed.

Lemma well_formed_doc_weaken : forall b b' d,
  (b <= b')%N -> well_formed_doc b d -> well_formed_doc b' d.
Proof.
  intros b b' d Hle [(n & Eo & Hn) Hid]; split; [|exact Hid].
  exists n; split; [exact Eo|lia].
Qed.

Lemma well_formed_collection_weaken : forall b b' c,
  (b <= b')%N -> well_formed_collection b c -> well_formed_collection b' c.
Proof.
  intros b b' c Hle [Hall Hnd]; split; [|exact Hnd].
  eapply Forall_impl; [|exact Hall].
  intros d; apply well_formed_doc_weaken; exact Hle.
Qed.

Lemma well_formed_insert : forall b d c,
  has_key "_id" d = false ->
  (exists s, id_of d = Some (VStr s)) ->
  well_formed_collection b c ->
  well_formed_collection (N.succ b) (insert_one b d c).
Proof.
  intros b d c Hkey Hid [Hall Hnd]; unfold insert_one, with_oid; rewrite Hkey.
  split.
  - apply Forall_app; split.
    + eapply Forall_impl; [|exact Hall].
      intros d0; apply well_formed_doc_weaken; lia.
    + constructor; [|constructor]. split.
      * exists b; split; [reflexivity|lia].
      * exact Hid.
  - rewrite map_app; cbn [map].
    apply NoDup_app; [exact Hnd|constructor; [intros []|constructor]|].
    intros o Hin [E|[]]; subst o.
    apply in_map_iff in Hin; destruct Hin as (d0 & E & Hin).
    rewrite Forall_forall in Hall.
    destruct (Hall d0 Hin) as [(n & Eo & Hn) _].
    unfold oid_of in *; cbn [lookup String.eqb] in E.
    rewrite Eo in E. cbn in E. injection E as ->. lia.
Qed.

Lemma well_formed_update : forall b q u c,
  lookup "_id" (rev u) = None ->
  (forall d, In d c -> matches q d = true ->
             id_of (update_fields u d) = id_of d) ->
  well_formed_collection b c ->
  well_formed_collection b (update_one q u c).
Proof.
  intros b q u c Hu Hid [Hall Hnd]; unfold update_one; split.
  - apply Forall_forall; intros d' Hin.
    rewrite Forall_forall in Hall.
    destruct (in_update_first _ _ _ _ Hin) as [Hd|(d & Hd & Hm & ->)];
      [apply Hall; exact Hd|].
    destruct (Hall d Hd) as [(n & Eo & Hn) (s & Es)]; split.
    + exists n; split; [|exact Hn].
      unfold oid_of; rewrite lookup_update_fields, Hu; exact Eo.
    + exists s; rewrite (Hid d Hd Hm); exact Es.
  - rewrite map_update_first; [exact Hnd|].
    intros d _ _; unfold oid_of; rewrite lookup_update_fields, Hu; reflexivity.
Qed.

Lemma well_formed_delete : forall b q c,
  well_formed_collection b c -> well_formed_collection b (delete_one q c).
Proof.
  intros b q c [Hall Hnd]; split.
  - apply Forall_forall; intros d Hin.
    rewrite Forall_forall in Hall; apply Hall, (in_delete_one _ _ _ Hin).
  - apply delete_one_NoDup; exact Hnd.
Qed.

Lemma well_formed_upsert : forall b q u c,
  lookup "_id" (rev u) = None ->
  has_key "_id" (update_fields u q) = false ->
  (exists s, id_of (update_fields u q) = Some (VStr s)) ->
  (forall d, In d c -> matches q d = true ->
             id_of (update_fields u d) = id_of d) ->
  well_formed_collection b c ->
  well_formed_collection (N.succ b) (update_one_upsert b q u c).
Proof.
  intros b q u c Hu Hkey Hnew Hid Hwf; unfold update_one_upsert.
  pose proof (well_formed_update q u Hu Hid Hwf) as Hupd.
  unfold update_one in Hupd.
  destruct (update_first q u c) as [c' hit] eqn:E; cbn [fst] in Hupd.
  destruct hit.
  - apply (well_formed_collection_weaken (b := b)); [lia|exact Hupd].
  - apply (well_formed_insert (update_fields u q) Hkey Hnew Hwf).
Qed.

(** *** The database after a request *)

Lemma well_formed_get : forall db n,
  well_formed db -> well_formed_collection (next_oid db) (get_collection n db).
Proof.
  intros db n H; unfold well_formed, collections in H.
  repeat match goal with
         | H : Forall _ (_ :: _) |- _ => inversion H; clear H; subst
         end.
  destruct n; assumption.
Qed.

Lemma step_ok_refl : forall db, well_formed db -> step_ok db db.
Proof.
  intros db H; split; [lia|split; [exact H|]].
  intros n; apply carried_refl.
Qed.

Lemma step_ok_set : forall n c' db,
  well_formed db ->
  well_formed_collection (next_oid db) c' ->
  carried (next_oid db) (get_collection n db) c' ->
  step_ok db (set_collection n c' db).
Proof.
  intros n c' db Hwf Hc Hcar.
  pose proof (fun m => well_formed_get m Hwf) as Hget.
  split; [destruct n; cbn; lia|split].
  - unfold well_formed, collections.
    pose proof (Hget Admins); pose proof (Hget Halls);
      pose proof (Hget Services); pose proof (Hget Packages);
      pose proof (Hget ShubhDates); pose proof (Hget Bookings);
      pose proof (Hget Bills); pose proof (Hget SettingsColl).
    destruct n; cbn in *;
      repeat (apply Forall_cons; [assumption|]); apply Forall_nil.
  - intros m; destruct n, m; cbn; try apply carried_refl; exact Hcar.
Qed.

Lemma step_ok_set_bump : forall n c' db,
  well_formed db ->
  well_formed_collection (N.succ (next_oid db)) c' ->
  carried (next_oid db) (get_collection n db) c' ->
  step_ok db (bump_oid (set_collection n c' db)).
Proof.
  intros n c' db Hwf Hc Hcar.
  assert (Hget : forall m, well_formed_collection (N.succ (next_oid db))
                             (get_collection m db)).
  { intros m; apply (well_formed_collection_weaken (b := next_oid db));
      [lia|apply well_formed_get; exact Hwf]. }
  split; [destruct n; cbn; lia|split].
  - unfold well_formed, collections.
    pose proof (Hget Admins); pose proof (Hget Halls);
      pose proof (Hget Services); pose proof (Hget Packages);
      pose proof (Hget ShubhDates); pose proof (Hget Bookings);
      pose proof (Hget Bills); pose proof (Hget SettingsColl).
    destruct n; cbn in *;
      repeat (apply Forall_cons; [assumption|]); apply Forall_nil.
  - intros m; destruct n, m; cbn; try apply carried_refl; exact Hcar.
Qed.

Lemma id_stable : forall b c q u,
  well_formed_collection b c ->
  lookup "id" (rev u) = None
  \/ (exists i, q = [("id", VStr i)] /\ lookup "id" (rev u) = Some (VStr i)) ->
  forall d, In d c -> matches q d = true ->
            id_of (update_fields u d) = id_of d.
Proof.
  intros b c q u [Hall _] Hu d Hin Hm; unfold id_of.
  rewrite lookup_update_fields.
  destruct Hu as [->|(i & -> & ->)]; [reflexivity|].
  rewrite Forall_forall in Hall.
  destruct (Hall d Hin) as [_ (s & Es)]; unfold id_of in Es.
  cbn [matches forallb fst snd] in Hm; rewrite Es in Hm.
  cbn [field_matches value_eqb] in Hm; rewrite andb_true_r in Hm.
  apply String.eqb_eq in Hm; subst s; symmetry; exact Es.
Qed.

Lemma step_ok_update : forall n q u db,
  well_formed db ->
  lookup "_id" (rev u) = None ->
  lookup "id" (rev u) = None
  \/ (exists i, q = [("id", VStr i)] /\ lookup "id" (rev u) = Some (VStr i)) ->
  step_ok db (set_collection n (update_one q u (get_collection n db)) db).
Proof.
  intros n q u db Hwf Hoid Hid.
  pose proof (well_formed_get n Hwf) as Hc.
  pose proof (@id_stable _ _ _ _ Hc Hid) as Hstable.
  apply step_ok_set; [exact Hwf| |].
  - apply well_formed_update; assumption.
  - apply carried_update; assumption.
Qed.

Lemma step_ok_insert : forall n d db,
  well_formed db ->
  has_key "_id" d = false ->
  (exists s, id_of d = Some (VStr s)) ->
  step_ok db
    (bump_oid
       (set_collection n (insert_one (next_oid db) d (get_collection n db)) db)).
Proof.
  intros n d db Hwf Hkey Hid.
  pose proof (well_formed_get n Hwf) as Hc.
  apply step_ok_set_bump; [exact Hwf| |].
  - apply well_formed_insert; assumption.
  - apply carried_insert; exact Hkey.
Qed.

Lemma step_ok_delete : forall n q db,
  well_formed db ->
  step_ok db (set_collection n (delete_one q (get_collection n db)) db).
Proof.
  intros n q db Hwf.
  pose proof (well_formed_get n Hwf) as Hc.
  apply step_ok_set; [exact Hwf| |].
  - apply well_formed_delete; exact Hc.
  - apply carried_delete.
Qed.

Lemma step_ok_upsert : forall n i u db,
  well_formed db ->
  lookup "_id" (rev u) = None ->
  has_key "_id" (update_fields u [("id", VStr i)]) = false ->
  lookup "id" (rev u) = Some (VStr i) ->
  step_ok db
    (bump_oid
       (set_collection n
          (update_one_upsert (next_oid db) [("id", VStr i)] u
             (get_collection n db)) db)).
Proof.
  intros n i u db Hwf Hoid Hkey Hid.
  pose proof (well_formed_get n Hwf) as Hc.
  assert (Hstable : forall d, In d (get_collection n db) ->
            matches [("id", VStr i)] d = true ->
            id_of (update_fields u d) = id_of d).
  { apply (@id_stable _ _ _ _ Hc); right; exists i; auto. }
  apply step_ok_set_bump; [exact Hwf| |].
  - apply well_formed_upsert; try assumption.
    exists i; unfold id_of; rewrite lookup_update_fields, Hid; reflexivity.
  - apply carried_upsert; assumption.
Qed.

Section Requests.

Variable SECRET_KEY : string.
Variable hs256 : string -> string * payload -> string.
Variable pwd_hash : string -> string -> string.
Variable pwd_verify : value -> value -> option bool.

Lemma get_settings_ok : forall db,
  well_formed db -> step_ok db (state_after (get_settings db)).
Proof.
  intros db Hwf; unfold get_settings, state_after.
  destruct (negb (found (find_one [("id", VStr "settings")] ["_id"] (settings db))));
    cbn [snd].
  - apply (@step_ok_insert SettingsColl); [exact Hwf|reflexivity|].
    eexists; reflexivity.
  - apply step_ok_refl; exact Hwf.
Qed.

Lemma run_guarded_ok : forall o admin db,
  well_formed db ->
  keeps_id o = true ->
  step_ok db (run_guarded pwd_hash pwd_verify o admin db).
Proof.
  intros o admin db Hwf Hkeep.
  destruct o; cbn [run_guarded keeps_id] in *;
    try (apply String.eqb_eq in Hkeep; subst);
    try apply get_settings_ok; try exact Hwf;
    unfold state_after.
  - (* change-password *)
    unfold change_password.
    destruct (lookup "password_hash" admin); [|apply step_ok_refl; exact Hwf].
    destruct (pwd_verify _ _) as [[|]|]; try (apply step_ok_refl; exact Hwf).
    destruct (lookup "id" admin); [|apply step_ok_refl; exact Hwf].
    apply (@step_ok_update Admins); [exact Hwf|reflexivity|left; reflexivity].
  - (* create admin *)
    unfold create_admin.
    destruct (lookup "username" admin_data) as [u|];
      [|apply step_ok_refl; exact Hwf].
    destruct (found _); [apply step_ok_refl; exact Hwf|].
    destruct (lookup "password" admin_data) as [[]|];
      try (apply step_ok_refl; exact Hwf).
    destruct (lookup "hall_name" admin_data) as [h|];
      [|apply step_ok_refl; exact Hwf].
    destruct u, h; try (apply step_ok_refl; exact Hwf).
    apply (@step_ok_insert Admins); [exact Hwf|reflexivity|].
    eexists; reflexivity.
  - (* delete admin *)
    unfold delete_admin.
    destruct (lookup "id" admin); [|apply step_ok_refl; exact Hwf].
    destruct (value_eqb _ _); [apply step_ok_refl; exact Hwf|].
    apply (@step_ok_delete Admins); exact Hwf.
  - apply (@step_ok_update Halls); [exact Hwf|reflexivity|].
    right; eexists; split; reflexivity.
  - apply (@step_ok_insert Services); [exact Hwf|reflexivity|].
    eexists; reflexivity.
  - apply (@step_ok_update Services); [exact Hwf|reflexivity|].
    right; eexists; split; reflexivity.
  - apply (@step_ok_delete Services); exact Hwf.
  - apply (@step_ok_insert Packages); [exact Hwf|reflexivity|].
    eexists; reflexivity.
  - apply (@step_ok_update Packages); [exact Hwf|reflexivity|].
    right; eexists; split; reflexivity.
  - apply (@step_ok_delete Packages); exact Hwf.
  - apply (@step_ok_insert ShubhDates); [exact Hwf|reflexivity|].
    eexists; reflexivity.
  - apply (@step_ok_delete ShubhDates); exact Hwf.
  - apply (@step_ok_insert Bookings); [exact Hwf|reflexivity|].
    eexists; reflexivity.
  - apply (@step_ok_update Bookings); [exact Hwf|reflexivity|].
    right; eexists; split; reflexivity.
  - apply (@step_ok_delete Bookings); exact Hwf.
  - apply (@step_ok_insert Bills); [exact Hwf|reflexivity|].
    eexists; reflexivity.
  - apply (@step_ok_update Bills); [exact Hwf|reflexivity|].
    right; eexists; split; reflexivity.
  - apply (@step_ok_delete Bills); exact Hwf.
  - apply (@step_ok_upsert SettingsColl "settings");
      [exact Hwf|reflexivity|reflexivity|].
    change (Some (VStr (Settings.id new_settings)) = Some (VStr "settings")).
    rewrite Hkeep; reflexivity.
Qed.

End Requests.

Lemma step_ok_trans : forall db db' db'',
  step_ok db db' -> step_ok db' db'' -> step_ok db db''.
Proof.
  intros db db' db'' (Hle & _ & Hcar) (Hle' & Hwf' & Hcar').
  split; [lia|split; [exact Hwf'|]].
  intros n; apply (carried_trans Hle (Hcar n) (Hcar' n)).
Qed.

Lemma carried_ids_kept : forall b c c',
  well_formed_collection b c -> carried b c c' -> ids_kept c c'.
Proof.
  intros b c c' [Hall Hnd] Hcar d d' Hd Hd' Eo.
  rewrite Forall_forall in Hall.
  destruct (Hall d Hd) as [(n & En & Hn) _].
  destruct (Hcar d' Hd') as [(d0 & Hd0 & Eo0 & Ei0)|(n' & En' & Hn')].
  - assert (d = d0)
      by (apply (NoDup_map_injective oid_of c); try assumption; congruence).
    subst d0; symmetry; exact Ei0.
  - exfalso; rewrite Eo, En' in En; injection En as ->; lia.
Qed.

Section Runs.

Variable SECRET_KEY : string.
Variable hs256 : string -> string * payload -> string.
Variable pwd_hash : string -> string -> string.
Variable pwd_verify : value -> value -> option bool.

Lemma step_ok_step : forall db r,
  well_formed db ->
  keeps_id (req_operation r) = true ->
  step_ok db (step SECRET_KEY hs256 pwd_hash pwd_verify db r).
Proof.
  intros db [o c t] Hwf Hkeep; unfold step;
    cbn [req_operation req_credentials req_time] in *.
  assert (Hguarded :
    step_ok db
      match c with
      | Some tok =>
          match get_current_admin SECRET_KEY hs256 tok t db with
          | Ok admin => run_guarded pwd_hash pwd_verify o admin db
          | Raise _ => db
          end
      | None => db
      end).
  { destruct c as [tok|]; [|apply step_ok_refl; exact Hwf].
    destruct (get_current_admin SECRET_KEY hs256 tok t db);
      [|apply step_ok_refl; exact Hwf].
    apply run_guarded_ok; assumption. }
  destruct o; try exact Hguarded.
  apply get_settings_ok; exact Hwf.
Qed.

Lemma run_ok : forall rs db,
  well_formed db ->
  Forall (fun r => keeps_id (req_operation r) = true) rs ->
  step_ok db (run SECRET_KEY hs256 pwd_hash pwd_verify db rs).
Proof.
  unfold run; induction rs as [|r rest IH]; intros db Hwf Hkeep;
    cbn [fold_left].
  - apply step_ok_refl; exact Hwf.
  - inversion Hkeep as [|x l Hr Hrest]; subst.
    pose proof (@step_ok_step db r Hwf Hr) as Hstep.
    apply (step_ok_trans Hstep).
    apply IH; [exact (proj1 (proj2 Hstep))|exact Hrest].
Qed.

(** C5, as the code has it.  Through every sequence of requests in which each
    update carries in its body the id it is addressed to (for the settings,
    the id "settings"), a stored document keeps the id it was created with,
    in every collection. *)
Theorem ids_never_change : forall db rs n,
  well_formed db ->
  Forall (fun r => keeps_id (req_operation r) = true) rs ->
  ids_kept (get_collection n db)
    (get_collection n (run SECRET_KEY hs256 pwd_hash pwd_verify db rs)).
Proof.
  intros db rs n Hwf Hkeep.
  destruct (@run_ok rs db Hwf Hkeep) as (_ & _ & Hcar).
  apply (carried_ids_kept (well_formed_get n Hwf) (Hcar n)).
Qed.

End Runs.

Lemma well_formed_empty : forall b, well_formed_collection b [].
Proof. intros b; split; constructor. Qed.

Lemma well_formed_one : forall b n d s,
  oid_of d = Some (VOid n) -> (n < b)%N -> id_of d = Some (VStr s) ->
  well_formed_collection b [d].
Proof.
  intros b n d s Eo Hn Ei; split.
  - apply Forall_cons; [|apply Forall_nil].
    split; [exists n; split; assumption|exists s; exact Ei].
  - apply NoDup_cons; [intros []|apply NoDup_nil].
Qed.

Lemma demo_database_well_formed : well_formed demo_database.
Proof.
  unfold well_formed, collections, demo_database; cbn.
  repeat apply Forall_cons; try apply Forall_nil; try apply well_formed_empty.
  - apply (@well_formed_one 2%N 0%N _ "7d9f3c4e"); reflexivity.
  - apply (@well_formed_one 2%N 1%N _ "s-1"); reflexivity.
Qed.

Lemma ids_never_change_witness :
  ids_kept (services demo_database)
    (services
       (demo_run demo_database
          [demo_request (UpdateService "s-1" (demo_service "s-1" "Lights"));
           demo_request (CreateService (demo_service "s-2" "Sound"));
           demo_request (DeleteService "s-9")])).
Proof.
  apply (@ids_never_change demo_secret demo_hs256 demo_pwd_hash
           demo_pwd_verify demo_database
           [demo_request (UpdateService "s-1" (demo_service "s-1" "Lights"));
            demo_request (CreateService (demo_service "s-2" "Sound"));
            demo_request (DeleteService "s-9")] Services
           demo_database_well_formed).
  repeat constructor.
Defined.

(** C5, as the sentence has it, fails: an update addressed to "s-1" whose
    body carries the id "s-2" leaves the stored document, the same [_id],
    with the id "s-2". *)
Lemma ids_never_change_counterexample :
  map (fun d => (oid_of d, id_of d)) (services demo_database)
  = [(Some (VOid 1), Some (VStr "s-1"))]
  /\ map (fun d => (oid_of d, id_of d))
       (services
          (demo_run demo_database
             [demo_request (UpdateService "s-1" (demo_service "s-2" "Decor"))]))
     = [(Some (VOid 1), Some (VStr "s-2"))]
  /\ ~ ids_kept (services demo_database)
         (services
            (demo_run demo_database
               [demo_request
                  (UpdateService "s-1" (demo_service "s-2" "Decor"))])).
Proof.
  split; [reflexivity|split; [vm_compute; reflexivity|]].
  intros H.
  specialize (H (stored_service (1%N, demo_service "s-1" "Decor"))
                (stored_service (1%N, demo_service "s-2" "Decor"))).
  assert (E : id_of (stored_service (1%N, demo_service "s-2" "Decor"))
              = id_of (stored_service (1%N, demo_service "s-1" "Decor"))).
  { apply H; [left; reflexivity|vm_compute; left; reflexivity|reflexivity]. }
  vm_compute in E; discriminate.
Qed.

(** ** Settings *)

(** A read of an empty settings collection stores the defaults and returns
    them; the next read returns them again and stores nothing. *)
Lemma get_settings_creates_defaults : forall db,
  settings db = [] ->
  get_settings db
  = (Ok Settings.default,
     bump_oid
       (set_settings
          [("_id", VOid (next_oid db)) :: Settings.model_dump Settings.default]
          db))
  /\ forall db',
       db' = state_after (get_settings db) ->
       get_settings db' = (Ok Settings.default, db').
Proof.
  intros db Hempty; unfold get_settings at 1; rewrite Hempty; cbn.
  split; [reflexivity|].
  intros db' ->; unfold get_settings, state_after; rewrite Hempty; reflexivity.
Qed.

(** C6 at its failing input: an update whose body carries the id "main",
    then a read.  The update upserts a document with the id "main"; the read
    finds no document with the id "settings" and inserts the defaults: two
    documents. *)
Theorem settings_two_documents :
  map id_of
    (settings
       (demo_run demo_database
          [demo_request (UpdateSettings renamed_settings);
           demo_request GetSettings]))
  = [Some (VStr "main"); Some (VStr "settings")].
Proof. vm_compute; reflexivity. Qed.

Lemma lookup_project_out : forall k excluded (d : doc) v,
  lookup k d = Some v ->
  existsb (String.eqb k) excluded = false ->
  lookup k (project_out excluded d) = Some v.
Proof.
  intros k excluded d v; unfold project_out.
  induction d as [|[k0 v0] rest IH]; cbn [lookup filter fst]; [discriminate|].
  intros H Hex; destruct (String.eqb_spec k k0) as [E|E].
  - subst k0; rewrite Hex; cbn [negb lookup]; rewrite String.eqb_refl; exact H.
  - destruct (negb (existsb (String.eqb k0) excluded)); cbn [lookup];
      [destruct (String.eqb_spec k k0); [contradiction|]|]; apply IH; assumption.
Qed.

Lemma settings_query_selects : forall d,
  id_of d = Some (VStr "settings") -> matches [("id", VStr "settings")] d = true.
Proof. intros d H; unfold id_of in H; cbn; rewrite H; reflexivity. Qed.

Lemma get_settings_singleton : forall db,
  settings_singleton (settings db) ->
  settings_singleton (settings (state_after (get_settings db))).
Proof.
  intros db [Hempty|(d & Hone & Hid)]; unfold get_settings, state_after.
  - rewrite Hempty; cbn. right; eexists; split; reflexivity.
  - rewrite Hone; unfold find_one; cbn [filter].
    rewrite (settings_query_selects d Hid); cbn [found negb].
    assert (Hkept : lookup "id" (project_out ["_id"] d) = Some (VStr "settings"))
      by (apply lookup_project_out; [exact Hid|reflexivity]).
    destruct (project_out ["_id"] d) as [|kv rest]; [discriminate|].
    cbn [found negb snd]. rewrite Hone; right; exists d; auto.
Qed.

Lemma update_settings_singleton : forall s admin db,
  Settings.id s = "settings" ->
  settings_singleton (settings db) ->
  settings_singleton (settings (state_after (update_settings s admin db))).
Proof.
  intros s admin db Hs [Hempty|(d & Hone & Hid)];
    unfold update_settings, state_after; cbn [snd settings bump_oid set_settings].
  - rewrite Hempty; cbn. right; eexists; split; [reflexivity|].
    unfold id_of; cbn; rewrite Hs; reflexivity.
  - rewrite Hone; unfold update_one_upsert; cbn [update_first].
    rewrite (settings_query_selects d Hid).
    right; eexists; split; [reflexivity|].
    unfold id_of; rewrite lookup_update_fields; cbn; rewrite Hs; reflexivity.
Qed.

Section SettingsRuns.

Variable SECRET_KEY : string.
Variable hs256 : string -> string * payload -> string.
Variable pwd_hash : string -> string -> string.
Variable pwd_verify : value -> value -> option bool.

Lemma run_guarded_settings : forall o admin db,
  keeps_id o = true ->
  settings_singleton (settings db) ->
  settings_singleton (settings (run_guarded pwd_hash pwd_verify o admin db)).
Proof.
  intros o admin db Hkeep Hone.
  destruct o; cbn [run_guarded keeps_id] in *;
    try (apply get_settings_singleton; exact Hone);
    try (apply update_settings_singleton;
         [apply String.eqb_eq; exact Hkeep|exact Hone]);
    unfold state_after, change_password, create_admin, delete_admin;
    repeat match goal with
           | |- context [match ?x with _ => _ end] => destruct x
           end;
    exact Hone.
Qed.

Lemma step_settings : forall db r,
  keeps_id (req_operation r) = true ->
  settings_singleton (settings db) ->
  settings_singleton
    (settings (step SECRET_KEY hs256 pwd_hash pwd_verify db r)).
Proof.
  intros db [o c t] Hkeep Hone; unfold step;
    cbn [req_operation req_credentials req_time] in *.
  assert (Hguarded :
    settings_singleton
      (settings
         match c with
         | Some tok =>
             match get_current_admin SECRET_KEY hs256 tok t db with
             | Ok admin => run_guarded pwd_hash pwd_verify o admin db
             | Raise _ => db
             end
         | None => db
         end)).
  { destruct c as [tok|]; [|exact Hone].
    destruct (get_current_admin SECRET_KEY hs256 tok t db); [|exact Hone].
    apply run_guarded_settings; assumption. }
  destruct o; try exact Hguarded.
  apply get_settings_singleton; exact Hone.
Qed.

(** What holds of C6: as long as every settings update carries the id
    "settings", no sequence of requests makes a second settings document. *)
Lemma settings_at_most_one : forall rs db,
  settings_singleton (settings db) ->
  Forall (fun r => keeps_id (req_operation r) = true) rs ->
  (List.length
     (settings (run SECRET_KEY hs256 pwd_hash pwd_verify db rs)) <= 1)%nat.
Proof.
  assert (Hrun : forall rs db,
    settings_singleton (settings db) ->
    Forall (fun r => keeps_id (req_operation r) = true) rs ->
    settings_singleton
      (settings (run SECRET_KEY hs256 pwd_hash pwd_verify db rs))).
  { unfold run; induction rs as [|r rest IH]; intros db Hone Hkeep;
      cbn [fold_left]; [exact Hone|].
    inversion Hkeep as [|x l Hr Hrest]; subst.
    apply IH; [apply step_settings; assumption|exact Hrest]. }
  intros rs db Hone Hkeep.
  destruct (Hrun rs db Hone Hkeep) as [->|(d & -> & _)]; cbn; lia.
Qed.

End SettingsRuns.

(** * Further properties *)

Unset Implicit Arguments.

(** ** Tokens and the guard *)

Section GuardProperties.

Variable SECRET_KEY : string.
Variable hs256 : string -> string * payload -> string.

(** The token issued for plain claims, and what checking it gives. *)
Lemma issued_token_decodes : forall data T,
  plain_claims data = true ->
  exists j,
    create_access_token SECRET_KEY hs256 data T = Ok (JWS j)
    /\ (forall k, String.eqb k "exp" = false ->
          lookup k (jws_payload j) = option_map claim_json (lookup k data))
    /\ forall t,
         decode_token SECRET_KEY hs256 (JWS j) t
         = if ((timegm T + 86400) * 1000000 <=? t)%Z
           then Raise (HTTPException 401 "Token expired")
           else Ok (jws_payload j).
Proof.
  intros data T Hplain.
  destruct (set_exp_encode data (T + hours 24) Hplain)
    as (p & Ep & Hexp & Hiat & Hnbf & Haud & Hall).
  rewrite (timegm_plus_day SECRET_KEY hs256) in Hexp.
  exists {| jws_alg := ALGORITHM; jws_payload := p;
            jws_signature := hs256 SECRET_KEY (ALGORITHM, p) |}.
  split; [|split].
  - unfold create_access_token, jwt_encode, update_fields; simpl.
    rewrite Ep; reflexivity.
  - exact Hall.
  - intros t; unfold decode_token, jwt_decode; simpl.
    rewrite String.eqb_refl; simpl.
    unfold validate_claims, validate_iat, validate_nbf, validate_exp,
      validate_aud.
    rewrite Hiat, Hnbf, Hexp, Haud.
    destruct ((timegm T + 86400) * 1000000 <=? t)%Z; reflexivity.
Qed.

Lemma find_one_stored_admin : forall key (sel : Admin.t -> string) q i excluded stored,
  (forall oa, matches q (stored_admin oa) = String.eqb (sel (snd oa)) i) ->
  key = sel ->
  find_one q excluded (map stored_admin stored)
  = option_map (fun oa => project_out excluded (stored_admin oa))
      (find_stored key i stored).
Proof.
  intros key sel q i excluded stored Hq ->; unfold find_one.
  induction stored as [|oa rest IH]; [reflexivity|].
  cbn [map filter find_stored]. rewrite Hq.
  destruct (String.eqb (sel (snd oa)) i); [reflexivity|exact IH].
Qed.

Lemma find_admin_by_id : forall i excluded stored,
  find_one [("id", VStr i)] excluded (map stored_admin stored)
  = option_map (fun oa => project_out excluded (stored_admin oa))
      (find_stored Admin.id i stored).
Proof.
  intros; apply (find_one_stored_admin Admin.id Admin.id); [|reflexivity].
  intros oa; apply id_query_selects.
Qed.

Lemma find_admin_by_username : forall u excluded stored,
  find_one [("username", VStr u)] excluded (map stored_admin stored)
  = option_map (fun oa => project_out excluded (stored_admin oa))
      (find_stored Admin.username u stored).
Proof.
  intros; apply (find_one_stored_admin Admin.username Admin.username);
    [|reflexivity].
  intros oa; apply username_query_selects.
Qed.

Lemma find_admin_by_other : forall v excluded stored,
  (forall s, v <> VStr s) ->
  find_one [("id", v)] excluded (map stored_admin stored) = None.
Proof.
  intros v excluded stored Hv; unfold find_one.
  rewrite filter_none; [reflexivity|].
  intros d Hin; apply in_map_iff in Hin; destruct Hin as ([o a] & <- & _).
  cbn; rewrite andb_true_r.
  destruct v; try reflexivity. exfalso; apply (Hv s); reflexivity.
Qed.

Lemma get_current_admin_stored : forall t now p stored db,
  admins db = map stored_admin stored ->
  decode_token SECRET_KEY hs256 t now = Ok p ->
  get_current_admin SECRET_KEY hs256 t now db
  = match lookup "sub" p with
    | Some (JStr sub) =>
        match find_stored Admin.id sub stored with
        | Some oa => Ok (Admin.model_dump (snd oa))
        | None => Raise (HTTPException 401 "Admin not found")
        end
    | _ => Raise (HTTPException 401 "Admin not found")
    end.
Proof.
  intros t now p stored db Hdb Hp; unfold get_current_admin; rewrite Hp, Hdb.
  destruct (lookup "sub" p) as [[| | |sub]|]; cbn [json_value];
    try (rewrite find_admin_by_other by (intros s; discriminate); reflexivity).
  rewrite find_admin_by_id.
  destruct (find_stored Admin.id sub stored) as [[o a]|]; reflexivity.
Qed.

(** X1.  On stored Admin records the guard passes on the failure of the
    token check; a token that checks it answers with the first stored admin
    whose id is the token's [sub], as its document without [_id] (the
    password hash included); when [sub] is missing, is no string or is the
    id of no stored admin, it answers "Admin not found". *)
Theorem guard_resolves_first_admin_with_sub : forall t now stored db,
  admins db = map stored_admin stored ->
  get_current_admin SECRET_KEY hs256 t now db
  = match decode_token SECRET_KEY hs256 t now with
    | Raise e => Raise e
    | Ok p =>
        match lookup "sub" p with
        | Some (JStr sub) =>
            match find_stored Admin.id sub stored with
            | Some oa => Ok (Admin.model_dump (snd oa))
            | None => Raise (HTTPException 401 "Admin not found")
            end
        | _ => Raise (HTTPException 401 "Admin not found")
        end
    end.
Proof.
  intros t now stored db Hdb.
  destruct (decode_token SECRET_KEY hs256 t now) as [p|e] eqn:Hp.
  - apply get_current_admin_stored; assumption.
  - unfold get_current_admin; rewrite Hp; reflexivity.
Qed.

End GuardProperties.

Lemma guard_resolves_first_admin_with_sub_witness :
  get_current_admin demo_secret demo_hs256 demo_bearer 1700000001000000
    demo_database
  = Ok (Admin.model_dump (demo_admin "7d9f3c4e" "om_admin"))
  /\ get_current_admin demo_secret demo_hs256 demo_bearer 1700086400000000
       demo_database
     = Raise (HTTPException 401 "Token expired").
Proof.
  split.
  - rewrite (guard_resolves_first_admin_with_sub demo_secret demo_hs256
               demo_bearer 1700000001000000
               [(0%N, demo_admin "7d9f3c4e" "om_admin")] demo_database eq_refl).
    reflexivity.
  - rewrite (guard_resolves_first_admin_with_sub demo_secret demo_hs256
               demo_bearer 1700086400000000
               [(0%N, demo_admin "7d9f3c4e" "om_admin")] demo_database eq_refl).
    reflexivity.
Defined.

(** ** Login *)

Lemma find_stored_In : forall (A : Type) (key : A -> string) i l oa,
  find_stored key i l = Some oa -> In oa l /\ key (snd oa) = i.
Proof.
  intros A key i l oa; induction l as [|x rest IH]; cbn [find_stored];
    [discriminate|].
  destruct (String.eqb_spec (key (snd x)) i) as [E|E].
  - intros H; injection H as <-; split; [now left|exact E].
  - intros H; destruct (IH H); split; [now right|assumption].
Qed.

Lemma find_stored_None : forall (A : Type) (key : A -> string) i l,
  find_stored key i l = None <-> ~ In i (map (fun oa => key (snd oa)) l).
Proof.
  intros A key i l; induction l as [|x rest IH]; cbn [find_stored map In];
    [tauto|].
  destruct (String.eqb_spec (key (snd x)) i) as [E|E].
  - split; [discriminate|intros H; exfalso; apply H; now left].
  - rewrite IH; tauto.
Qed.

Lemma find_stored_unique : forall (A : Type) (key : A -> string) l oa,
  NoDup (map (fun x => key (snd x)) l) -> In oa l ->
  find_stored key (key (snd oa)) l = Some oa.
Proof.
  intros A key l oa Hnd Hin.
  destruct (find_stored key (key (snd oa)) l) as [x|] eqn:E.
  - destruct (find_stored_In _ _ _ _ _ E) as [Hx Ex].
    f_equal; apply (@NoDup_map_injective _ _ (fun x => key (snd x)) l);
      assumption.
  - exfalso; apply find_stored_None in E; apply E.
    apply in_map_iff; exists oa; auto.
Qed.

Section LoginProperties.

Variable SECRET_KEY : string.
Variable hs256 : string -> string * payload -> string.
Variable pwd_verify : value -> value -> option bool.

Lemma login_stored : forall l now stored db,
  admins db = map stored_admin stored ->
  login SECRET_KEY hs256 pwd_verify l now db
  = match find_stored Admin.username (AdminLogin.username l) stored with
    | None => Raise (HTTPException 401 "Invalid credentials")
    | Some oa =>
        match pwd_verify (VStr (AdminLogin.password l))
                (VStr (Admin.password_hash (snd oa))) with
        | None => Raise (Unhandled "TypeError")
        | Some false => Raise (HTTPException 401 "Invalid credentials")
        | Some true =>
            match create_access_token SECRET_KEY hs256
                    (admin_claims (snd oa)) now with
            | Raise e => Raise e
            | Ok t => Ok {| response_token := t;
                            response_admin := login_admin_view (snd oa) |}
            end
        end
    end.
Proof.
  intros l now stored db Hdb; unfold login; rewrite Hdb.
  rewrite find_admin_by_username.
  destruct (find_stored Admin.username (AdminLogin.username l) stored)
    as [[o a]|]; [|reflexivity].
  cbn [option_map snd].
  change (project_out ["_id"] (stored_admin (o, a))) with (Admin.model_dump a).
  cbn [Admin.model_dump lookup String.eqb Ascii.eqb Bool.eqb value_claim].
  destruct (pwd_verify _ _) as [[|]|]; try reflexivity.
Qed.

(** X2.  On stored Admin records, a login with a username no stored admin
    has and a login with a password that does not verify against the hash of
    the first admin of that username get the same answer, "Invalid
    credentials", and no token. *)
Theorem login_rejects_alike : forall l now stored db,
  admins db = map stored_admin stored ->
  (~ In (AdminLogin.username l) (usernames stored) ->
     login SECRET_KEY hs256 pwd_verify l now db
     = Raise (HTTPException 401 "Invalid credentials"))
  /\ (forall oa,
        find_stored Admin.username (AdminLogin.username l) stored = Some oa ->
        pwd_verify (VStr (AdminLogin.password l))
          (VStr (Admin.password_hash (snd oa))) = Some false ->
        login SECRET_KEY hs256 pwd_verify l now db
        = Raise (HTTPException 401 "Invalid credentials")).
Proof.
  intros l now stored db Hdb; rewrite (login_stored l now stored db Hdb); split.
  - intros Hnew; apply find_stored_None in Hnew.
    unfold usernames in *; rewrite Hnew; reflexivity.
  - intros oa Hfound Hwrong; rewrite Hfound, Hwrong; reflexivity.
Qed.

(** X3.  On stored Admin records with distinct ids, a login whose password
    verifies answers with the admin's id, username and hall name (and no
    password hash) and with a token that the guard resolves to that admin's
    document at every time before the token's expiry, and refuses as expired
    from then on. *)
Theorem login_token_resolves_to_admin : forall l now stored db oa,
  admins db = map stored_admin stored ->
  NoDup (admin_ids stored) ->
  find_stored Admin.username (AdminLogin.username l) stored = Some oa ->
  pwd_verify (VStr (AdminLogin.password l))
    (VStr (Admin.password_hash (snd oa))) = Some true ->
  exists r,
    login SECRET_KEY hs256 pwd_verify l now db = Ok r
    /\ response_admin r = login_admin_view (snd oa)
    /\ (forall t, (t < (timegm now + 86400) * 1000000)%Z ->
          get_current_admin SECRET_KEY hs256 (response_token r) t db
          = Ok (Admin.model_dump (snd oa)))
    /\ (forall t, ((timegm now + 86400) * 1000000 <= t)%Z ->
          get_current_admin SECRET_KEY hs256 (response_token r) t db
          = Raise (HTTPException 401 "Token expired")).
Proof.
  intros l now stored db oa Hdb Hnd Hfound Hright.
  rewrite (login_stored l now stored db Hdb), Hfound, Hright.
  destruct (issued_token_decodes SECRET_KEY hs256 (admin_claims (snd oa)) now
              eq_refl) as (j & Hissue & Hclaims & Hdec).
  rewrite Hissue. eexists; split; [reflexivity|split; [reflexivity|]].
  cbn [response_token].
  destruct (find_stored_In _ _ _ _ _ Hfound) as [Hin _].
  split; intros t Ht.
  - rewrite (get_current_admin_stored SECRET_KEY hs256 (JWS j) t
               (jws_payload j) stored db Hdb).
    + rewrite (Hclaims "sub" eq_refl); cbn.
      unfold admin_ids in Hnd.
      rewrite (find_stored_unique _ Admin.id stored oa Hnd Hin); reflexivity.
    + rewrite Hdec.
      destruct (Z.leb_spec ((timegm now + 86400) * 1000000) t);
        [exfalso; lia|reflexivity].
  - unfold get_current_admin; rewrite Hdec.
    destruct (Z.leb_spec ((timegm now + 86400) * 1000000) t);
      [reflexivity|exfalso; lia].
Qed.

End LoginProperties.

Lemma login_rejects_alike_witness :
  login demo_secret demo_hs256 demo_pwd_verify
    {| AdminLogin.username := "nobody"; AdminLogin.password := "om_admin" |}
    1700000000000000 demo_database
  = Raise (HTTPException 401 "Invalid credentials")
  /\ login demo_secret demo_hs256 demo_pwd_verify
       {| AdminLogin.username := "om_admin"; AdminLogin.password := "guess" |}
       1700000000000000 demo_database
     = Raise (HTTPException 401 "Invalid credentials").
Proof.
  split.
  - apply (proj1 (login_rejects_alike demo_secret demo_hs256 demo_pwd_verify
             {| AdminLogin.username := "nobody";
                AdminLogin.password := "om_admin" |}
             1700000000000000 [(0%N, demo_admin "7d9f3c4e" "om_admin")]
             demo_database eq_refl)).
    simpl; intros [H|[]]; discriminate.
  - apply (proj2 (login_rejects_alike demo_secret demo_hs256 demo_pwd_verify
             {| AdminLogin.username := "om_admin";
                AdminLogin.password := "guess" |}
             1700000000000000 [(0%N, demo_admin "7d9f3c4e" "om_admin")]
             demo_database eq_refl)
             (0%N, demo_admin "7d9f3c4e" "om_admin") eq_refl eq_refl).
Defined.

Lemma login_token_resolves_to_admin_witness :
  exists r,
    login demo_secret demo_hs256 demo_pwd_verify
      {| AdminLogin.username := "om_admin"; AdminLogin.password := "om_admin" |}
      1700000000000000 demo_database
    = Ok r
    /\ get_current_admin demo_secret demo_hs256 (response_token r)
         1700000001000000 demo_database
       = Ok (Admin.model_dump (demo_admin "7d9f3c4e" "om_admin")).
Proof.
  destruct (login_token_resolves_to_admin demo_secret demo_hs256
              demo_pwd_verify
              {| AdminLogin.username := "om_admin";
                 AdminLogin.password := "om_admin" |}
              1700000000000000 [(0%N, demo_admin "7d9f3c4e" "om_admin")]
              demo_database (0%N, demo_admin "7d9f3c4e" "om_admin")
              eq_refl
              ltac:(repeat constructor; simpl; tauto)
              eq_refl eq_refl)
    as (r & Hlogin & _ & Hbefore & _).
  exists r; split; [exact Hlogin|].
  apply Hbefore; unfold timegm; simpl; lia.
Defined.

(** ** Changing a password *)

Lemma change_hash_stored : forall i h stored,
  update_one [("id", VStr i)] [("password_hash", VStr h)]
    (map stored_admin stored)
  = map stored_admin (change_stored_hash i h stored).
Proof.
  intros i h stored; unfold update_one.
  induction stored as [|[o a] rest IH]; [reflexivity|].
  cbn [map update_first change_stored_hash]. rewrite id_query_selects.
  cbn [snd]. destruct (String.eqb (Admin.id a) i).
  - reflexivity.
  - destruct (update_first _ _ (map stored_admin rest)) as [c hit].
    cbn [fst] in *. cbn [map]. rewrite IH; reflexivity.
Qed.

Section PasswordProperties.

Variable SECRET_KEY : string.
Variable hs256 : string -> string * payload -> string.
Variable pwd_hash : string -> string -> string.
Variable pwd_verify : value -> value -> option bool.

(** X4.  A change of password with an old password that does not verify
    answers "Invalid old password" and leaves the database as it was.  With
    one that verifies, on stored Admin records, the hash of the first stored
    admin with the acting admin's id becomes the hash of the new password;
    ids, usernames, hall names, the other admins and the other collections
    stay as they were. *)
Theorem change_password_sets_own_hash : forall c admin salt db hashed,
  lookup "password_hash" admin = Some hashed ->
  (pwd_verify (VStr (ChangePassword.old_password c)) hashed = Some false ->
     change_password pwd_hash pwd_verify c admin salt db
     = (Raise (HTTPException 400 "Invalid old password"), db))
  /\ (forall i stored,
        pwd_verify (VStr (ChangePassword.old_password c)) hashed = Some true ->
        lookup "id" admin = Some (VStr i) ->
        admins db = map stored_admin stored ->
        change_password pwd_hash pwd_verify c admin salt db
        = (Ok (message "Password changed successfully"),
           set_admins
             (map stored_admin
                (change_stored_hash i
                   (pwd_hash salt (ChangePassword.new_password c)) stored))
             db))
  /\ (forall i h stored,
        admin_ids (change_stored_hash i h stored) = admin_ids stored
        /\ usernames (change_stored_hash i h stored) = usernames stored
        /\ map fst (change_stored_hash i h stored) = map fst stored).
Proof.
  intros c admin salt db hashed Hhash; unfold change_password; rewrite Hhash.
  split; [|split].
  - intros ->; reflexivity.
  - intros i stored -> Hid Hdb; rewrite Hid, Hdb, change_hash_stored.
    reflexivity.
  - intros i h stored; unfold admin_ids, usernames.
    induction stored as [|[o a] rest (IH1 & IH2 & IH3)]; [repeat split|].
    cbn [change_stored_hash]; destruct (String.eqb (Admin.id a) i);
      cbn [map fst snd with_password_hash Admin.id Admin.username];
      [repeat split|rewrite IH1, IH2, IH3; repeat split].
Qed.

End PasswordProperties.

Lemma change_password_sets_own_hash_witness :
  change_password demo_pwd_hash demo_pwd_verify
    {| ChangePassword.old_password := "guess";
       ChangePassword.new_password := "n3w" |}
    (Admin.model_dump (demo_admin "7d9f3c4e" "om_admin")) "" demo_database
  = (Raise (HTTPException 400 "Invalid old password"), demo_database)
  /\ admins
       (snd (change_password demo_pwd_hash demo_pwd_verify
               {| ChangePassword.old_password := "om_admin";
                  ChangePassword.new_password := "n3w" |}
               (Admin.model_dump (demo_admin "7d9f3c4e" "om_admin")) ""
               demo_database))
     = [stored_admin
          (0%N, with_password_hash "$2b$12$n3w"
                  (demo_admin "7d9f3c4e" "om_admin"))].
Proof.
  split.
  - apply (proj1 (change_password_sets_own_hash demo_pwd_hash demo_pwd_verify
             {| ChangePassword.old_password := "guess";
                ChangePassword.new_password := "n3w" |}
             (Admin.model_dump (demo_admin "7d9f3c4e" "om_admin")) ""
             demo_database (VStr "$2b$12$om_admin") eq_refl)).
    reflexivity.
  - rewrite (proj1 (proj2 (change_password_sets_own_hash demo_pwd_hash
             demo_pwd_verify
             {| ChangePassword.old_password := "om_admin";
                ChangePassword.new_password := "n3w" |}
             (Admin.model_dump (demo_admin "7d9f3c4e" "om_admin")) ""
             demo_database (VStr "$2b$12$om_admin") eq_refl))
             "7d9f3c4e" [(0%N, demo_admin "7d9f3c4e" "om_admin")]
             eq_refl eq_refl eq_refl).
    reflexivity.
Defined.

Lemma find_stored_map : forall (A : Type) (key : A -> string) (f : N * A -> N * A)
                               i l,
  (forall oa, key (snd (f oa)) = key (snd oa)) ->
  find_stored key i (map f l) = option_map f (find_stored key i l).
Proof.
  intros A key f i l Hf; induction l as [|x rest IH]; [reflexivity|].
  cbn [map find_stored]. rewrite Hf.
  destruct (String.eqb (key (snd x)) i); [reflexivity|exact IH].
Qed.

Lemma find_stored_app : forall (A : Type) (key : A -> string) i l l',
  find_stored key i (l ++ l')%list
  = match find_stored key i l with
    | Some oa => Some oa
    | None => find_stored key i l'
    end.
Proof.
  intros A key i l l'; induction l as [|x rest IH]; [reflexivity|].
  cbn [app find_stored].
  destruct (String.eqb (key (snd x)) i); [reflexivity|exact IH].
Qed.

(** With distinct ids, the change touches every admin with the id, that is
    the one. *)
Lemma change_stored_hash_unique : forall i h stored,
  NoDup (admin_ids stored) ->
  change_stored_hash i h stored
  = map (fun oa => if String.eqb (Admin.id (snd oa)) i
                   then (fst oa, with_password_hash h (snd oa)) else oa)
      stored.
Proof.
  intros i h stored; unfold admin_ids.
  induction stored as [|[o a] rest IH]; intros Hnd; [reflexivity|].
  cbn [map] in Hnd; inversion Hnd as [|x l Hnotin Hrest]; subst.
  cbn [change_stored_hash map fst snd].
  destruct (String.eqb_spec (Admin.id a) i) as [E|E].
  - f_equal. rewrite <- (map_id rest) at 1.
    apply map_ext_in; intros [o' a'] Hin; cbn [snd fst].
    destruct (String.eqb_spec (Admin.id a') i) as [E'|_]; [|reflexivity].
    exfalso; apply Hnotin; rewrite E, <- E'.
    apply (in_map (fun oa => Admin.id (snd oa)) rest (o', a') Hin).
  - f_equal; apply IH; exact Hrest.
Qed.

Section PasswordLogin.

Variable SECRET_KEY : string.
Variable hs256 : string -> string * payload -> string.
Variable pwd_hash : string -> string -> string.
Variable pwd_verify : value -> value -> option bool.

(** X5.  On stored Admin records with distinct ids and distinct usernames:
    after an admin has changed the password, a login with the new password
    succeeds for that admin whenever the new password verifies against its
    own hash, and a login with the old password is refused whenever the old
    password does not verify against the new hash. *)
Theorem change_password_then_login : forall c salt now stored db oa,
  admins db = map stored_admin stored ->
  NoDup (admin_ids stored) ->
  NoDup (usernames stored) ->
  In oa stored ->
  pwd_verify (VStr (ChangePassword.old_password c))
    (VStr (Admin.password_hash (snd oa))) = Some true ->
  (pwd_verify (VStr (ChangePassword.new_password c))
     (VStr (pwd_hash salt (ChangePassword.new_password c))) = Some true ->
   exists r,
     login SECRET_KEY hs256 pwd_verify
       {| AdminLogin.username := Admin.username (snd oa);
          AdminLogin.password := ChangePassword.new_password c |} now
       (state_after
          (change_password pwd_hash pwd_verify c (Admin.model_dump (snd oa))
             salt db))
     = Ok r
     /\ response_admin r = login_admin_view (snd oa))
  /\ (pwd_verify (VStr (ChangePassword.old_password c))
        (VStr (pwd_hash salt (ChangePassword.new_password c))) = Some false ->
      login SECRET_KEY hs256 pwd_verify
        {| AdminLogin.username := Admin.username (snd oa);
           AdminLogin.password := ChangePassword.old_password c |} now
        (state_after
           (change_password pwd_hash pwd_verify c (Admin.model_dump (snd oa))
              salt db))
      = Raise (HTTPException 401 "Invalid credentials")).
Proof.
  intros c salt now stored db [o a] Hdb Hids Hnames Hin Hold.
  cbn [snd] in *.
  set (h := pwd_hash salt (ChangePassword.new_password c)).
  assert (Hafter :
    admins (state_after
              (change_password pwd_hash pwd_verify c (Admin.model_dump a)
                 salt db))
    = map stored_admin (change_stored_hash (Admin.id a) h stored)).
  { unfold change_password, state_after.
    cbn [Admin.model_dump lookup String.eqb Ascii.eqb Bool.eqb].
    rewrite Hold; cbn [snd admins set_admins].
    rewrite Hdb, change_hash_stored; reflexivity. }
  assert (Hfind :
    find_stored Admin.username (Admin.username a)
      (change_stored_hash (Admin.id a) h stored)
    = Some (o, with_password_hash h a)).
  { rewrite (change_stored_hash_unique (Admin.id a) h stored Hids).
    rewrite find_stored_map
      by (intros [o' a']; cbn [snd fst];
          destruct (String.eqb (Admin.id a') (Admin.id a)); reflexivity).
    unfold usernames in Hnames.
    pose proof (find_stored_unique _ Admin.username stored (o, a) Hnames Hin)
      as Hu.
    cbn [snd] in Hu; rewrite Hu.
    cbn [option_map snd fst]. rewrite String.eqb_refl; reflexivity. }
  split.
  - intros Hnew.
    rewrite (login_stored SECRET_KEY hs256 pwd_verify _ now _ _ Hafter).
    cbn [AdminLogin.username AdminLogin.password].
    rewrite Hfind; cbn [snd with_password_hash Admin.password_hash].
    fold h in Hnew; rewrite Hnew.
    destruct (issued_token_decodes SECRET_KEY hs256
                (admin_claims (with_password_hash h a)) now eq_refl)
      as (j & Hissue & _).
    rewrite Hissue; eexists; split; reflexivity.
  - intros Hwrong.
    rewrite (login_stored SECRET_KEY hs256 pwd_verify _ now _ _ Hafter).
    cbn [AdminLogin.username AdminLogin.password].
    rewrite Hfind; cbn [snd with_password_hash Admin.password_hash].
    fold h in Hwrong; rewrite Hwrong; reflexivity.
Qed.

End PasswordLogin.

Lemma change_password_then_login_witness :
  exists r,
    login demo_secret demo_hs256 demo_pwd_verify
      {| AdminLogin.username := "om_admin"; AdminLogin.password := "n3w" |}
      1700000000000000
      (state_after
         (change_password demo_pwd_hash demo_pwd_verify
            {| ChangePassword.old_password := "om_admin";
               ChangePassword.new_password := "n3w" |}
            (Admin.model_dump (demo_admin "7d9f3c4e" "om_admin")) ""
            demo_database))
    = Ok r
    /\ response_admin r = login_admin_view (demo_admin "7d9f3c4e" "om_admin").
Proof.
  apply (proj1 (change_password_then_login demo_secret demo_hs256
           demo_pwd_hash demo_pwd_verify
           {| ChangePassword.old_password := "om_admin";
              ChangePassword.new_password := "n3w" |}
           "" 1700000000000000 [(0%N, demo_admin "7d9f3c4e" "om_admin")]
           demo_database (0%N, demo_admin "7d9f3c4e" "om_admin")
           eq_refl
           ltac:(repeat constructor; simpl; tauto)
           ltac:(repeat constructor; simpl; tauto)
           ltac:(left; reflexivity)
           eq_refl)).
  reflexivity.
Defined.

(** ** Deleting and creating admins *)

Lemma lookup_project_out_kept : forall k excluded (d : doc),
  existsb (String.eqb k) excluded = false ->
  lookup k (project_out excluded d) = lookup k d.
Proof.
  intros k excluded d Hex; unfold project_out.
  induction d as [|[k0 v0] rest IH]; [reflexivity|].
  cbn [filter fst lookup].
  destruct (String.eqb_spec k k0) as [E|E].
  - subst k0; rewrite Hex; cbn [negb lookup]; rewrite String.eqb_refl.
    reflexivity.
  - destruct (negb (existsb (String.eqb k0) excluded)); cbn [lookup];
      [destruct (String.eqb_spec k k0); [contradiction|]|]; exact IH.
Qed.

(** Removing a document that is not the first match of [q] leaves the
    first match of [q] in place. *)
Lemma find_one_delete_other : forall q q' excluded c,
  (forall d rest, filter (matches q) c = d :: rest -> matches q' d = false) ->
  find_one q excluded (delete_one q' c) = find_one q excluded c.
Proof.
  intros q q' excluded c; unfold find_one.
  induction c as [|d c' IH]; intros Hfirst; [reflexivity|].
  cbn [delete_one filter] in *.
  destruct (matches q' d) eqn:Eq'.
  - destruct (matches q d) eqn:Eq; [|reflexivity].
    rewrite (Hfirst d _ eq_refl) in Eq'; discriminate.
  - cbn [filter]. destruct (matches q d) eqn:Eq; [reflexivity|].
    apply IH; exact Hfirst.
Qed.

Section CallerProperties.

Variable SECRET_KEY : string.
Variable hs256 : string -> string * payload -> string.

(** X6.  When every stored admin has a string id, no deletion an admin asks
    for ends that admin's own session: the guard resolves the same token to
    the same document after the deletion as before, whatever id was asked
    to be deleted. *)
Theorem delete_admin_keeps_caller : forall t now db admin admin_id,
  string_ids (admins db) ->
  get_current_admin SECRET_KEY hs256 t now db = Ok admin ->
  get_current_admin SECRET_KEY hs256 t now
    (state_after (delete_admin admin_id admin db))
  = Ok admin.
Proof.
  intros t now db admin admin_id Hids Hguard.
  unfold delete_admin, state_after.
  destruct (lookup "id" admin) as [own|] eqn:Eown; [|exact Hguard].
  destruct (value_eqb (VStr admin_id) own) eqn:Eself; [exact Hguard|].
  cbn [snd]. unfold get_current_admin in *.
  destruct (decode_token SECRET_KEY hs256 t now) as [p|e]; [|discriminate].
  cbn [admins set_admins].
  set (q := [("id", match lookup "sub" p with
                    | Some j => json_value j
                    | None => VNull
                    end)]) in *.
  rewrite find_one_delete_other; [exact Hguard|].
  intros d rest Hfirst.
  unfold find_one in Hguard; rewrite Hfirst in Hguard.
  assert (Hin : In d (admins db)).
  { assert (H : In d (filter (matches q) (admins db)))
      by (rewrite Hfirst; now left).
    apply filter_In in H; tauto. }
  unfold string_ids in Hids; rewrite Forall_forall in Hids.
  destruct (Hids d Hin) as (s & Es); unfold id_of in Es.
  assert (Hadmin : admin = project_out ["_id"] d).
  { destruct (project_out ["_id"] d) as [|kv kvs]; cbn [found] in Hguard;
      [discriminate|injection Hguard as <-; reflexivity]. }
  rewrite Hadmin, lookup_project_out_kept in Eown by reflexivity.
  rewrite Es in Eown; injection Eown as <-.
  cbn [value_eqb] in Eself.
  cbn [matches forallb fst snd]; rewrite Es; cbn [field_matches value_eqb].
  rewrite String.eqb_sym, Eself; reflexivity.
Qed.

End CallerProperties.

Lemma delete_admin_keeps_caller_witness :
  get_current_admin demo_secret demo_hs256 demo_bearer 1700000001000000
    (state_after
       (delete_admin "a-2" (Admin.model_dump (demo_admin "7d9f3c4e" "om_admin"))
          (with_admins
             (map stored_admin [(0%N, demo_admin "7d9f3c4e" "om_admin");
                                (1%N, demo_admin "a-2" "shiv_admin")]))))
  = Ok (Admin.model_dump (demo_admin "7d9f3c4e" "om_admin")).
Proof.
  apply (delete_admin_keeps_caller demo_secret demo_hs256 demo_bearer
           1700000001000000
           (with_admins
              (map stored_admin [(0%N, demo_admin "7d9f3c4e" "om_admin");
                                 (1%N, demo_admin "a-2" "shiv_admin")]))
           (Admin.model_dump (demo_admin "7d9f3c4e" "om_admin")) "a-2").
  - repeat constructor; eexists; reflexivity.
  - reflexivity.
Defined.

Section NewAdminProperties.

Variable SECRET_KEY : string.
Variable hs256 : string -> string * payload -> string.
Variable pwd_hash : string -> string -> string.
Variable pwd_verify : value -> value -> option bool.

(** X7.  On stored Admin records, once an admin with a new username has been
    created, a login with that username and the password of the request
    succeeds whenever the password verifies against its own hash; the answer
    carries the drawn id, the username and the hall name, and, the drawn id
    being the id of no other stored admin, the guard resolves the token to
    the new admin's document until the token expires. *)
Theorem create_admin_then_login :
  forall admin_data admin uuid created salt now db stored u p h,
    admins db = map stored_admin stored ->
    lookup "username" admin_data = Some (VStr u) ->
    lookup "password" admin_data = Some (VStr p) ->
    lookup "hall_name" admin_data = Some (VStr h) ->
    ~ In u (usernames stored) ->
    pwd_verify (VStr p) (VStr (pwd_hash salt p)) = Some true ->
    exists r,
      login SECRET_KEY hs256 pwd_verify
        {| AdminLogin.username := u; AdminLogin.password := p |} now
        (state_after
           (create_admin pwd_hash admin_data admin uuid created salt db))
      = Ok r
      /\ response_admin r
         = [("id", VStr uuid); ("username", VStr u); ("hall_name", VStr h)]
      /\ (~ In uuid (admin_ids stored) ->
          forall t, (t < (timegm now + 86400) * 1000000)%Z ->
            get_current_admin SECRET_KEY hs256 (response_token r) t
              (state_after
                 (create_admin pwd_hash admin_data admin uuid created salt db))
            = Ok (Admin.model_dump
                    {| Admin.id := uuid; Admin.username := u;
                       Admin.password_hash := pwd_hash salt p;
                       Admin.hall_name := h; Admin.created_at := created |})).
Proof.
  intros admin_data admin uuid created salt now db stored u p h
         Hdb Hu Hp Hh Hnew Hverify.
  set (a := {| Admin.id := uuid; Admin.username := u;
               Admin.password_hash := pwd_hash salt p;
               Admin.hall_name := h; Admin.created_at := created |}).
  assert (Hafter :
    admins (state_after
              (create_admin pwd_hash admin_data admin uuid created salt db))
    = map stored_admin (stored ++ [(next_oid db, a)])).
  { unfold create_admin, state_after; rewrite Hu, Hdb, Hp, Hh.
    destruct (found (find_one [("username", VStr u)] [] (map stored_admin stored)))
      eqn:E; [apply found_username in E; contradiction|].
    cbn [snd admins bump_oid set_admins]; unfold insert_one.
    rewrite map_app; reflexivity. }
  assert (Hfind : forall (key : Admin.t -> string) i,
    ~ In i (map (fun oa => key (snd oa)) stored) -> key a = i ->
    find_stored key i (stored ++ [(next_oid db, a)]) = Some (next_oid db, a)).
  { intros key i Hnot Hkey; rewrite find_stored_app.
    apply find_stored_None in Hnot; rewrite Hnot.
    cbn [find_stored snd]; rewrite Hkey, String.eqb_refl; reflexivity. }
  rewrite (login_stored SECRET_KEY hs256 pwd_verify _ now _ _ Hafter).
  cbn [AdminLogin.username AdminLogin.password].
  rewrite (Hfind Admin.username u Hnew eq_refl).
  cbn [snd a Admin.password_hash]; rewrite Hverify.
  destruct (issued_token_decodes SECRET_KEY hs256 (admin_claims a) now eq_refl)
    as (j & Hissue & Hclaims & Hdec).
  fold a; rewrite Hissue.
  eexists; split; [reflexivity|split; [reflexivity|]].
  intros Hfresh t Ht; cbn [response_token].
  rewrite (get_current_admin_stored SECRET_KEY hs256 (JWS j) t (jws_payload j)
             _ _ Hafter).
  - rewrite (Hclaims "sub" eq_refl); cbn [admin_claims lookup String.eqb
      Ascii.eqb Bool.eqb option_map claim_json].
    rewrite (Hfind Admin.id (Admin.id a) Hfresh eq_refl); reflexivity.
  - rewrite Hdec.
    destruct (Z.leb_spec ((timegm now + 86400) * 1000000) t);
      [exfalso; lia|reflexivity].
Qed.

End NewAdminProperties.

Lemma create_admin_then_login_witness :
  exists r,
    login demo_secret demo_hs256 demo_pwd_verify
      {| AdminLogin.username := "shiv_admin"; AdminLogin.password := "s3cret" |}
      1700000000000000
      (state_after
         (create_admin demo_pwd_hash (demo_admin_data "shiv_admin") [] "new-id"
            (utc 2025 3 1 12 0 0 0) "" demo_database))
    = Ok r
    /\ response_admin r
       = [("id", VStr "new-id"); ("username", VStr "shiv_admin");
          ("hall_name", VStr "Shiv Lawns")].
Proof.
  destruct (create_admin_then_login demo_secret demo_hs256 demo_pwd_hash
              demo_pwd_verify (demo_admin_data "shiv_admin") [] "new-id"
              (utc 2025 3 1 12 0 0 0) "" 1700000000000000 demo_database
              [(0%N, demo_admin "7d9f3c4e" "om_admin")]
              "shiv_admin" "s3cret" "Shiv Lawns"
              eq_refl eq_refl eq_refl eq_refl
              ltac:(simpl; intros [H|[]]; discriminate)
              eq_refl)
    as (r & Hlogin & Hview & _).
  exists r; split; assumption.
Defined.

(** ** Seeding at startup *)

Lemma found_by_username : forall u c,
  found (find_one [("username", VStr u)] [] c)
  = existsb (matches [("username", VStr u)]) c.
Proof.
  intros u c; unfold find_one.
  induction c as [|d rest IH]; [reflexivity|].
  cbn [filter existsb].
  destruct (matches [("username", VStr u)] d) eqn:E; [|exact IH].
  rewrite project_out_nothing.
  destruct d as [|kv kvs]; [discriminate E|reflexivity].
Qed.

Lemma count_all : forall c,
  List.length (filter (matches []) c) = List.length c.
Proof. intros c; rewrite filter_all; reflexivity. Qed.

Section SeedingProperties.

Variable pwd_hash : string -> string -> string.

(** The collections after the seeding. *)
Lemma startup_event_shape : forall e db,
  let db' := startup_event pwd_hash e db in
  exists n1 n2 m1 m2,
    admins db'
    = (admins db
       ++ (if has_username "om_admin" (admins db) then []
           else [stored_admin (n1, seeded_admin1 pwd_hash e)])
       ++ (if has_username "shiv_admin" (admins db) then []
           else [stored_admin (n2, seeded_admin2 pwd_hash e)]))%list
    /\ halls db'
       = (halls db
          ++ match halls db with
             | [] => map stored_hall (combine [m1; m2] (default_halls e))
             | _ :: _ => []
             end)%list
    /\ services db' = services db /\ packages db' = packages db
    /\ shubh_dates db' = shubh_dates db /\ bookings db' = bookings db
    /\ bills db' = bills db /\ settings db' = settings db.
Proof.
  intros e db; unfold startup_event, has_username.
  rewrite <- !found_by_username.
  set (f1 := found (find_one [("username", VStr "om_admin")] [] (admins db))).
  set (f2 := found (find_one [("username", VStr "shiv_admin")] [] (admins db))).
  set (k := next_oid db).
  set (m := if f1 then (if f2 then k else N.succ k)
            else (if f2 then N.succ k else N.succ (N.succ k))).
  exists k, (if f1 then k else N.succ k), m, (N.succ m).
  subst m k; destruct f1, f2; cbn [negb]; rewrite count_all;
    destruct (halls db) as [|h hs] eqn:Eh; cbn; rewrite ?Eh; cbn;
    rewrite ?app_nil_r; repeat split; try exact Eh;
    unfold insert_one; rewrite <- ?app_assoc; reflexivity.
Qed.

Lemma has_username_seeded1 : forall n e c,
  has_username "om_admin"
    (c ++ [stored_admin (n, seeded_admin1 pwd_hash e)])%list
  = true.
Proof.
  intros; unfold has_username; rewrite existsb_app; apply orb_true_iff; right.
  reflexivity.
Qed.

Lemma has_username_seeded2 : forall n e c,
  has_username "shiv_admin"
    (c ++ [stored_admin (n, seeded_admin2 pwd_hash e)])%list
  = true.
Proof.
  intros; unfold has_username; rewrite existsb_app; apply orb_true_iff; right.
  reflexivity.
Qed.

Lemma has_username_app_l : forall u c c',
  has_username u c = true -> has_username u (c ++ c')%list = true.
Proof.
  intros u c c' H; unfold has_username in *; rewrite existsb_app, H.
  reflexivity.
Qed.

Lemma startup_event_seeded : forall e db,
  has_username "om_admin" (admins (startup_event pwd_hash e db)) = true
  /\ has_username "shiv_admin" (admins (startup_event pwd_hash e db)) = true
  /\ halls (startup_event pwd_hash e db) <> [].
Proof.
  intros e db.
  destruct (startup_event_shape e db)
    as (n1 & n2 & m1 & m2 & Ha & Hh & _).
  cbv zeta in Ha, Hh; rewrite Ha, Hh; clear Ha Hh.
  split; [|split].
  - destruct (has_username "om_admin" (admins db)) eqn:E1.
    + apply has_username_app_l; exact E1.
    + rewrite app_assoc; apply has_username_app_l, has_username_seeded1.
  - destruct (has_username "shiv_admin" (admins db)) eqn:E2.
    + apply has_username_app_l; exact E2.
    + rewrite app_assoc; apply has_username_seeded2.
  - destruct (halls db); discriminate.
Qed.

Lemma startup_event_noop : forall e db,
  has_username "om_admin" (admins db) = true ->
  has_username "shiv_admin" (admins db) = true ->
  halls db <> [] ->
  startup_event pwd_hash e db = db.
Proof.
  intros e db H1 H2 Hh; unfold startup_event, has_username in *.
  rewrite !found_by_username, H1, H2; cbn [negb]; rewrite count_all.
  destruct (halls db); [contradiction|reflexivity].
Qed.

(** X8.  The seeding is idempotent: run again, with other draws, on the
    database it has left, it changes nothing, whatever the database was at
    the start. *)
Theorem startup_event_idempotent : forall e e' db,
  startup_event pwd_hash e' (startup_event pwd_hash e db)
  = startup_event pwd_hash e db.
Proof.
  intros e e' db.
  destruct (startup_event_seeded e db) as (H1 & H2 & Hh).
  apply startup_event_noop; assumption.
Qed.

(** X9.  The seeding only fills gaps.  The documents of [admins] and [halls]
    are kept, in order, in front of what is added; an admin is added for
    each of the two default usernames that no document has, and the two
    default halls only when [halls] is empty; no other collection is
    touched; and a database that has both usernames and a hall is left as
    it is, counter included. *)
Theorem startup_event_only_fills_gaps : forall e db,
  (exists n1 n2 m1 m2,
    admins (startup_event pwd_hash e db)
    = (admins db
       ++ (if has_username "om_admin" (admins db) then []
           else [stored_admin (n1, seeded_admin1 pwd_hash e)])
       ++ (if has_username "shiv_admin" (admins db) then []
           else [stored_admin (n2, seeded_admin2 pwd_hash e)]))%list
    /\ halls (startup_event pwd_hash e db)
       = (halls db
          ++ match halls db with
             | [] => map stored_hall (combine [m1; m2] (default_halls e))
             | _ :: _ => []
             end)%list)
  /\ services (startup_event pwd_hash e db) = services db
  /\ packages (startup_event pwd_hash e db) = packages db
  /\ shubh_dates (startup_event pwd_hash e db) = shubh_dates db
  /\ bookings (startup_event pwd_hash e db) = bookings db
  /\ bills (startup_event pwd_hash e db) = bills db
  /\ settings (startup_event pwd_hash e db) = settings db
  /\ (has_username "om_admin" (admins db) = true ->
      has_username "shiv_admin" (admins db) = true ->
      halls db <> [] ->
      startup_event pwd_hash e db = db).
Proof.
  intros e db.
  destruct (startup_event_shape e db)
    as (n1 & n2 & m1 & m2 & Ha & Hh & Hs & Hp & Hd & Hb & Hbi & Hse).
  split; [exists n1, n2, m1, m2; split; assumption|].
  repeat (split; [assumption|]).
  apply startup_event_noop.
Qed.

Lemma has_username_stored : forall u stored,
  has_username u (map stored_admin stored) = true <-> In u (usernames stored).
Proof.
  intros u stored; unfold has_username.
  rewrite <- found_by_username, find_admin_by_username.
  destruct (find_stored Admin.username u stored) as [[o a]|] eqn:E.
  - split; [intros _|reflexivity].
    destruct (find_stored_In _ _ _ _ _ E) as [Hin Hu].
    unfold usernames; apply in_map_iff; exists (o, a); split; assumption.
  - split; [discriminate|].
    intros Hin; apply find_stored_None in E; contradiction.
Qed.

Lemma startup_admins_stored : forall e db stored,
  admins db = map stored_admin stored ->
  exists n1 n2,
    admins (startup_event pwd_hash e db)
    = map stored_admin
        (stored
         ++ (if has_username "om_admin" (admins db) then []
             else [(n1, seeded_admin1 pwd_hash e)])
         ++ (if has_username "shiv_admin" (admins db) then []
             else [(n2, seeded_admin2 pwd_hash e)]))%list.
Proof.
  intros e db stored Hdb.
  destruct (startup_event_shape e db) as (n1 & n2 & m1 & m2 & Ha & _).
  exists n1, n2; cbv zeta in Ha; rewrite Ha, !map_app, <- Hdb.
  destruct (has_username "om_admin" (admins db)),
           (has_username "shiv_admin" (admins db)); reflexivity.
Qed.

End SeedingProperties.

Section SeededLogin.

Variable SECRET_KEY : string.
Variable hs256 : string -> string * payload -> string.
Variable pwd_hash : string -> string -> string.
Variable pwd_verify : value -> value -> option bool.

(** X10.  On stored Admin records the seeding leaves every login with a
    username that was already stored as it was: the default account does
    not replace, and its password does not open, an account found under its
    name.  When no stored admin is named "om_admin", the login "om_admin" /
    "om123" succeeds after the seeding, for Om Lawns Banquet Hall, as soon
    as the password verifies against its own hash. *)
Theorem seeding_and_login : forall e now db stored,
  admins db = map stored_admin stored ->
  (forall l, In (AdminLogin.username l) (usernames stored) ->
     login SECRET_KEY hs256 pwd_verify l now (startup_event pwd_hash e db)
     = login SECRET_KEY hs256 pwd_verify l now db)
  /\ (~ In "om_admin" (usernames stored) ->
      pwd_verify (VStr "om123") (VStr (pwd_hash (admin1_salt e) "om123"))
      = Some true ->
      exists r,
        login SECRET_KEY hs256 pwd_verify
          {| AdminLogin.username := "om_admin"; AdminLogin.password := "om123" |}
          now (startup_event pwd_hash e db)
        = Ok r
        /\ response_admin r
           = [("id", VStr (admin1_uuid e)); ("username", VStr "om_admin");
              ("hall_name", VStr "Om Lawns Banquet Hall")]).
Proof.
  intros e now db stored Hdb.
  destruct (startup_admins_stored pwd_hash e db stored Hdb) as (n1 & n2 & Ha).
  split.
  - intros l Hin.
    rewrite (login_stored SECRET_KEY hs256 pwd_verify l now _ _ Ha).
    rewrite (login_stored SECRET_KEY hs256 pwd_verify l now _ _ Hdb).
    rewrite find_stored_app.
    destruct (find_stored Admin.username (AdminLogin.username l) stored)
      as [oa|] eqn:E; [reflexivity|].
    apply find_stored_None in E; contradiction.
  - intros Hfresh Hverify.
    rewrite (login_stored SECRET_KEY hs256 pwd_verify _ now _ _ Ha).
    cbn [AdminLogin.username AdminLogin.password].
    rewrite find_stored_app.
    assert (Hnone : find_stored Admin.username "om_admin" stored = None)
      by (apply find_stored_None; exact Hfresh).
    rewrite Hnone.
    assert (Hhas : has_username "om_admin" (admins db) = false).
    { destruct (has_username "om_admin" (admins db)) eqn:E; [|reflexivity].
      rewrite Hdb in E; apply has_username_stored in E; contradiction. }
    rewrite Hhas.
    cbn [app find_stored snd seeded_admin1 Admin.username].
    cbn [String.eqb Ascii.eqb Bool.eqb snd].
    change (Admin.password_hash (seeded_admin1 pwd_hash e))
      with (pwd_hash (admin1_salt e) "om123").
    rewrite Hverify.
    unfold create_access_token.
    eexists; split; reflexivity.
Qed.

End SeededLogin.

Lemma startup_event_only_fills_gaps_witness :
  startup_event demo_pwd_hash demo_draws
    (startup_event demo_pwd_hash demo_draws demo_database)
  = startup_event demo_pwd_hash demo_draws demo_database.
Proof.
  destruct (startup_event_only_fills_gaps demo_pwd_hash demo_draws
              (startup_event demo_pwd_hash demo_draws demo_database))
    as (_ & _ & _ & _ & _ & _ & _ & H).
  apply H; [reflexivity|reflexivity|discriminate].
Defined.

Lemma seeding_and_login_witness :
  exists r,
    login demo_secret demo_hs256 demo_pwd_verify
      {| AdminLogin.username := "om_admin"; AdminLogin.password := "om123" |}
      1700000000000000
      (startup_event demo_pwd_hash demo_draws
         (with_admins [stored_admin (0%N, demo_admin "g-1" "guest")]))
    = Ok r
    /\ response_admin r
       = [("id", VStr "a-om"); ("username", VStr "om_admin");
          ("hall_name", VStr "Om Lawns Banquet Hall")].
Proof.
  destruct (seeding_and_login demo_secret demo_hs256 demo_pwd_hash
              demo_pwd_verify demo_draws 1700000000000000
              (with_admins [stored_admin (0%N, demo_admin "g-1" "guest")])
              [(0%N, demo_admin "g-1" "guest")] eq_refl) as [_ H].
  apply H; [simpl; intros [E|[]]; discriminate|reflexivity].
Defined.

(** ** Updates and deletions *)

Lemma update_one_absent : forall i u c,
  absent i c -> update_one [("id", VStr i)] u c = c.
Proof.
  intros i u c H; unfold update_one.
  induction H as [|d rest Hd _ IH]; [reflexivity|].
  cbn [update_first]; rewrite Hd.
  destruct (update_first [("id", VStr i)] u rest) as [rest' hit].
  cbn [fst] in *; rewrite IH; reflexivity.
Qed.

Lemma delete_one_absent : forall i c,
  absent i c -> delete_one [("id", VStr i)] c = c.
Proof.
  intros i c H; induction H as [|d rest Hd _ IH]; [reflexivity|].
  cbn [delete_one]; rewrite Hd, IH; reflexivity.
Qed.

Lemma set_same : forall db,
  set_admins (admins db) db = db /\ set_halls (halls db) db = db
  /\ set_services (services db) db = db /\ set_packages (packages db) db = db
  /\ set_shubh_dates (shubh_dates db) db = db
  /\ set_bookings (bookings db) db = db /\ set_bills (bills db) db = db
  /\ set_settings (settings db) db = db.
Proof. intros []; repeat split. Qed.

(** X11.  An update or a deletion addressed to an id that no document of
    its collection has answers with its message of success and leaves the
    database as it is: no route tells an unknown id from a known one. *)
Theorem unknown_id_answers_success : forall i admin db,
  (absent i (halls db) ->
   forall h, update_hall i h admin db
             = (Ok (message "Hall updated successfully"), db))
  /\ (absent i (services db) ->
      (forall s, update_service i s admin db
                 = (Ok (message "Service updated successfully"), db))
      /\ delete_service i admin db
         = (Ok (message "Service deleted successfully"), db))
  /\ (absent i (packages db) ->
      (forall p, update_package i p admin db
                 = (Ok (message "Package updated successfully"), db))
      /\ delete_package i admin db
         = (Ok (message "Package deleted successfully"), db))
  /\ (absent i (shubh_dates db) ->
      delete_shubh_date i admin db
      = (Ok (message "Shubh date deleted successfully"), db))
  /\ (absent i (bookings db) ->
      (forall b, update_booking i b admin db
                 = (Ok (message "Booking updated successfully"), db))
      /\ delete_booking i admin db
         = (Ok (message "Booking deleted successfully"), db))
  /\ (absent i (bills db) ->
      (forall b, update_bill i b admin db
                 = (Ok (message "Bill updated successfully"), db))
      /\ delete_bill i admin db
         = (Ok (message "Bill deleted successfully"), db))
  /\ (absent i (admins db) ->
      forall own, lookup "id" admin = Some own ->
        value_eqb (VStr i) own = false ->
        delete_admin i admin db
        = (Ok (message "Admin deleted successfully"), db)).
Proof.
  intros i admin db.
  destruct (set_same db) as (Ea & Eh & Es & Ep & Ed & Eb & Ebi & _).
  repeat match goal with |- _ /\ _ => split end; intros Habs.
  - intros h; unfold update_hall; rewrite update_one_absent, Eh by exact Habs.
    reflexivity.
  - split; [intros s; unfold update_service; rewrite update_one_absent, Es
           |unfold delete_service; rewrite delete_one_absent, Es];
      try exact Habs; reflexivity.
  - split; [intros p; unfold update_package; rewrite update_one_absent, Ep
           |unfold delete_package; rewrite delete_one_absent, Ep];
      try exact Habs; reflexivity.
  - unfold delete_shubh_date; rewrite delete_one_absent, Ed by exact Habs.
    reflexivity.
  - split; [intros b; unfold update_booking; rewrite update_one_absent, Eb
           |unfold delete_booking; rewrite delete_one_absent, Eb];
      try exact Habs; reflexivity.
  - split; [intros b; unfold update_bill; rewrite update_one_absent, Ebi
           |unfold delete_bill; rewrite delete_one_absent, Ebi];
      try exact Habs; reflexivity.
  - intros own Hown Hne; unfold delete_admin; rewrite Hown, Hne.
    rewrite delete_one_absent, Ea by exact Habs; reflexivity.
Qed.

Lemma unknown_id_answers_success_witness :
  update_service "s-404" (demo_service "s-404" "Sound") [] demo_database
  = (Ok (message "Service updated successfully"), demo_database)
  /\ delete_service "s-404" [] demo_database
     = (Ok (message "Service deleted successfully"), demo_database).
Proof.
  destruct (unknown_id_answers_success "s-404" [] demo_database)
    as (_ & Hs & _).
  destruct (Hs ltac:(repeat constructor)) as [Hu Hd].
  split; [apply Hu|exact Hd].
Defined.

Lemma delete_one_splits : forall q c,
  (Forall (fun d => matches q d = false) c /\ delete_one q c = c)
  \/ exists pre d post,
       c = (pre ++ d :: post)%list
       /\ Forall (fun x => matches q x = false) pre
       /\ matches q d = true
       /\ delete_one q c = (pre ++ post)%list.
Proof.
  intros q c; induction c as [|d rest IH]; [left; split; [constructor|reflexivity]|].
  cbn [delete_one]; destruct (matches q d) eqn:E.
  - right; exists [], d, rest; repeat split; [constructor|exact E].
  - destruct IH as [[Hall Hsame]|(pre & x & post & -> & Hpre & Hx & Hdel)].
    + left; split; [constructor; assumption|rewrite Hsame; reflexivity].
    + right; exists (d :: pre), x, post; repeat split;
        [constructor; assumption|exact Hx|rewrite Hdel; reflexivity].
Qed.

Section RequestProperties.

Variable SECRET_KEY : string.
Variable hs256 : string -> string * payload -> string.
Variable pwd_hash : string -> string -> string.
Variable pwd_verify : value -> value -> option bool.

Lemma run_guarded_frame : forall o admin db n,
  n <> target o ->
  get_collection n (run_guarded pwd_hash pwd_verify o admin db)
  = get_collection n db.
Proof.
  intros o admin db n Hn.
  destruct o; destruct n; cbn [target] in Hn; try congruence;
    cbn [run_guarded get_collection];
    unfold state_after, change_password, create_admin, delete_admin,
      get_settings;
    repeat match goal with
           | |- context [match ?x with _ => _ end] => destruct x
           | |- context [if ?x then _ else _] => destruct x
           end;
    reflexivity.
Qed.

(** X12.  A request writes to one collection at most, the one of its route:
    every other collection is after the request what it was before.  No
    deletion and no update reaches the records that refer to the one it
    changes (the bills of a deleted booking, the services of an updated
    hall). *)
Theorem request_writes_one_collection : forall r db n,
  n <> target (req_operation r) ->
  get_collection n (step SECRET_KEY hs256 pwd_hash pwd_verify db r)
  = get_collection n db.
Proof.
  intros [o c t] db n Hn; unfold step;
    cbn [req_operation req_credentials req_time] in *.
  assert (Hguarded :
    get_collection n
      match c with
      | Some tok =>
          match get_current_admin SECRET_KEY hs256 tok t db with
          | Ok admin => run_guarded pwd_hash pwd_verify o admin db
          | Raise _ => db
          end
      | None => db
      end = get_collection n db).
  { destruct c as [tok|]; [|reflexivity].
    destruct (get_current_admin SECRET_KEY hs256 tok t db); [|reflexivity].
    apply run_guarded_frame; exact Hn. }
  destruct o; try exact Hguarded.
  apply (run_guarded_frame GetSettings [] db n Hn).
Qed.

(** X13.  A deletion of a service, a package, a shubh date, a booking or a
    bill removes the first document with the id, in the order of the store,
    and nothing else: the documents before it and after it stay, in order,
    also those after it that have the same id; when no document has the id
    the collection stays as it is. *)
Theorem deletion_removes_first_match : forall o i admin db,
  deleted_id o = Some i ->
  (absent i (get_collection (target o) db)
   /\ run_guarded pwd_hash pwd_verify o admin db = db)
  \/ exists pre d post,
       get_collection (target o) db = (pre ++ d :: post)%list
       /\ absent i pre
       /\ matches [("id", VStr i)] d = true
       /\ get_collection (target o)
            (run_guarded pwd_hash pwd_verify o admin db)
          = (pre ++ post)%list.
Proof.
  intros o i admin db Ho.
  destruct (set_same db) as (_ & _ & Es & Ep & Ed & Eb & Ebi & _).
  destruct o; cbn [deleted_id] in Ho; try discriminate; injection Ho as ->;
    cbn [target get_collection run_guarded];
    unfold state_after, delete_service, delete_package, delete_shubh_date,
      delete_booking, delete_bill; cbn [snd];
    match goal with
    | |- context [delete_one ?q ?c] =>
        destruct (delete_one_splits q c)
          as [[Hall Hsame]|(pre & d & post & Hc & Hpre & Hd & Hdel)]
    end.
  all: try (left; split; [exact Hall|rewrite Hsame; assumption]).
  all: right; exists pre, d, post; rewrite Hc in *;
    repeat split; try assumption.
Qed.

End RequestProperties.

Lemma request_writes_one_collection_witness :
  get_collection Bills
    (step demo_secret demo_hs256 demo_pwd_hash demo_pwd_verify demo_database
       (demo_request (DeleteBooking "b-1")))
  = get_collection Bills demo_database.
Proof.
  apply (request_writes_one_collection demo_secret demo_hs256 demo_pwd_hash
           demo_pwd_verify (demo_request (DeleteBooking "b-1")) demo_database
           Bills).
  discriminate.
Defined.

Lemma deletion_removes_first_match_witness :
  exists pre d post,
    get_collection Services demo_database = (pre ++ d :: post)%list
    /\ get_collection Services
         (run_guarded demo_pwd_hash demo_pwd_verify (DeleteService "s-1") []
            demo_database)
       = (pre ++ post)%list.
Proof.
  destruct (deletion_removes_first_match demo_pwd_hash demo_pwd_verify
              (DeleteService "s-1") "s-1" [] demo_database eq_refl)
    as [[Habs _]|(pre & d & post & Hc & _ & _ & Hc')].
  - exfalso; inversion Habs as [|x l Hx Hl]; discriminate Hx.
  - exists pre, d, post; split; assumption.
Defined.

(** ** Creations and listings *)

Lemma find_to_list_insert : forall q excluded n c d,
  find_to_list q excluded n (c ++ [d])%list
  = if matches q d && (List.length (find_to_list q excluded n c) <? n)%nat
    then (find_to_list q excluded n c ++ [project_out excluded d])%list
    else find_to_list q excluded n c.
Proof.
  intros q excluded n c d; unfold find_to_list.
  rewrite filter_app; cbn [filter].
  rewrite length_map, length_firstn.
  destruct (matches q d); cbn [andb]; [|rewrite app_nil_r; reflexivity].
  set (l := filter (matches q) c).
  destruct (Nat.ltb_spec (Nat.min n (List.length l)) n) as [Hlt|Hge].
  - assert (Hl : (List.length l < n)%nat) by lia.
    rewrite !firstn_all2 by (rewrite ?length_app; cbn [List.length]; lia).
    rewrite map_app; reflexivity.
  - assert (Hl : (n <= List.length l)%nat) by lia.
    rewrite firstn_app.
    replace (n - List.length l)%nat with 0%nat by lia.
    cbn [firstn]; rewrite app_nil_r; reflexivity.
Qed.

Lemma hall_query_selects_service : forall hall_id os,
  matches (hall_query hall_id []) (stored_service os)
  = hall_selected hall_id (Service.hall_id (snd os)).
Proof.
  intros hall_id [o s]; unfold hall_selected, hall_query.
  destruct hall_id as [h|]; [destruct (String.eqb h "")|]; cbn;
    rewrite ?andb_true_r; reflexivity.
Qed.

Lemma hall_query_selects_package : forall hall_id op,
  matches (hall_query hall_id []) (stored_package op)
  = hall_selected hall_id (Package.hall_id (snd op)).
Proof.
  intros hall_id [o p]; unfold hall_selected, hall_query.
  destruct hall_id as [h|]; [destruct (String.eqb h "")|]; cbn;
    rewrite ?andb_true_r; reflexivity.
Qed.

Lemma hall_query_selects_shubh_date : forall hall_id os,
  matches (hall_query hall_id []) (stored_shubh_date os)
  = hall_selected hall_id (ShubhDate.hall_id (snd os)).
Proof.
  intros hall_id [o s]; unfold hall_selected, hall_query.
  destruct hall_id as [h|]; [destruct (String.eqb h "")|]; cbn;
    rewrite ?andb_true_r; reflexivity.
Qed.

(** X14.  A created service, package or shubh date is stored last, and a
    listing returns the first 1000 documents of the store that its hall
    filter selects.  So the created record is the last entry of every
    listing whose filter selects its hall and that had fewer than 1000
    entries, and it is in no listing that had 1000: the route answers with
    the record, and the listing goes on without it. *)
Theorem created_record_is_listed : forall hall_id admin db,
  (forall s,
     get_services hall_id (state_after (create_service s admin db))
     = if hall_selected hall_id (Service.hall_id s)
          && (List.length (get_services hall_id db) <? 1000)%nat
       then (get_services hall_id db ++ [Service.model_dump s])%list
       else get_services hall_id db)
  /\ (forall p,
        get_packages hall_id (state_after (create_package p admin db))
        = if hall_selected hall_id (Package.hall_id p)
             && (List.length (get_packages hall_id db) <? 1000)%nat
          then (get_packages hall_id db ++ [Package.model_dump p])%list
          else get_packages hall_id db)
  /\ (forall s,
        get_shubh_dates hall_id (state_after (create_shubh_date s admin db))
        = if hall_selected hall_id (ShubhDate.hall_id s)
             && (List.length (get_shubh_dates hall_id db) <? 1000)%nat
          then (get_shubh_dates hall_id db ++ [ShubhDate.model_dump s])%list
          else get_shubh_dates hall_id db).
Proof.
  intros hall_id admin db; split; [|split].
  - intros s; unfold get_services, create_service, state_after, insert_one.
    cbn [snd services bump_oid set_services].
    rewrite find_to_list_insert.
    change (with_oid (next_oid db) (Service.model_dump s))
      with (stored_service (next_oid db, s)).
    rewrite hall_query_selects_service; reflexivity.
  - intros p; unfold get_packages, create_package, state_after, insert_one.
    cbn [snd packages bump_oid set_packages].
    rewrite find_to_list_insert.
    change (with_oid (next_oid db) (Package.model_dump p))
      with (stored_package (next_oid db, p)).
    rewrite hall_query_selects_package; reflexivity.
  - intros s; unfold get_shubh_dates, create_shubh_date, state_after,
      insert_one.
    cbn [snd shubh_dates bump_oid set_shubh_dates].
    rewrite find_to_list_insert.
    change (with_oid (next_oid db) (ShubhDate.model_dump s))
      with (stored_shubh_date (next_oid db, s)).
    rewrite hall_query_selects_shubh_date; reflexivity.
Qed.

Lemma validate_hall_dump : forall uuid h,
  Hall.validate uuid (Hall.model_dump h) = Some h.
Proof. intros uuid [i n nm c r l im [lg|] [de|] [dm|]]; reflexivity. Qed.

Lemma validate_service_dump : forall uuid s,
  Service.validate uuid (Service.model_dump s) = Some s.
Proof. intros uuid [i h n nm [p|] [de|] [dm|] [im|]]; reflexivity. Qed.

Lemma validate_package_dump : forall uuid p,
  Package.validate uuid (Package.model_dump p) = Some p.
Proof.
  intros uuid [i h pt n nm it [r|] cc [cu|] [ci|] [de|] [dm|] [cf|]];
    unfold Package.validate, Package.model_dump;
    cbn -[all_docs]; unfold get_docs; cbn -[all_docs];
    unfold vdocs; rewrite !all_docs_vdocs; reflexivity.
Qed.

Lemma validate_shubh_date_dump : forall uuid s,
  ShubhDate.validate uuid (ShubhDate.model_dump s) = Some s.
Proof. intros uuid [i d o om h]; reflexivity. Qed.

Lemma typed_listing :
  forall (A : Type) (dump : A -> doc) (validate : nat -> doc -> option A)
         (sel : A -> bool) q n stored i,
    (forall oa, matches q (("_id", VOid (fst oa)) :: dump (snd oa))
                = sel (snd oa)) ->
    (forall oa, project_out ["_id"] (("_id", VOid (fst oa)) :: dump (snd oa))
                = dump (snd oa)) ->
    (forall j a, validate j (dump a) = Some a) ->
    response_validation_list validate i
      (find_to_list q ["_id"] n
         (map (fun oa => ("_id", VOid (fst oa)) :: dump (snd oa)) stored))
    = Ok (firstn n (filter sel (map snd stored))).
Proof.
  intros A dump validate sel q n stored i Hsel Hproj Hval.
  unfold find_to_list.
  rewrite (filter_map_commute (fun oa => ("_id", VOid (fst oa)) :: dump (snd oa))).
  rewrite firstn_map, map_map.
  rewrite (filter_ext _ _ Hsel).
  rewrite <- select_stored.
  rewrite (map_ext _ _ Hproj).
  rewrite <- (map_id (map snd _)) at 1.
  rewrite !map_map.
  apply (response_validation_list_map validate
           (fun oa : N * A => dump (snd oa)) (fun oa => snd oa)).
  intros x j; apply Hval.
Qed.

Lemma listings_stored_halls : forall uuid4 db stored,
  halls db = map stored_hall stored ->
  get_halls_response uuid4 db = Ok (firstn 100 (map snd stored)).
Proof.
  intros uuid4 db stored Hdb.
  unfold get_halls_response, get_halls; rewrite Hdb.
  rewrite <- (filter_all (fun _ : Hall.t => true) (map snd stored))
    by reflexivity.
  apply (typed_listing Hall.t Hall.model_dump
           (fun i => Hall.validate (uuid4 i)) (fun _ => true)).
  - reflexivity.
  - reflexivity.
  - intros j a; apply validate_hall_dump.
Qed.

(** X15.  On stored records the listings of halls, services, packages and
    shubh dates return the stored records themselves, in the order of the
    store: the records of the selected hall, the first 1000 of them (the
    first 100 halls).  The response model rejects none and changes none. *)
Theorem listings_return_stored_records : forall uuid4 hall_id db,
  (forall stored, halls db = map stored_hall stored ->
     get_halls_response uuid4 db = Ok (firstn 100 (map snd stored)))
  /\ (forall stored, services db = map stored_service stored ->
        get_services_response uuid4 hall_id db
        = Ok (firstn 1000
                (filter (fun s => hall_selected hall_id (Service.hall_id s))
                   (map snd stored))))
  /\ (forall stored, packages db = map stored_package stored ->
        get_packages_response uuid4 hall_id db
        = Ok (firstn 1000
                (filter (fun p => hall_selected hall_id (Package.hall_id p))
                   (map snd stored))))
  /\ (forall stored, shubh_dates db = map stored_shubh_date stored ->
        get_shubh_dates_response uuid4 hall_id db
        = Ok (firstn 1000
                (filter (fun s => hall_selected hall_id (ShubhDate.hall_id s))
                   (map snd stored)))).
Proof.
  intros uuid4 hall_id db; repeat match goal with |- _ /\ _ => split end;
    intros stored Hdb.
  - apply listings_stored_halls; exact Hdb.
  - unfold get_services_response, get_services; rewrite Hdb.
    apply (typed_listing Service.t Service.model_dump
             (fun i => Service.validate (uuid4 i))
             (fun s => hall_selected hall_id (Service.hall_id s))).
    + apply hall_query_selects_service.
    + reflexivity.
    + intros j a; apply validate_service_dump.
  - unfold get_packages_response, get_packages; rewrite Hdb.
    apply (typed_listing Package.t Package.model_dump
             (fun i => Package.validate (uuid4 i))
             (fun p => hall_selected hall_id (Package.hall_id p))).
    + apply hall_query_selects_package.
    + reflexivity.
    + intros j a; apply validate_package_dump.
  - unfold get_shubh_dates_response, get_shubh_dates; rewrite Hdb.
    apply (typed_listing ShubhDate.t ShubhDate.model_dump
             (fun i => ShubhDate.validate (uuid4 i))
             (fun s => hall_selected hall_id (ShubhDate.hall_id s))).
    + apply hall_query_selects_shubh_date.
    + reflexivity.
    + intros j a; apply validate_shubh_date_dump.
Qed.

Lemma listings_return_stored_records_witness :
  get_services_response (fun _ => "u") (Some "hall-1") demo_database
  = Ok [demo_service "s-1" "Decor"].
Proof.
  destruct (listings_return_stored_records (fun _ => "u") (Some "hall-1")
              demo_database) as (_ & Hs & _).
  apply (Hs [(1%N, demo_service "s-1" "Decor")] eq_refl).
Defined.

(** ** Halls *)

Lemma find_one_stored :
  forall (A : Type) (dump : A -> doc) (key : A -> string) q i excluded stored,
    (forall oa, matches q (("_id", VOid (fst oa)) :: dump (snd oa))
                = String.eqb (key (snd oa)) i) ->
    find_one q excluded
      (map (fun oa => ("_id", VOid (fst oa)) :: dump (snd oa)) stored)
    = option_map
        (fun oa => project_out excluded (("_id", VOid (fst oa)) :: dump (snd oa)))
        (find_stored key i stored).
Proof.
  intros A dump key q i excluded stored Hq; unfold find_one.
  induction stored as [|oa rest IH]; [reflexivity|].
  cbn [map filter find_stored]. rewrite Hq.
  destruct (String.eqb (key (snd oa)) i); [reflexivity|exact IH].
Qed.

Lemma find_stored_updated : forall (A : Type) (key : A -> string) i a l,
  key a = i ->
  find_stored key i (update_stored key i a l)
  = option_map (fun oa => (fst oa, a)) (find_stored key i l).
Proof.
  intros A key i a l Ha; induction l as [|[o a0] rest IH]; [reflexivity|].
  cbn [update_stored find_stored snd].
  destruct (String.eqb (key a0) i) eqn:E; cbn [find_stored snd].
  - rewrite Ha, String.eqb_refl; reflexivity.
  - rewrite E; exact IH.
Qed.

Lemma find_stored_renamed : forall (A : Type) (key : A -> string) i a l,
  NoDup (map (fun oa => key (snd oa)) l) ->
  key a <> i ->
  find_stored key i (update_stored key i a l) = None.
Proof.
  intros A key i a l Hnd Ha; induction l as [|[o a0] rest IH]; [reflexivity|].
  cbn [map snd] in Hnd; inversion Hnd as [|x xs Hx Hrest]; subst.
  cbn [update_stored find_stored snd].
  destruct (String.eqb_spec (key a0) i) as [E|E]; cbn [find_stored snd].
  - destruct (String.eqb_spec (key a) i) as [E'|_]; [contradiction|].
    apply find_stored_None; rewrite <- E; exact Hx.
  - destruct (String.eqb_spec (key a0) i) as [E'|_]; [contradiction|].
    apply IH; exact Hrest.
Qed.

Lemma get_hall_stored : forall uuid i db stored,
  halls db = map stored_hall stored ->
  get_hall_response uuid i db
  = match find_stored Hall.id i stored with
    | Some oh => Ok (snd oh)
    | None => Raise (HTTPException 404 "Hall not found")
    end.
Proof.
  intros uuid i db stored Hdb; unfold get_hall_response, get_hall.
  rewrite Hdb.
  rewrite (find_one_stored Hall.t Hall.model_dump Hall.id _ i)
    by (intros oa; cbn; apply andb_true_r).
  destruct (find_stored Hall.id i stored) as [[o h]|]; [|reflexivity].
  cbn [option_map fst snd].
  change (project_out ["_id"] (("_id", VOid o) :: Hall.model_dump h))
    with (Hall.model_dump h).
  cbn [Hall.model_dump found bind].
  change (response_validation (Hall.validate uuid) (Hall.model_dump h)
          = Ok h).
  unfold response_validation; rewrite validate_hall_dump; reflexivity.
Qed.

Lemma update_hall_stored : forall i h admin db stored,
  halls db = map stored_hall stored ->
  halls (state_after (update_hall i h admin db))
  = map stored_hall (update_stored Hall.id i h stored).
Proof.
  intros i h admin db stored Hdb; cbn; rewrite Hdb.
  apply (update_one_stored Hall.id Hall.model_dump).
  - intros o a0; cbn. apply andb_true_r.
  - intros o a0; reflexivity.
Qed.

(** X16.  On stored halls, the read of a hall answers with the first stored
    hall that has the id, and with 404 "Hall not found" when none has.
    After an update addressed to a stored id whose body carries that id, the
    read of the id answers with the body.  After an update whose body
    carries another id, the ids of the store being distinct, the read of the
    addressed id answers 404: the hall has moved to the id of the body. *)
Theorem hall_read_after_update : forall uuid i h admin db stored,
  halls db = map stored_hall stored ->
  get_hall_response uuid i db
  = match find_stored Hall.id i stored with
    | Some oh => Ok (snd oh)
    | None => Raise (HTTPException 404 "Hall not found")
    end
  /\ (In i (map (fun oh => Hall.id (snd oh)) stored) -> Hall.id h = i ->
      get_hall_response uuid i (state_after (update_hall i h admin db))
      = Ok h)
  /\ (NoDup (map (fun oh => Hall.id (snd oh)) stored) -> Hall.id h <> i ->
      get_hall_response uuid i (state_after (update_hall i h admin db))
      = Raise (HTTPException 404 "Hall not found")).
Proof.
  intros uuid i h admin db stored Hdb.
  pose proof (update_hall_stored i h admin db stored Hdb) as Hdb'.
  split; [apply get_hall_stored; exact Hdb|split].
  - intros Hin Hid.
    rewrite (get_hall_stored uuid i _ _ Hdb').
    rewrite (find_stored_updated Hall.t Hall.id i h stored Hid).
    destruct (find_stored Hall.id i stored) as [oh|] eqn:E; [reflexivity|].
    apply find_stored_None in E; contradiction.
  - intros Hnd Hid.
    rewrite (get_hall_stored uuid i _ _ Hdb').
    rewrite (find_stored_renamed Hall.t Hall.id i h stored Hnd Hid).
    reflexivity.
Qed.

Lemma hall_read_after_update_witness :
  get_hall_response "u-1" "hall-1"
    (state_after
       (update_hall "hall-1" (demo_hall "hall-2") []
          (set_halls [stored_hall (5%N, demo_hall "hall-1")] demo_database)))
  = Raise (HTTPException 404 "Hall not found").
Proof.
  destruct (hall_read_after_update "u-1" "hall-1" (demo_hall "hall-2") []
              (set_halls [stored_hall (5%N, demo_hall "hall-1")] demo_database)
              [(5%N, demo_hall "hall-1")] eq_refl)
    as (_ & _ & H).
  apply H; [repeat constructor; intros []|discriminate].
Defined.

(** ** Settings *)

Lemma holds_settings_set : forall s d,
  holds_settings s (update_fields (Settings.model_dump s) d).
Proof.
  intros s d; unfold holds_settings; rewrite !lookup_update_fields.
  repeat split.
Qed.

Lemma holds_settings_validate : forall s d,
  holds_settings s d -> Settings.validate (project_out ["_id"] d) = Some s.
Proof.
  intros [i se l th] d (Hi & Hse & Hl & Hth); cbn in Hi, Hse, Hl, Hth.
  unfold Settings.validate, get_str_default, get_bool_default.
  rewrite (@lookup_project_out "id" ["_id"] d _ Hi eq_refl).
  rewrite (@lookup_project_out "signup_enabled" ["_id"] d _ Hse eq_refl).
  rewrite (@lookup_project_out "language" ["_id"] d _ Hl eq_refl).
  rewrite (@lookup_project_out "theme" ["_id"] d _ Hth eq_refl).
  reflexivity.
Qed.

Lemma find_one_first : forall q excluded pre d post,
  Forall (fun x => matches q x = false) pre ->
  matches q d = true ->
  find_one q excluded (pre ++ d :: post)%list = Some (project_out excluded d).
Proof.
  intros q excluded pre d post Hpre Hd; unfold find_one.
  induction Hpre as [|x pre Hx _ IH]; cbn [app filter].
  - rewrite Hd; reflexivity.
  - rewrite Hx; exact IH.
Qed.

Lemma upsert_splits : forall oid q u c,
  exists pre d post,
    update_one_upsert oid q u c = (pre ++ d :: post)%list
    /\ Forall (fun x => matches q x = false) pre
    /\ ((exists d0, d = update_fields u d0)
        \/ d = with_oid oid (update_fields u q)).
Proof.
  intros oid q u c; unfold update_one_upsert.
  assert (H : forall c,
    (snd (update_first q u c) = true /\
     exists pre d0 post,
       fst (update_first q u c) = (pre ++ update_fields u d0 :: post)%list
       /\ Forall (fun x => matches q x = false) pre)
    \/ (snd (update_first q u c) = false
        /\ Forall (fun x => matches q x = false) c)).
  { clear c; induction c as [|x rest IH]; cbn [update_first].
    - right; split; [reflexivity|constructor].
    - destruct (matches q x) eqn:E.
      + left; split; [reflexivity|].
        exists [], x, rest; split; [reflexivity|constructor].
      + destruct (update_first q u rest) as [rest' hit]; cbn [fst snd] in *.
        destruct IH as [[Hhit (pre & d0 & post & Hc & Hpre)]
                       |[Hhit Hall]].
        * left; split; [exact Hhit|].
          exists (x :: pre), d0, post; split;
            [rewrite Hc; reflexivity|constructor; assumption].
        * right; split; [exact Hhit|constructor; assumption]. }
  destruct (H c) as [[Hhit (pre & d0 & post & Hc & Hpre)]|[Hhit Hall]];
    destruct (update_first q u c) as [c' hit]; cbn [fst snd] in *; subst hit.
  - exists pre, (update_fields u d0), post; split; [exact Hc|].
    split; [exact Hpre|left; exists d0; reflexivity].
  - exists c, (with_oid oid (update_fields u q)), []; split; [reflexivity|].
    split; [exact Hall|right; reflexivity].
Qed.

(** X17.  After an update of the settings whose body carries the id
    "settings", whatever the settings collection held, the read of the
    settings answers with the body of the update and writes nothing. *)
Theorem settings_read_after_update : forall s admin db,
  Settings.id s = "settings" ->
  get_settings (state_after (update_settings s admin db))
  = (Ok s, state_after (update_settings s admin db)).
Proof.
  intros s admin db Hid.
  set (db' := state_after (update_settings s admin db)).
  destruct (upsert_splits (next_oid db) [("id", VStr "settings")]
              (Settings.model_dump s) (settings db))
    as (pre & d & post & Hc & Hpre & Hd).
  assert (Hholds : holds_settings s d).
  { destruct Hd as [(d0 & ->)| ->]; [apply holds_settings_set|].
    destruct s as [i se l th]; cbn in Hid; subst i; repeat split. }
  assert (Hm : matches [("id", VStr "settings")] d = true).
  { destruct Hholds as (Hi & _); cbn; rewrite Hi, Hid; reflexivity. }
  unfold get_settings.
  change (settings db')
    with (update_one_upsert (next_oid db) [("id", VStr "settings")]
            (Settings.model_dump s) (settings db)).
  rewrite Hc, (find_one_first _ ["_id"] pre d post Hpre Hm).
  assert (Hfound : found (Some (project_out ["_id"] d)) = true).
  { destruct Hholds as (Hi & _).
    pose proof (@lookup_project_out "id" ["_id"] d _ Hi eq_refl) as Hl.
    destruct (project_out ["_id"] d); [discriminate Hl|reflexivity]. }
  rewrite Hfound; cbn [negb].
  unfold response_validation; rewrite (holds_settings_validate s d Hholds).
  reflexivity.
Qed.

Lemma settings_read_after_update_witness :
  fst (get_settings
         (state_after (update_settings Settings.default [] demo_database)))
  = Ok Settings.default.
Proof.
  rewrite (settings_read_after_update Settings.default [] demo_database eq_refl).
  reflexivity.
Defined.

(** ** Listings of bookings and bills *)

Lemma mapM_Forall : forall (A B : Type) (f : A -> result B) (P : B -> Prop)
                           (Q : error -> A -> Prop) l,
  (forall x y, f x = Ok y -> P y) ->
  (forall x e, f x = Raise e -> Q e x) ->
  match mapM f l with
  | Ok ys => Forall P ys /\ List.length ys = List.length l
  | Raise e => exists x, In x l /\ Q e x
  end.
Proof.
  intros A B f P Q l HP HQ; induction l as [|x xs IH]; cbn [mapM].
  - split; [constructor|reflexivity].
  - destruct (f x) as [y|e] eqn:Ex.
    + destruct (mapM f xs) as [ys|e].
      * destruct IH as [Hall Hlen]; split;
          [constructor; [exact (HP x y Ex)|exact Hall]
          |cbn [List.length]; rewrite Hlen; reflexivity].
      * destruct IH as (x0 & Hin & Hq); exists x0; split; [now right|exact Hq].
    + exists x; split; [now left|exact (HQ x e Ex)].
Qed.

Lemma parse_timestamp_cases : forall k d,
  match parse_timestamp k d with
  | Ok d' => parsed_timestamp k d'
  | Raise e => bad_timestamp k e d
  end.
Proof.
  intros k d; unfold parse_timestamp.
  destruct (lookup k d) as [v|] eqn:E.
  - destruct v;
      try (eexists; split; [exact E|intros s0; discriminate]).
    destruct (fromisoformat s) as [t|] eqn:Ef.
    + exists (VDate t); split; [|intros s0; discriminate].
      rewrite lookup_set_field, String.eqb_refl; reflexivity.
    + right; exists s; repeat split; assumption.
  - left; split; [exact E|reflexivity].
Qed.

Lemma listing_timestamps : forall k q c,
  existsb (String.eqb k) ["_id"] = false ->
  match mapM (parse_timestamp k) (find_to_list q ["_id"] 1000 c) with
  | Ok l =>
      Forall (parsed_timestamp k) l
      /\ List.length l = List.length (find_to_list q ["_id"] 1000 c)
  | Raise e => exists d, In d c /\ matches q d = true /\ bad_timestamp k e d
  end.
Proof.
  intros k q c Hk.
  assert (HP : forall x y, parse_timestamp k x = Ok y -> parsed_timestamp k y).
  { intros x y Hxy; pose proof (parse_timestamp_cases k x) as Hc.
    rewrite Hxy in Hc; exact Hc. }
  assert (HQ : forall x e, parse_timestamp k x = Raise e -> bad_timestamp k e x).
  { intros x e Hxe; pose proof (parse_timestamp_cases k x) as Hc.
    rewrite Hxe in Hc; exact Hc. }
  pose proof (mapM_Forall doc doc (parse_timestamp k) (parsed_timestamp k)
                (bad_timestamp k) (find_to_list q ["_id"] 1000 c) HP HQ) as H.
  destruct (mapM (parse_timestamp k) (find_to_list q ["_id"] 1000 c))
    as [l|e]; [exact H|].
  destruct H as (x & Hin & Hbad).
  unfold find_to_list in Hin; apply in_map_iff in Hin.
  destruct Hin as (d & <- & Hd).
  apply In_firstn in Hd; apply filter_In in Hd; destruct Hd as [Hd Hm].
  exists d; split; [exact Hd|split; [exact Hm|]].
  unfold bad_timestamp in *.
  rewrite lookup_project_out_kept in Hbad by exact Hk; exact Hbad.
Qed.

(** X18.  Whatever the store holds, a listing of bookings or of bills that
    answers has parsed every textual timestamp: each document it returns has
    its timestamp field, and not as a text, and it returns one document for
    each of the first 1000 selected.  A listing that does not answer dies
    with a KeyError or a ValueError, and the store then holds a selected
    document that has no timestamp field, or whose timestamp is a text that
    is no ISO timestamp: one such document takes the whole listing down. *)
Theorem listings_parse_timestamps : forall hall_id admin db,
  match get_bookings hall_id admin db with
  | Ok l =>
      Forall (parsed_timestamp "booking_date") l
      /\ List.length l
         = List.length
             (find_to_list (hall_query hall_id []) ["_id"] 1000 (bookings db))
  | Raise e =>
      exists d, In d (bookings db)
                /\ matches (hall_query hall_id []) d = true
                /\ bad_timestamp "booking_date" e d
  end
  /\ match get_bills hall_id admin db with
     | Ok l =>
         Forall (parsed_timestamp "created_at") l
         /\ List.length l
            = List.length
                (find_to_list (hall_query hall_id []) ["_id"] 1000 (bills db))
     | Raise e =>
         exists d, In d (bills db)
                   /\ matches (hall_query hall_id []) d = true
                   /\ bad_timestamp "created_at" e d
     end.
Proof.
  intros hall_id admin db; split.
  - apply (listing_timestamps "booking_date" (hall_query hall_id [])
             (bookings db) eq_refl).
  - apply (listing_timestamps "created_at" (hall_query hall_id [])
             (bills db) eq_refl).
Qed.

(** ** Sessions *)

Section SessionProperties.

Variable SECRET_KEY : string.
Variable hs256 : string -> string * payload -> string.
Variable pwd_hash : string -> string -> string.
Variable pwd_verify : value -> value -> option bool.

Lemma refused_step : forall r db e,
  is_get_settings (req_operation r) = false ->
  (forall tok, req_credentials r = Some tok ->
     get_current_admin SECRET_KEY hs256 tok (req_time r) db = Raise e) ->
  step SECRET_KEY hs256 pwd_hash pwd_verify db r = db.
Proof.
  intros [o c t] db e Ho Hguard; unfold step;
    cbn [req_operation req_credentials req_time] in *.
  destruct c as [tok|].
  - rewrite (Hguard tok eq_refl); destruct o; try reflexivity; discriminate.
  - destruct o; try reflexivity; discriminate.
Qed.

(** X19.  A session ends with its token or with its admin.  On stored Admin
    records, a request to a guarded route that carries the token issued to
    an admin changes nothing in the database once 24 hours have passed since
    the token was issued, and also, at any time, once no stored admin has
    the admin's id any more: deleting an admin ends its sessions. *)
Theorem ended_session_changes_nothing : forall r db stored a T tok,
  is_get_settings (req_operation r) = false ->
  admins db = map stored_admin stored ->
  create_access_token SECRET_KEY hs256 (admin_claims a) T = Ok tok ->
  req_credentials r = Some tok ->
  ((timegm T + 86400) * 1000000 <= req_time r)%Z
  \/ ~ In (Admin.id a) (admin_ids stored) ->
  step SECRET_KEY hs256 pwd_hash pwd_verify db r = db.
Proof.
  intros r db stored a T tok Ho Hdb Htok Hcred Hended.
  destruct (issued_token_decodes SECRET_KEY hs256 (admin_claims a) T eq_refl)
    as (j & Hj & Hclaims & Hdecode).
  rewrite Hj in Htok; injection Htok as <-.
  specialize (Hdecode (req_time r)).
  destruct ((timegm T + 86400) * 1000000 <=? req_time r)%Z eqn:Hexp.
  - apply (refused_step r db (HTTPException 401 "Token expired") Ho).
    intros tok Htok'; rewrite Hcred in Htok'; injection Htok' as <-.
    unfold get_current_admin; rewrite Hdecode; reflexivity.
  - destruct Hended as [Hlate|Hgone];
      [apply Z.leb_gt in Hexp; exfalso; lia|].
    apply (refused_step r db (HTTPException 401 "Admin not found") Ho).
    intros tok Htok'; rewrite Hcred in Htok'; injection Htok' as <-.
    rewrite (get_current_admin_stored SECRET_KEY hs256 _ _ _ stored db
               Hdb Hdecode).
    rewrite (Hclaims "sub" eq_refl); cbn [admin_claims lookup String.eqb
      Ascii.eqb Bool.eqb option_map claim_json].
    assert (Hnone : find_stored Admin.id (Admin.id a) stored = None)
      by (apply find_stored_None; exact Hgone).
    rewrite Hnone; reflexivity.
Qed.

End SessionProperties.

Lemma ended_session_changes_nothing_witness :
  step demo_secret demo_hs256 demo_pwd_hash demo_pwd_verify demo_database
    {| req_operation := DeleteService "s-1";
       req_credentials := Some demo_bearer;
       req_time := 1700086400000000 |}
  = demo_database.
Proof.
  apply (ended_session_changes_nothing demo_secret demo_hs256 demo_pwd_hash
           demo_pwd_verify
           {| req_operation := DeleteService "s-1";
              req_credentials := Some demo_bearer;
              req_time := 1700086400000000 |}
           demo_database [(0%N, demo_admin "7d9f3c4e" "om_admin")]
           (demo_admin "7d9f3c4e" "om_admin") 1700000000000000 demo_bearer
           eq_refl eq_refl eq_refl eq_refl).
  left; vm_compute; discriminate.
Defined.

(** ** Upload *)

Lemma last_piece_split : forall sep s,
  occurs sep (last_piece (split sep s)) = false
  /\ (s = last_piece (split sep s)
      \/ exists pre, s = pre ++ String sep (last_piece (split sep s))).
Proof.
  intros sep s; unfold last_piece; induction s as [|c rest IH].
  - split; [reflexivity|left; reflexivity].
  - destruct IH as [Hocc Hshape]; cbn [split].
    destruct (Ascii.eqb_spec c sep) as [E|E].
    + subst c; rewrite last_cons_not_nil by apply split_not_nil.
      split; [exact Hocc|right].
      destruct Hshape as [Hrest|(pre & Hrest)].
      * exists ""; cbn [append]; rewrite <- Hrest; reflexivity.
      * exists (String sep pre); cbn [append]; rewrite <- Hrest; reflexivity.
    + destruct (split sep rest) as [|piece pieces] eqn:Es;
        [now apply split_not_nil in Es|].
      destruct pieces as [|other pieces].
      * cbn [last] in *. split.
        -- cbn [occurs]; rewrite Hocc.
           destruct (Ascii.eqb_spec c sep); [contradiction|reflexivity].
        -- left; destruct Hshape as [Hrest|(pre & Hrest)];
             [rewrite Hrest at 1; reflexivity|].
           exfalso.
           destruct (split_two_pieces sep pre piece) as (x & y & zs & E2).
           rewrite <- Hrest, Es in E2; discriminate.
      * change (last (String c piece :: other :: pieces) "")
          with (last (piece :: other :: pieces) "").
        split; [exact Hocc|right].
        destruct Hshape as [Hrest|(pre & Hrest)].
        -- exfalso; rewrite <- Hrest in Hocc.
           rewrite (split_without_separator _ _ Hocc) in Es; discriminate.
        -- exists (String c pre); cbn [append]; rewrite <- Hrest; reflexivity.
Qed.

Lemma b64encode_length_upto : forall n l,
  (List.length l <= n)%nat ->
  String.length (b64encode l) = (4 * ((List.length l + 2) / 3))%nat.
Proof.
  induction n as [n IH] using lt_wf_ind; intros l Hn.
  destruct l as [|a [|b [|c rest]]]; try reflexivity.
  cbn [b64encode String.length List.length].
  rewrite (IH (List.length rest)) by (cbn [List.length] in Hn; lia).
  replace (S (S (S (List.length rest))) + 2)%nat
    with (1 * 3 + (List.length rest + 2))%nat by lia.
  rewrite Nat.div_add_l by discriminate; lia.
Qed.

(** X20.  Given a filename, the upload never fails.  The extension it puts
    into the data URI holds no ['.'], and the filename is that extension, or
    ends in ['.'] and then that extension; the base64 text has four
    characters for every three bytes of the payload, the last group
    padded. *)
Theorem upload_image_total : forall contents name,
  exists ext,
    upload_image contents (Some name)
    = Ok [("image_data",
           VStr ("data:image/" ++ ext ++ ";base64," ++ b64encode contents))]
    /\ occurs "." ext = false
    /\ (name = ext \/ exists pre, name = pre ++ String "." ext)
    /\ String.length (b64encode contents)
       = (4 * ((List.length contents + 2) / 3))%nat.
Proof.
  intros contents name; exists (last_piece (split "." name)).
  destruct (last_piece_split "." name) as [Hocc Hshape].
  split; [reflexivity|split; [exact Hocc|split; [exact Hshape|]]].
  apply (b64encode_length_upto (List.length contents)); apply Nat.le_refl.
Qed.

(** ** The store under every sequence of requests *)

Lemma well_formed_update_any : forall b q u c,
  lookup "_id" (rev u) = None ->
  lookup "id" (rev u) = None \/ (exists s, lookup "id" (rev u) = Some (VStr s)) ->
  well_formed_collection b c ->
  well_formed_collection b (update_one q u c).
Proof.
  intros b q u c Hu Hid [Hall Hnd]; unfold update_one; split.
  - apply Forall_forall; intros d' Hin.
    rewrite Forall_forall in Hall.
    destruct (in_update_first _ _ _ _ Hin) as [Hd|(d & Hd & Hm & ->)];
      [apply Hall; exact Hd|].
    destruct (Hall d Hd) as [(n & Eo & Hn) (s & Es)]; split.
    + exists n; split; [|exact Hn].
      unfold oid_of; rewrite lookup_update_fields, Hu; exact Eo.
    + unfold id_of in *; rewrite lookup_update_fields.
      destruct Hid as [-> |(s' & ->)]; [exists s; exact Es|exists s'; reflexivity].
  - rewrite map_update_first; [exact Hnd|].
    intros d _ _; unfold oid_of; rewrite lookup_update_fields, Hu; reflexivity.
Qed.

Lemma well_formed_upsert_any : forall b q u c,
  lookup "_id" (rev u) = None ->
  has_key "_id" (update_fields u q) = false ->
  (exists s, lookup "id" (rev u) = Some (VStr s)) ->
  well_formed_collection b c ->
  well_formed_collection (N.succ b) (update_one_upsert b q u c).
Proof.
  intros b q u c Hu Hkey Hnew Hwf; unfold update_one_upsert.
  pose proof (well_formed_update_any b q u c Hu (or_intror Hnew) Hwf) as Hupd.
  unfold update_one in Hupd.
  destruct (update_first q u c) as [c' hit] eqn:E; cbn [fst] in Hupd.
  destruct hit.
  - apply (@well_formed_collection_weaken b); [lia|exact Hupd].
  - apply (@well_formed_insert b (update_fields u q) c Hkey); [|exact Hwf].
    destruct Hnew as (s & Hs); exists s; unfold id_of.
    rewrite lookup_update_fields, Hs; reflexivity.
Qed.

Lemma well_formed_set : forall n c' db,
  well_formed db ->
  well_formed_collection (next_oid db) c' ->
  well_formed (set_collection n c' db).
Proof.
  intros n c' db Hwf Hc.
  pose proof (fun m => @well_formed_get db m Hwf) as Hget.
  unfold well_formed, collections.
  pose proof (Hget Admins); pose proof (Hget Halls);
    pose proof (Hget Services); pose proof (Hget Packages);
    pose proof (Hget ShubhDates); pose proof (Hget Bookings);
    pose proof (Hget Bills); pose proof (Hget SettingsColl).
  destruct n; cbn in *;
    repeat (apply Forall_cons; [assumption|]); apply Forall_nil.
Qed.

Lemma well_formed_set_bump : forall n c' db,
  well_formed db ->
  well_formed_collection (N.succ (next_oid db)) c' ->
  well_formed (bump_oid (set_collection n c' db)).
Proof.
  intros n c' db Hwf Hc.
  assert (Hget : forall m, well_formed_collection (N.succ (next_oid db))
                             (get_collection m db)).
  { intros m; apply (@well_formed_collection_weaken (next_oid db));
      [lia|apply well_formed_get; exact Hwf]. }
  unfold well_formed, collections.
  pose proof (Hget Admins); pose proof (Hget Halls);
    pose proof (Hget Services); pose proof (Hget Packages);
    pose proof (Hget ShubhDates); pose proof (Hget Bookings);
    pose proof (Hget Bills); pose proof (Hget SettingsColl).
  destruct n; cbn in *;
    repeat (apply Forall_cons; [assumption|]); apply Forall_nil.
Qed.

Lemma well_formed_updated : forall n q u db,
  well_formed db ->
  lookup "_id" (rev u) = None ->
  lookup "id" (rev u) = None \/ (exists s, lookup "id" (rev u) = Some (VStr s)) ->
  well_formed (set_collection n (update_one q u (get_collection n db)) db).
Proof.
  intros n q u db Hwf Hoid Hid.
  apply well_formed_set; [exact Hwf|].
  apply well_formed_update_any; [assumption|assumption|].
  apply well_formed_get; exact Hwf.
Qed.

Lemma well_formed_inserted : forall n d db,
  well_formed db ->
  has_key "_id" d = false ->
  (exists s, id_of d = Some (VStr s)) ->
  well_formed
    (bump_oid
       (set_collection n (insert_one (next_oid db) d (get_collection n db)) db)).
Proof.
  intros n d db Hwf Hkey Hid.
  apply well_formed_set_bump; [exact Hwf|].
  apply well_formed_insert; [assumption|assumption|].
  apply well_formed_get; exact Hwf.
Qed.

Lemma well_formed_deleted : forall n q db,
  well_formed db ->
  well_formed (set_collection n (delete_one q (get_collection n db)) db).
Proof.
  intros n q db Hwf.
  apply well_formed_set; [exact Hwf|].
  apply well_formed_delete, well_formed_get; exact Hwf.
Qed.

Section StoreInvariant.

Variable SECRET_KEY : string.
Variable hs256 : string -> string * payload -> string.
Variable pwd_hash : string -> string -> string.
Variable pwd_verify : value -> value -> option bool.

Lemma get_settings_well_formed : forall db,
  well_formed db ->
  well_formed (state_after (get_settings db))
  /\ (next_oid db <= next_oid (state_after (get_settings db)))%N.
Proof.
  intros db Hwf; unfold get_settings, state_after.
  destruct (negb (found _)); cbn [snd].
  - split; [|cbn; lia].
    apply (well_formed_inserted SettingsColl); [exact Hwf|reflexivity|].
    eexists; reflexivity.
  - split; [exact Hwf|lia].
Qed.

Lemma run_guarded_well_formed : forall o admin db,
  well_formed db ->
  well_formed (run_guarded pwd_hash pwd_verify o admin db)
  /\ (next_oid db <= next_oid (run_guarded pwd_hash pwd_verify o admin db))%N.
Proof.
  intros o admin db Hwf.
  destruct o; cbn [run_guarded];
    try (apply get_settings_well_formed; exact Hwf);
    unfold state_after.
  - (* change-password *)
    unfold change_password.
    destruct (lookup "password_hash" admin); [|split; [exact Hwf|cbn [snd]; lia]].
    destruct (pwd_verify _ _) as [[|]|]; try (split; [exact Hwf|cbn [snd]; lia]).
    destruct (lookup "id" admin); [|split; [exact Hwf|cbn [snd]; lia]].
    split; [|cbn; lia].
    apply (well_formed_updated Admins); [exact Hwf|reflexivity|left; reflexivity].
  - (* create admin *)
    unfold create_admin.
    destruct (lookup "username" admin_data) as [u|];
      [|split; [exact Hwf|cbn [snd]; lia]].
    destruct (found _); [split; [exact Hwf|cbn [snd]; lia]|].
    destruct (lookup "password" admin_data) as [[]|];
      try (split; [exact Hwf|cbn [snd]; lia]).
    destruct (lookup "hall_name" admin_data) as [h|];
      [|split; [exact Hwf|cbn [snd]; lia]].
    destruct u, h; try (split; [exact Hwf|cbn [snd]; lia]).
    split; [|cbn; lia].
    apply (well_formed_inserted Admins); [exact Hwf|reflexivity|].
    eexists; reflexivity.
  - (* delete admin *)
    unfold delete_admin.
    destruct (lookup "id" admin); [|split; [exact Hwf|cbn [snd]; lia]].
    destruct (value_eqb _ _); [split; [exact Hwf|cbn [snd]; lia]|].
    split; [|cbn; lia].
    apply (well_formed_deleted Admins); exact Hwf.
  - split; [|cbn; lia].
    apply (well_formed_updated Halls); [exact Hwf|reflexivity|].
    right; eexists; reflexivity.
  - split; [|cbn; lia].
    apply (well_formed_inserted Services); [exact Hwf|reflexivity|].
    eexists; reflexivity.
  - split; [|cbn; lia].
    apply (well_formed_updated Services); [exact Hwf|reflexivity|].
    right; eexists; reflexivity.
  - split; [|cbn; lia]. apply (well_formed_deleted Services); exact Hwf.
  - split; [|cbn; lia].
    apply (well_formed_inserted Packages); [exact Hwf|reflexivity|].
    eexists; reflexivity.
  - split; [|cbn; lia].
    apply (well_formed_updated Packages); [exact Hwf|reflexivity|].
    right; eexists; reflexivity.
  - split; [|cbn; lia]. apply (well_formed_deleted Packages); exact Hwf.
  - split; [|cbn; lia].
    apply (well_formed_inserted ShubhDates); [exact Hwf|reflexivity|].
    eexists; reflexivity.
  - split; [|cbn; lia]. apply (well_formed_deleted ShubhDates); exact Hwf.
  - split; [|cbn; lia].
    apply (well_formed_inserted Bookings); [exact Hwf|reflexivity|].
    eexists; reflexivity.
  - split; [|cbn; lia].
    apply (well_formed_updated Bookings); [exact Hwf|reflexivity|].
    right; eexists; reflexivity.
  - split; [|cbn; lia]. apply (well_formed_deleted Bookings); exact Hwf.
  - split; [|cbn; lia].
    apply (well_formed_inserted Bills); [exact Hwf|reflexivity|].
    eexists; reflexivity.
  - split; [|cbn; lia].
    apply (well_formed_updated Bills); [exact Hwf|reflexivity|].
    right; eexists; reflexivity.
  - split; [|cbn; lia]. apply (well_formed_deleted Bills); exact Hwf.
  - split; [|cbn; lia].
    apply (well_formed_set_bump SettingsColl); [exact Hwf|].
    apply well_formed_upsert_any; [reflexivity|reflexivity| |].
    + eexists; reflexivity.
    + apply (@well_formed_get db SettingsColl Hwf).
Qed.

Lemma step_well_formed : forall db r,
  well_formed db ->
  well_formed (step SECRET_KEY hs256 pwd_hash pwd_verify db r)
  /\ (next_oid db
      <= next_oid (step SECRET_KEY hs256 pwd_hash pwd_verify db r))%N.
Proof.
  intros db [o c t] Hwf; unfold step;
    cbn [req_operation req_credentials req_time].
  assert (Hguarded :
    let db' := match c with
               | Some tok =>
                   match get_current_admin SECRET_KEY hs256 tok t db with
                   | Ok admin => run_guarded pwd_hash pwd_verify o admin db
                   | Raise _ => db
                   end
               | None => db
               end in
    well_formed db' /\ (next_oid db <= next_oid db')%N).
  { cbv zeta; destruct c as [tok|]; [|split; [exact Hwf|lia]].
    destruct (get_current_admin SECRET_KEY hs256 tok t db);
      [|split; [exact Hwf|lia]].
    apply run_guarded_well_formed; exact Hwf. }
  destruct o; try exact Hguarded.
  apply get_settings_well_formed; exact Hwf.
Qed.

(** X21.  Under every sequence of requests, also those whose updates carry
    another id than the one they are addressed to, a store in which every
    document has a string id and an [_id] below the counter, no two
    documents of a collection with the same [_id], stays such a store, and
    the counter never goes back: an update may change the id of a document,
    but it leaves no document without a string id and makes no two [_id]
    equal. *)
Theorem store_stays_well_formed : forall rs db,
  well_formed db ->
  well_formed (run SECRET_KEY hs256 pwd_hash pwd_verify db rs)
  /\ (next_oid db
      <= next_oid (run SECRET_KEY hs256 pwd_hash pwd_verify db rs))%N.
Proof.
  unfold run; induction rs as [|r rest IH]; intros db Hwf; cbn [fold_left].
  - split; [exact Hwf|lia].
  - destruct (step_well_formed db r Hwf) as [Hwf' Hle].
    destruct (IH _ Hwf') as [Hwf'' Hle'].
    split; [exact Hwf''|lia].
Qed.

End StoreInvariant.

Lemma store_stays_well_formed_witness :
  well_formed
    (demo_run demo_database
       [demo_request (UpdateService "s-1" (demo_service "s-2" "Decor"));
        demo_request GetSettings]).
Proof.
  apply (store_stays_well_formed demo_secret demo_hs256 demo_pwd_hash
           demo_pwd_verify
           [demo_request (UpdateService "s-1" (demo_service "s-2" "Decor"));
            demo_request GetSettings]
           demo_database demo_database_well_formed).
Defined.

(** ** The seeded halls *)

(** X22.  After the seeding of a database without halls, the hall listing
    answers with the two default halls, Om Lawns first, under the ids drawn
    for them; each is read back under its id when the two ids differ. *)
Theorem seeded_halls_are_listed : forall pwd_hash e uuid4 uuid db,
  halls db = [] ->
  get_halls_response uuid4 (startup_event pwd_hash e db) = Ok (default_halls e)
  /\ (hall1_uuid e <> hall2_uuid e ->
      map (fun h => get_hall_response uuid (Hall.id h)
                      (startup_event pwd_hash e db))
        (default_halls e)
      = map Ok (default_halls e)).
Proof.
  intros pwd_hash e uuid4 uuid db Hempty.
  destruct (startup_event_shape pwd_hash e db)
    as (n1 & n2 & m1 & m2 & _ & Hh & _).
  cbv zeta in Hh; rewrite Hempty in Hh; cbn [app] in Hh.
  split.
  - rewrite (listings_stored_halls uuid4 (startup_event pwd_hash e db) _ Hh).
    reflexivity.
  - intros Hne; cbn [map default_halls Hall.id].
    rewrite !(get_hall_stored uuid _ _ _ Hh).
    cbn [combine default_halls find_stored snd Hall.id].
    rewrite String.eqb_refl.
    destruct (String.eqb_spec (hall1_uuid e) (hall2_uuid e)) as [E|_];
      [contradiction|].
    rewrite String.eqb_refl; reflexivity.
Qed.

(** ** Timestamps as text *)

(** X23.  The text a booking or a bill is stored with determines its
    timestamp: two valid timestamps with the same ISO text are the same
    timestamp, offset included, and the text is read back as the timestamp
    it was written from. *)
Theorem isoformat_determines_timestamp : forall d1 d2,
  valid_datetime d1 = true -> valid_datetime d2 = true ->
  (isoformat d1 = isoformat d2 -> d1 = d2)
  /\ fromisoformat (isoformat d1) = Some d1.
Proof.
  intros d1 d2 H1 H2; split; [|apply fromisoformat_isoformat; exact H1].
  intros E.
  pose proof (fromisoformat_isoformat d1 H1) as E1.
  pose proof (fromisoformat_isoformat d2 H2) as E2.
  rewrite E, E2 in E1; injection E1 as ->; reflexivity.
Qed.

Lemma isoformat_determines_timestamp_witness :
  fromisoformat (isoformat (utc 2025 1 5 10 30 0 250000))
  = Some (utc 2025 1 5 10 30 0 250000).
Proof.
  apply (isoformat_determines_timestamp (utc 2025 1 5 10 30 0 250000)
           (utc 2025 1 5 10 30 0 250000) eq_refl eq_refl).
Defined.

Lemma seeded_halls_are_listed_witness :
  get_halls_response (fun _ => "u") (startup_event demo_pwd_hash demo_draws demo_database)
  = Ok (default_halls demo_draws).
Proof.
  apply (seeded_halls_are_listed demo_pwd_hash demo_draws (fun _ => "u") "u"
           demo_database eq_refl).
Defined.
